(** * Release integrity registry: ledger contract and gateway

    A shallow embedding of
    - the chaincode [SoftwareReleaseContract.java] with its data class
      [SoftwareRelease.java], and
    - the TypeScript gateway: [FileStorageService.ts], the Fabric client
      [fabricNetwork.ts], the models [Package.ts], [Subscription.ts],
      [DownloadLog.ts] over the tables of [db/migrations],
      [NotificationService.ts] and the route handlers of
      [routes/packages.ts],
    followed by the properties of the release registry stated over them. *)

From stdpp Require Import gmap strings list fin_maps.
From Stdlib.Strings Require Import Ascii Byte.

Open Scope string_scope.

(** ** The chaincode *)

Module Chaincode.

(** [SoftwareRelease.java]: five string properties with getters and setters. *)
Record SoftwareRelease := mkSoftwareRelease {
  packageId : string;
  version : string;
  fileHash : string;
  status : string;      (* "ACTIVE" or "DISCONTINUED" *)
  publisher : string
}.

#[global] Instance SoftwareRelease_eq_dec : EqDecision SoftwareRelease.
Proof. solve_decision. Defined.

Definition setStatus (s : string) (r : SoftwareRelease) : SoftwareRelease :=
  {| packageId := packageId r; version := version r; fileHash := fileHash r;
     status := s; publisher := publisher r |}.

Inductive ReleaseErrors :=
  | RELEASE_NOT_FOUND
  | RELEASE_ALREADY_EXISTS
  | INVALID_HASH
  | RELEASE_DISCONTINUED.

(** [new ChaincodeException(message, payload)] *)
Record ChaincodeException := mkChaincodeException {
  cc_message : string;
  cc_payload : ReleaseErrors
}.

(** The world state behind [ctx.getStub()].  The contract only ever stores
    [genson.serialize(release)] and reads it back with [genson.deserialize];
    the store is kept here at the level of the records, the JSON text being
    the record's serialisation.  An absent key is the case in which
    [getStringState] answers null or the empty string. *)
Abbreviation WorldState := (gmap string SoftwareRelease).

(** The transaction context: the submitting client's MSP identity.  The stub
    is threaded through [Tx]. *)
Record Context := mkContext { getMSPID : string }.

Inductive Outcome (A : Type) :=
  | Returned (a : A) (stub : WorldState)
  | Threw (e : ChaincodeException).
Arguments Returned {A} a stub.
Arguments Threw {A} e.

(** A contract method body: reads and writes the stub, returns or throws. *)
Definition Tx (A : Type) : Type := WorldState → Outcome A.

#[global] Instance Tx_ret : MRet Tx := λ A a ws, Returned a ws.
#[global] Instance Tx_bind : MBind Tx := λ A B f m ws,
  match m ws with
  | Returned a ws' => f a ws'
  | Threw e => Threw e
  end.

Definition throw {A} (e : ChaincodeException) : Tx A := λ _, Threw e.
Definition getStringState (key : string) : Tx (option SoftwareRelease) :=
  λ ws, Returned (ws !! key) ws.
Definition putStringState (key : string) (r : SoftwareRelease) : Tx unit :=
  λ ws, Returned () (<[key := r]> ws).

(** Helper methods *)

Definition createKey (ctx : Context) (packageId version : string) : string :=
  packageId ++ ":" ++ version.

Definition ReleaseExists (ctx : Context) (key : string) : Tx bool :=
  releaseJSON ← getStringState key;
  mret (match releaseJSON with Some _ => true | None => false end).

Definition getRelease (ctx : Context) (key : string) : Tx SoftwareRelease :=
  releaseJSON ← getStringState key;
  match releaseJSON with
  | None =>
      let errorMessage := "Release not found for key: " ++ key in
      throw (mkChaincodeException errorMessage RELEASE_NOT_FOUND)
  | Some release => mret release
  end.

(** Transactions *)

Definition PublishRelease (ctx : Context) (packageId version fileHash : string)
  : Tx SoftwareRelease :=
  let key := createKey ctx packageId version in
  found ← ReleaseExists ctx key;
  if (found : bool) then
    let errorMessage :=
      "Release " ++ packageId ++ " version " ++ version ++ " already exists" in
    throw (mkChaincodeException errorMessage RELEASE_ALREADY_EXISTS)
  else
    let publisher := getMSPID ctx in
    let release := mkSoftwareRelease packageId version fileHash "ACTIVE" publisher in
    putStringState key release;;
    mret release.

Definition DiscontinueRelease (ctx : Context) (packageId version : string)
  : Tx SoftwareRelease :=
  let key := createKey ctx packageId version in
  release ← getRelease ctx key;
  let release := setStatus "DISCONTINUED" release in
  putStringState key release;;
  mret release.

Definition ValidateRelease (ctx : Context) (packageId version fileHash : string)
  : Tx bool :=
  let key := createKey ctx packageId version in
  found ← ReleaseExists ctx key;
  if negb found then mret false
  else
    release ← getRelease ctx key;
    if negb (String.eqb (Chaincode.fileHash release) fileHash) then mret false
    else if String.eqb "DISCONTINUED" (status release) then mret false
    else mret true.

Definition GetRelease (ctx : Context) (packageId version : string)
  : Tx SoftwareRelease :=
  let key := createKey ctx packageId version in
  getRelease ctx key.

(** The two exceptions the transactions throw. *)
Definition already_exists (packageId version : string) : ChaincodeException :=
  mkChaincodeException
    ("Release " ++ packageId ++ " version " ++ version ++ " already exists")
    RELEASE_ALREADY_EXISTS.
Definition not_found (key : string) : ChaincodeException :=
  mkChaincodeException ("Release not found for key: " ++ key) RELEASE_NOT_FOUND.

(** *** The ledger as a sequence of submitted transactions

    [SUBMIT] transactions commit the stub they return; a transaction that
    throws commits nothing.  [EVALUATE] transactions never commit. *)

Inductive Submit :=
  | SubmitPublish (ctx : Context) (packageId version fileHash : string)
  | SubmitDiscontinue (ctx : Context) (packageId version : string).

Definition commit {A} (o : Outcome A) (ws : WorldState) : WorldState :=
  match o with
  | Returned _ ws' => ws'
  | Threw _ => ws
  end.

Definition submit (tx : Submit) (ws : WorldState) : WorldState :=
  match tx with
  | SubmitPublish ctx p v h => commit (PublishRelease ctx p v h ws) ws
  | SubmitDiscontinue ctx p v => commit (DiscontinueRelease ctx p v ws) ws
  end.

Definition submit_all (txs : list Submit) (ws : WorldState) : WorldState :=
  foldl (λ ws tx, submit tx ws) ws txs.

(** The key a submitted transaction addresses. *)
Definition tx_key (tx : Submit) : string :=
  match tx with
  | SubmitPublish ctx p v _ => createKey ctx p v
  | SubmitDiscontinue ctx p v => createKey ctx p v
  end.

(** Ledgers that the contract can produce from the empty ledger. *)
Inductive reachable : WorldState → Prop :=
  | reachable_genesis : reachable ∅
  | reachable_submit ws tx : reachable ws → reachable (submit tx ws).

(** The status recorded at a key, if any. *)
Definition status_at (ws : WorldState) (key : string) : option string :=
  status <$> ws !! key.

(** The transitions of the per-key state machine
    [[absent] --publish--> ACTIVE --discontinue--> DISCONTINUED], together
    with the steps that leave a key as it is. *)
Inductive transition : option string → option string → Prop :=
  | stay_absent : transition None None
  | stay_active : transition (Some "ACTIVE") (Some "ACTIVE")
  | stay_discontinued : transition (Some "DISCONTINUED") (Some "DISCONTINUED")
  | publish_step : transition None (Some "ACTIVE")
  | discontinue_step : transition (Some "ACTIVE") (Some "DISCONTINUED").

End Chaincode.

(** ** The gateway *)

Module Gateway.
Import Chaincode.

(** A JavaScript [Error]: its message and, for Node's system errors, a code. *)
Record Error := mkError { message : string; code : option string }.

Abbreviation Buffer := (list byte).

(** An absolute, normalised path of the file system: its components from
    the root directory downwards. *)
Abbreviation Path := (list string).

(** A row of the [packages] table (time stamps left out). *)
Record Package := mkPackage {
  package_id : string;
  owner_id : string;
  name : string;
  description : option string
}.

(** A row of the [download_logs] table. *)
Record DownloadLog := mkDownloadLog {
  log_package_id : string;
  log_version : string;
  log_user_id : option string;
  log_ip_address : option string
}.

(** A row of the [users] table, as far as the notifier reads it. *)
Record User := mkUser { email : string }.

(** A message handed to the mail provider: recipient and subject. *)
Record Mail := mkMail { mail_to : string; mail_subject : string }.

(** What the collaborators do while a request is served: a message makes
    every call to that collaborator reject with it (the database is not
    reachable or refuses a statement for a reason that the schema of
    [db/migrations] does not show, the file system refuses the operation,
    the peer does not answer); [mail_fault] makes the mail provider
    refuse. *)
Record Faults := mkFaults {
  db_fault : option string;
  fs_fault : option string;
  ledger_fault : option string;
  mail_fault : bool
}.

Definition no_faults : Faults := mkFaults None None None false.

(** The three stores, the mail outbox and the state of the collaborators.
    [users] is keyed by the [id] the database generated for the row;
    [storage] holds the files of the file system by their absolute path. *)
Record World := mkWorld {
  packages : gmap string Package;
  users : gmap string User;
  subscriptions : list (string * string);   (* (user_id, package_id) *)
  download_logs : list DownloadLog;
  storage : gmap Path Buffer;
  ledger : gmap string SoftwareRelease;
  outbox : list Mail;
  faults : Faults
}.

Definition set_packages (f : gmap string Package → gmap string Package) (w : World) : World :=
  mkWorld (f (packages w)) (users w) (subscriptions w) (download_logs w)
          (storage w) (ledger w) (outbox w) (faults w).
Definition set_subscriptions (f : list (string * string) → list (string * string)) (w : World) : World :=
  mkWorld (packages w) (users w) (f (subscriptions w)) (download_logs w)
          (storage w) (ledger w) (outbox w) (faults w).
Definition set_download_logs (f : list DownloadLog → list DownloadLog) (w : World) : World :=
  mkWorld (packages w) (users w) (subscriptions w) (f (download_logs w))
          (storage w) (ledger w) (outbox w) (faults w).
Definition set_storage (f : gmap Path Buffer → gmap Path Buffer) (w : World) : World :=
  mkWorld (packages w) (users w) (subscriptions w) (download_logs w)
          (f (storage w)) (ledger w) (outbox w) (faults w).
Definition set_ledger (f : gmap string SoftwareRelease → gmap string SoftwareRelease) (w : World) : World :=
  mkWorld (packages w) (users w) (subscriptions w) (download_logs w)
          (storage w) (f (ledger w)) (outbox w) (faults w).
Definition set_outbox (f : list Mail → list Mail) (w : World) : World :=
  mkWorld (packages w) (users w) (subscriptions w) (download_logs w)
          (storage w) (ledger w) (f (outbox w)) (faults w).
Definition set_faults (fl : Faults) (w : World) : World :=
  mkWorld (packages w) (users w) (subscriptions w) (download_logs w)
          (storage w) (ledger w) (outbox w) fl.

(** *** Promises

    An [async] body run against the world: it resolves or rejects, and the
    writes it made before rejecting stay. *)
Inductive Result (A : Type) :=
  | Resolved (a : A)
  | Rejected (e : Error).
Arguments Resolved {A} a.
Arguments Rejected {A} e.

Definition Async (A : Type) : Type := World → Result A * World.

#[global] Instance Async_ret : MRet Async := λ A a w, (Resolved a, w).
#[global] Instance Async_bind : MBind Async := λ A B f m w,
  match m w with
  | (Resolved a, w') => f a w'
  | (Rejected e, w') => (Rejected e, w')
  end.

Definition reject {A} (e : Error) : Async A := λ w, (Rejected e, w).

(** [try { m } catch (error) { h error }] *)
Definition try_catch {A} (m : Async A) (h : Error → Async A) : Async A := λ w,
  match m w with
  | (Resolved a, w') => (Resolved a, w')
  | (Rejected e, w') => h e w'
  end.

(** [for (const x of xs) { await body x }] *)
Fixpoint for_of {A} (xs : list A) (body : A → Async unit) : Async unit :=
  match xs with
  | [] => mret ()
  | x :: xs' => body x;; for_of xs' body
  end.

(** A call to a collaborator: rejects when the collaborator is faulty. *)
Definition guarded {A} (fault : Faults → option string) (code : option string)
    (op : World → Result A * World) : Async A := λ w,
  match fault (faults w) with
  | Some msg => (Rejected (mkError msg code), w)
  | None => op w
  end.

(** *** [db.query] on the tables of [db/migrations] *)

Definition db_query {A} (q : World → Result A * World) : Async A :=
  guarded db_fault None q.

(** A value offered to a [VARCHAR(n)] column: one of more than [n]
    characters is refused.  (PostgreSQL cuts the value down to [n] instead
    when all that exceeds [n] is spaces; no package id, version or name that
    passed the validators of the upload route is such a value.) *)
Definition varchar (n : nat) (value : string) : bool :=
  Nat.leb (String.length value) n.

Definition value_too_long : Error :=
  mkError "value too long for type character varying" None.
Definition unique_violation : Error :=
  mkError "duplicate key value violates unique constraint" None.
Definition foreign_key_violation : Error :=
  mkError "insert or update violates foreign key constraint" None.

Module PackageModel.

(** [INSERT INTO packages ... RETURNING *] under the constraints of
    [002_create_packages.sql]: [package_id VARCHAR(255) PRIMARY KEY],
    [owner_id UUID NOT NULL REFERENCES users(id)], [name VARCHAR(255) NOT
    NULL], [description TEXT]. *)
Definition create (package_id owner_id name : string) (description : option string)
  : Async Package :=
  db_query (λ w,
    if negb (varchar 255 package_id && varchar 255 name) then
      (Rejected value_too_long, w)
    else
      match packages w !! package_id with
      | Some _ => (Rejected unique_violation, w)
      | None =>
          match users w !! owner_id with
          | None => (Rejected foreign_key_violation, w)
          | Some _ =>
              let row := mkPackage package_id owner_id name description in
              (Resolved row, set_packages (insert package_id row) w)
          end
      end).

Definition findById (packageId : string) : Async (option Package) :=
  db_query (λ w, (Resolved (packages w !! packageId), w)).

(** [DELETE FROM packages WHERE package_id = $1]; the rows of
    [subscriptions] and [download_logs] that reference the package go with
    it ([ON DELETE CASCADE]). *)
Definition delete (packageId : string) : Async unit :=
  db_query (λ w,
    (Resolved (),
     set_download_logs (filter (λ l, log_package_id l ≠ packageId))
       (set_subscriptions (filter (λ s, s.2 ≠ packageId))
         (set_packages (base.delete packageId) w)))).

(** [UPDATE packages SET name, description WHERE package_id RETURNING *];
    [rows[0]] is undefined when no row matched, and a matched row takes the
    new [name] only if it fits [VARCHAR(255)]. *)
Definition update (packageId name description : string) : Async (option Package) :=
  db_query (λ w,
    match packages w !! packageId with
    | Some old =>
        if varchar 255 name then
          let row := mkPackage (package_id old) (owner_id old) name (Some description) in
          (Resolved (Some row), set_packages (insert packageId row) w)
        else (Rejected value_too_long, w)
    | None => (Resolved None, w)
    end).

Definition isOwner (packageId userId : string) : Async bool :=
  db_query (λ w,
    (Resolved match packages w !! packageId with
              | Some row => bool_decide (owner_id row = userId)
              | None => false
              end, w)).

End PackageModel.

Module SubscriptionModel.

Definition getSubscribersByPackage (packageId : string) : Async (list string) :=
  db_query (λ w,
    (Resolved ((filter (λ s, s.2 = packageId) (subscriptions w)).*1), w)).

(** [INSERT INTO subscriptions ... ON CONFLICT (user_id, package_id) DO
    NOTHING]; both columns reference their tables. *)
Definition subscribe (userId packageId : string) : Async unit :=
  db_query (λ w,
    if decide ((userId, packageId) ∈ subscriptions w) then (Resolved (), w)
    else
      match users w !! userId, packages w !! packageId with
      | Some _, Some _ =>
          (Resolved (),
           set_subscriptions (λ subs, (subs ++ [(userId, packageId)])%list) w)
      | _, _ => (Rejected foreign_key_violation, w)
      end).

Definition unsubscribe (userId packageId : string) : Async unit :=
  db_query (λ w,
    (Resolved (),
     set_subscriptions (filter (λ s, ¬ (s.1 = userId ∧ s.2 = packageId))) w)).

Definition isSubscribed (userId packageId : string) : Async bool :=
  db_query (λ w,
    (Resolved (bool_decide
       (filter (λ s : string * string, s.1 = userId ∧ s.2 = packageId) (subscriptions w) ≠ [])),
     w)).

Definition getUserSubscriptions (userId : string) : Async (list string) :=
  db_query (λ w,
    (Resolved ((filter (λ s, s.1 = userId) (subscriptions w)).*2), w)).

End SubscriptionModel.

Module UserModel.

Definition findById (id : string) : Async (option User) :=
  db_query (λ w, (Resolved (users w !! id), w)).

End UserModel.

Module DownloadLogModel.

(** [user_id UUID REFERENCES users(id)]: null, or the id of a row. *)
Definition references_user (w : World) (userId : option string) : bool :=
  match userId with
  | Some id => bool_decide (is_Some (users w !! id))
  | None => true
  end.

(** [INSERT INTO download_logs ...] under the constraints of the migration:
    [package_id VARCHAR(255) NOT NULL REFERENCES packages], [version
    VARCHAR(50) NOT NULL], [user_id UUID REFERENCES users(id)], [ip_address
    INET] (the address is the one Express read off the socket). *)
Definition create (packageId version : string) (userId ipAddress : option string)
  : Async DownloadLog :=
  db_query (λ w,
    if negb (varchar 255 packageId && varchar 50 version) then
      (Rejected value_too_long, w)
    else
      match packages w !! packageId with
      | None => (Rejected foreign_key_violation, w)
      | Some _ =>
          if references_user w userId then
            let row := mkDownloadLog packageId version userId ipAddress in
            (Resolved row, set_download_logs (λ ls, (ls ++ [row])%list) w)
          else (Rejected foreign_key_violation, w)
      end).

(** [SELECT COUNT( * ) FROM download_logs WHERE package_id = $1 (AND version
    = $2)]; an empty [version] is falsy and counts the whole package. *)
Definition getDownloadCount (packageId : string) (version : option string) : Async nat :=
  match version with
  | Some v =>
      if decide (v = "") then
        db_query (λ w,
          (Resolved (length (filter (λ l, log_package_id l = packageId) (download_logs w))), w))
      else
        db_query (λ w,
          (Resolved (length (filter (λ l, log_package_id l = packageId ∧ log_version l = v)
                               (download_logs w))), w))
  | None =>
      db_query (λ w,
        (Resolved (length (filter (λ l, log_package_id l = packageId) (download_logs w))), w))
  end.

End DownloadLogModel.

(** *** [config/email.ts] *)

Module emailService.

(** [sendEmail] answers whether the provider took the message; it catches
    every failure itself and never rejects. *)
Definition sendEmail (to subject : string) : Async bool := λ w,
  if mail_fault (faults w) then (Resolved false, w)
  else (Resolved true, set_outbox (λ ms, (ms ++ [mkMail to subject])%list) w).

End emailService.

(** *** [services/NotificationService.ts] (the HTML bodies are left out) *)

Module NotificationService.

Definition notifySubscribers (packageId version message : string) : Async unit :=
  subscriberIds ← SubscriptionModel.getSubscribersByPackage packageId;
  if decide (length subscriberIds = 0) then mret ()
  else
    pkg ← PackageModel.findById packageId;
    let packageName :=
      match pkg with
      | Some p => if decide (name p = "") then packageId else name p
      | None => packageId
      end in
    for_of subscriberIds (λ userId,
      user ← UserModel.findById userId;
      match user with
      | Some u =>
          emailService.sendEmail (email u)
            ("New Version: " ++ packageName ++ " " ++ version);;
          mret ()
      | None => mret ()
      end).

Definition notifyVersionUpdate (packageId version : string) : Async unit :=
  notifySubscribers packageId version
    ("New version " ++ version ++ " of package " ++ packageId ++ " is now available!").

Definition notifyPackageDiscontinued (packageId : string) : Async unit :=
  subscriberIds ← SubscriptionModel.getSubscribersByPackage packageId;
  for_of subscriberIds (λ userId,
    user ← UserModel.findById userId;
    match user with
    | Some u =>
        emailService.sendEmail (email u) ("Package Discontinued: " ++ packageId);;
        mret ()
    | None => mret ()
    end).

End NotificationService.

(** *** [path.join] and [fs/promises]

    [path.join(dir, ...args)] on POSIX, for a [dir] that is absolute and
    normalised as [path.resolve] leaves it: the arguments are split at the
    separator and their segments applied to [dir] in turn.  An empty segment
    and [.] change nothing, [..] drops the last component (and stays at the
    root directory), any other segment is appended. *)

Fixpoint split_path (s : string) : list string :=
  match s with
  | EmptyString => [EmptyString]
  | String c s' =>
      if Ascii.eqb c "/"%char then EmptyString :: split_path s'
      else
        match split_path s' with
        | segment :: segments => String c segment :: segments
        | [] => [String c EmptyString]
        end
  end.

Definition push_segment (dir : Path) (segment : string) : Path :=
  if decide (segment = "" ∨ segment = ".") then dir
  else if decide (segment = "..") then removelast dir
  else (dir ++ [segment])%list.

Definition path_join (dir : Path) (args : list string) : Path :=
  foldl push_segment dir (concat (split_path <$> args)).

(** [path] is [dir] or lies below it. *)
Fixpoint is_under (dir path : Path) : bool :=
  match dir, path with
  | [], _ => true
  | d :: dir', c :: path' => if decide (d = c) then is_under dir' path' else false
  | _ :: _, [] => false
  end.

Module fs.

Definition fs_call {A} (op : World → Result A * World) : Async A :=
  guarded fs_fault None op.

(** [mkdir(dir, { recursive: true })]: directories are implicit in the map
    of files. *)
Definition mkdir (dir : Path) : Async unit :=
  fs_call (λ w, (Resolved (), w)).

Definition writeFile (filePath : Path) (data : Buffer) : Async unit :=
  fs_call (λ w, (Resolved (), set_storage (insert filePath data) w)).

Definition readFile (filePath : Path) : Async Buffer :=
  fs_call (λ w,
    match storage w !! filePath with
    | Some buffer => (Resolved buffer, w)
    | None =>
        (Rejected (mkError "ENOENT: no such file or directory" (Some "ENOENT")), w)
    end).

Definition access (filePath : Path) : Async unit :=
  fs_call (λ w,
    match storage w !! filePath with
    | Some _ => (Resolved (), w)
    | None =>
        (Rejected (mkError "ENOENT: no such file or directory" (Some "ENOENT")), w)
    end).

(** [rm(dir, { recursive: true, force: true })] *)
Definition rm (dir : Path) : Async unit :=
  fs_call (λ w,
    (Resolved (),
     set_storage (filter (λ kv : Path * Buffer, is_under dir kv.1 = false)) w)).

End fs.

(** *** [services/FileStorageService.ts] *)

(** [crypto.createHash('sha256').update(buffer).digest('hex')] *)
Class Sha256 := sha256_hex : Buffer → string.

(** [this.storageDir], the [path.resolve(baseDir)] of the constructor. *)
Class StorageRoot := storageDir : Path.

Record SavedFile := mkSavedFile {
  saved_path : Path;
  saved_hash : string;
  saved_size : nat
}.

Module fileStorage.
Section FileStorageService.
Context `{Sha256} `{StorageRoot}.

Definition calculateFileHash (buffer : Buffer) : string := sha256_hex buffer.

Definition getFilePath (packageId version : string) : Path :=
  path_join storageDir [packageId; version; "package.tar.gz"].

Definition getVersionDir (packageId version : string) : Path :=
  path_join storageDir [packageId; version].

Definition saveFile (packageId version : string) (fileBuffer : Buffer)
  : Async SavedFile :=
  try_catch
    (let versionDir := getVersionDir packageId version in
     let filePath := getFilePath packageId version in
     fs.mkdir versionDir;;
     let hash := calculateFileHash fileBuffer in
     fs.writeFile filePath fileBuffer;;
     mret (mkSavedFile filePath hash (length fileBuffer)))
    (λ error, reject (mkError ("Failed to save file: " ++ message error) None)).

Definition getFile (packageId version : string) : Async Buffer :=
  try_catch
    (let filePath := getFilePath packageId version in
     buffer ← fs.readFile filePath;
     mret buffer)
    (λ error,
      if decide (code error = Some "ENOENT") then
        reject (mkError ("Package file not found: " ++ packageId ++ "@" ++ version) None)
      else reject (mkError ("Failed to read file: " ++ message error) None)).

Definition fileExists (packageId version : string) : Async bool :=
  try_catch
    (let filePath := getFilePath packageId version in
     fs.access filePath;;
     mret true)
    (λ _, mret false).

Definition deleteFile (packageId version : string) : Async unit :=
  try_catch
    (let versionDir := getVersionDir packageId version in
     fs.rm versionDir)
    (λ error, reject (mkError ("Failed to delete file: " ++ message error) None)).

Definition deletePackage (packageId : string) : Async unit :=
  try_catch
    (let packageDir := path_join storageDir [packageId] in
     fs.rm packageDir)
    (λ error, reject (mkError ("Failed to delete package: " ++ message error) None)).

End FileStorageService.
End fileStorage.

(** *** [utils/hash.ts] *)

Module HashUtil.
Section HashUtil.
Context `{Sha256}.

Definition generateSHA256 (buffer : Buffer) : string := sha256_hex buffer.

Definition validateHash (buffer : Buffer) (expectedHash : string) : bool :=
  let actualHash := generateSHA256 buffer in
  String.eqb actualHash expectedHash.

End HashUtil.
End HashUtil.

(** *** [utils/fabricNetwork.ts] *)

(** [config.mspId], the identity under which the gateway signs, and the
    message of the error that the client library raises when the contract
    throws (the library is not part of the repository). *)
Class FabricConfig := mkFabricConfig {
  mspId : string;
  error_text : ChaincodeException → string
}.

Module fabricNetwork.
Section FabricNetworkService.
Context `{FabricConfig}.

Definition ctx : Context := mkContext mspId.

(** [contract.submitTransaction]: the contract method runs on the ledger
    and its writes are committed; a [ChaincodeException] rejects the call
    and commits nothing. *)
Definition submitTransaction {A} (method : Tx A) : Async A :=
  guarded ledger_fault None (λ w,
    match method (ledger w) with
    | Returned a stub => (Resolved a, set_ledger (λ _, stub) w)
    | Threw e => (Rejected (mkError (error_text e) None), w)
    end).

(** [contract.evaluateTransaction]: a query, nothing is committed. *)
Definition evaluateTransaction {A} (method : Tx A) : Async A :=
  guarded ledger_fault None (λ w,
    match method (ledger w) with
    | Returned a _ => (Resolved a, w)
    | Threw e => (Rejected (mkError (error_text e) None), w)
    end).

Definition publishRelease (packageId version fileHash : string) : Async unit :=
  submitTransaction (PublishRelease ctx packageId version fileHash);;
  mret ().

Definition getRelease (packageId version : string) : Async SoftwareRelease :=
  resultJson ← evaluateTransaction (GetRelease ctx packageId version);
  mret resultJson.

Definition validateRelease (packageId version fileHash : string) : Async bool :=
  resultBytes ← evaluateTransaction (ValidateRelease ctx packageId version fileHash);
  let result := if (resultBytes : bool) then "true" else "false" in
  mret (String.eqb result "true").

Definition discontinueRelease (packageId version : string) : Async unit :=
  submitTransaction (DiscontinueRelease ctx packageId version);;
  mret ().

End FabricNetworkService.
End fabricNetwork.

(** *** Requests and responses *)

(** [req.user], the payload of the verified token. *)
Record TokenPayload := mkTokenPayload {
  userId : string;
  username : string;
  role : string
}.

Record Request := mkRequest {
  req_user : option TokenPayload;
  req_ip : option string;
  req_file : option Buffer;            (* [req.file.buffer] *)
  body_packageId : string;
  body_version : string;
  body_name : string;
  body_description : option string;
  params_packageId : string;
  params_version : string
}.

(** The bodies the handlers answer with. *)
Inductive Body :=
  | ErrorJson (error : string)
  | MessageJson (message : string)
  | PublishedJson (message packageId version name fileHash : string)
      (size : nat) (downloadUrl : string)
  | ValidationJson (valid : bool) (expectedHash actualHash message : string)
  | FileSent (fileBuffer : Buffer).

Record Response := mkResponse { status_code : nat; body : Body }.

(** [res.status(c).json(b)]; [res.json(b)] and [res.send(b)] answer 200. *)
Definition json (c : nat) (b : Body) : Response := mkResponse c b.

(** [async (req, res) => { try { m } catch (error) { h error } }] *)
Definition handle (m : Async Response) (h : Error → Response) (w : World)
  : Response * World :=
  match m w with
  | (Resolved r, w') => (r, w')
  | (Rejected e, w') => (h e, w')
  end.

(** [s.includes(sub)] *)
Definition includes (s sub : string) : bool :=
  match String.index 0 sub s with
  | Some _ => true
  | None => false
  end.

(** [/^[a-z0-9.-]+$/] and [/^\d+\.\d+\.\d+$/] of the route validators. *)
Definition is_digit (a : ascii) : bool :=
  let n := nat_of_ascii a in Nat.leb 48 n && Nat.leb n 57.
Definition is_lower (a : ascii) : bool :=
  let n := nat_of_ascii a in Nat.leb 97 n && Nat.leb n 122.
Definition is_packageId_char (a : ascii) : bool :=
  is_lower a || is_digit a || Ascii.eqb a "."%char || Ascii.eqb a "-"%char.

Definition matches_packageId (s : string) : bool :=
  match String.list_ascii_of_string s with
  | [] => false
  | cs => forallb is_packageId_char cs
  end.

(** [digits_then k cs]: [cs] is [k] further groups [\.\d+] after the digits
    of the current group (of which one has been read when [seen]). *)
Fixpoint digits_then (k : nat) (seen : bool) (cs : list ascii) : bool :=
  match cs with
  | [] => seen && Nat.eqb k 0
  | c :: cs' =>
      if is_digit c then digits_then k true cs'
      else if Ascii.eqb c "."%char then
        match k with
        | S k' => seen && digits_then k' false cs'
        | O => false
        end
      else false
  end.

Definition matches_version (s : string) : bool :=
  digits_then 2 false (String.list_ascii_of_string s).

(** *** [middleware/authorization.ts] *)

Definition requireRole (allowedRoles : list string) (req : Request) : option Response :=
  match req_user req with
  | None => Some (json 401 (ErrorJson "Authentication required"))
  | Some user =>
      if decide (role user ∈ allowedRoles) then None
      else Some (json 403 (ErrorJson "Insufficient permissions"))
  end.

Definition requireOwnerOrAdmin : Request → option Response :=
  requireRole ["OWNER"; "ADMIN"].

Definition requireAdmin : Request → option Response :=
  requireRole ["ADMIN"].

(** *** [routes/packages.ts]

    A request is taken as the earlier middleware leaves it: [req_user] is
    the token payload set by [authenticate] or [optionalAuth], [req_file] the
    upload kept by multer, the body fields are the sanitised ones. *)

Section Routes.
Context `{Sha256} `{FabricConfig} `{StorageRoot}.

(** [req.user!.userId]: reading through an undefined [req.user] throws. *)
Definition user_of (req : Request) : Async TokenPayload :=
  match req_user req with
  | Some user => mret user
  | None => reject (mkError "Cannot read properties of undefined" None)
  end.

(** [x || null] on a string that may be missing *)
Definition or_null (x : option string) : option string :=
  match x with
  | Some s => if decide (s = "") then None else Some s
  | None => None
  end.

(** POST /packages/upload: the steps after the package row is settled. *)
Definition upload_publish (req : Request) (buffer : Buffer) (pkg : Package)
  : Async Response :=
  let packageId := body_packageId req in
  let version := body_version req in
  saved ← fileStorage.saveFile packageId version buffer;
  let fileHash := saved_hash saved in
  let size := saved_size saved in
  fabricNetwork.publishRelease packageId version fileHash;;
  NotificationService.notifyVersionUpdate packageId version;;
  mret (json 201
    (PublishedJson "Package published successfully" packageId version
       (name pkg) fileHash size
       ("/packages/" ++ packageId ++ "/" ++ version ++ "/download-file"))).

(** POST /packages/upload *)
Definition upload_handler (req : Request) : World → Response * World :=
  handle
    (let packageId := body_packageId req in
     match req_file req with
     | None => mret (json 400 (ErrorJson "No file uploaded"))
     | Some buffer =>
         pkg ← PackageModel.findById packageId;
         match pkg with
         | None =>
             user ← user_of req;
             pkg ← PackageModel.create packageId (userId user)
                      (body_name req) (body_description req);
             upload_publish req buffer pkg
         | Some pkg =>
             user ← user_of req;
             if decide (owner_id pkg ≠ userId user ∧ role user ≠ "ADMIN") then
               mret (json 403 (ErrorJson "Only package owner can publish new versions"))
             else upload_publish req buffer pkg
         end
     end)
    (λ error, json 500 (ErrorJson (message error))).

(** GET /packages/:packageId/:version/download-file *)
Definition download_handler (req : Request) : World → Response * World :=
  handle
    (let packageId := params_packageId req in
     let version := params_version req in
     release ← fabricNetwork.getRelease packageId version;
     if decide (status release ≠ "ACTIVE") then
       mret (json 403 (ErrorJson ("Version " ++ version ++ " is " ++ status release)))
     else
       fileBuffer ← fileStorage.getFile packageId version;
       let userId := or_null (userId <$> req_user req) in
       let ipAddress := or_null (req_ip req) in
       DownloadLogModel.create packageId version userId ipAddress;;
       mret (json 200 (FileSent fileBuffer)))
    (λ error,
      if includes (message error) "not found" then
        json 404 (ErrorJson "Package file not found")
      else json 500 (ErrorJson (message error))).

(** POST /packages/:packageId/:version/validate-file *)
Definition validate_file_handler (req : Request) : World → Response * World :=
  handle
    (let packageId := params_packageId req in
     let version := params_version req in
     match req_file req with
     | None => mret (json 400 (ErrorJson "No file uploaded for validation"))
     | Some buffer =>
         let uploadedHash := fileStorage.calculateFileHash buffer in
         release ← fabricNetwork.getRelease packageId version;
         let expectedHash := fileHash release in
         valid ← fabricNetwork.validateRelease packageId version uploadedHash;
         mret (json 200
           (ValidationJson valid expectedHash uploadedHash
              (if (valid : bool) then "File integrity verified ✓"
               else "File has been tampered with ✗")))
     end)
    (λ error, json 500 (ErrorJson (message error))).

(** DELETE /packages/:packageId *)
Definition delete_handler (req : Request) : World → Response * World :=
  handle
    (let packageId := params_packageId req in
     PackageModel.delete packageId;;
     fileStorage.deletePackage packageId;;
     NotificationService.notifyPackageDiscontinued packageId;;
     mret (json 200 (MessageJson "Package discontinued successfully")))
    (λ error, json 500 (ErrorJson (message error))).

(** The routes: role check and validators, then the handler. *)

Definition validation_error : Response := json 400 (ErrorJson "Validation error").

Definition upload_route (req : Request) (w : World) : Response * World :=
  match requireOwnerOrAdmin req with
  | Some denied => (denied, w)
  | None =>
      if matches_packageId (body_packageId req)
         && matches_version (body_version req)
         && Nat.leb 1 (String.length (body_name req))
         && Nat.leb (String.length (body_name req)) 255
      then upload_handler req w
      else (validation_error, w)
  end.

Definition download_route (req : Request) (w : World) : Response * World :=
  if negb (String.eqb (params_packageId req) "") && matches_version (params_version req)
  then download_handler req w
  else (validation_error, w).

Definition validate_file_route (req : Request) (w : World) : Response * World :=
  if negb (String.eqb (params_packageId req) "") && matches_version (params_version req)
  then validate_file_handler req w
  else (validation_error, w).

Definition delete_route (req : Request) (w : World) : Response * World :=
  match requireAdmin req with
  | Some denied => (denied, w)
  | None =>
      if negb (String.eqb (params_packageId req) "") then delete_handler req w
      else (validation_error, w)
  end.

End Routes.

(** *** The other handlers of [routes/packages.ts], the handlers of
    [routes/subscriptions.ts] and [requirePackageOwner] *)

(** An answer whose JSON body carries a payload of its own. *)
Inductive Reply (A : Type) :=
  | Answer (status : nat) (payload : A)
  | Failure (status : nat) (error : string).
Arguments Answer {A} status payload.
Arguments Failure {A} status error.

(** [{ ...release, downloadCount, fileAvailable, downloadUrl }] *)
Record ReleaseDetails := mkReleaseDetails {
  details_release : SoftwareRelease;
  downloadCount : nat;
  fileAvailable : bool;
  downloadUrl : option string
}.

Definition reply {A} (m : Async (Reply A)) (h : Error → Reply A) (w : World)
  : Reply A * World :=
  match m w with
  | (Resolved r, w') => (r, w')
  | (Rejected e, w') => (h e, w')
  end.

(** [requirePackageOwner]: [None] is [next()]. *)
Definition requirePackageOwner (req : Request) (w : World) : option Response * World :=
  match
    try_catch
      (match req_user req with
       | None => mret (Some (json 401 (ErrorJson "Authentication required")))
       | Some user =>
           if decide (role user = "ADMIN") then mret None
           else
             let packageId :=
               if decide (params_packageId req = "") then body_packageId req
               else params_packageId req in
             if decide (packageId = "") then
               mret (Some (json 400 (ErrorJson "Package ID required")))
             else
               isOwner ← PackageModel.isOwner packageId (userId user);
               if (isOwner : bool) then mret None
               else mret (Some (json 403
                                  (ErrorJson "Only package owner can perform this action")))
       end)
      (λ error, mret (Some (json 500 (ErrorJson (message error))))) w
  with
  | (Resolved r, w') => (r, w')
  | (Rejected e, w') => (Some (json 500 (ErrorJson (message e))), w')
  end.

Section MoreRoutes.
Context `{FabricConfig} `{StorageRoot}.

(** GET /packages/:packageId *)
Definition package_handler (req : Request) : World → Reply Package * World :=
  reply
    (let packageId := params_packageId req in
     pkg ← PackageModel.findById packageId;
     match pkg with
     | None => mret (Failure 404 "Package not found")
     | Some pkg => mret (Answer 200 pkg)
     end)
    (λ error, Failure 500 (message error)).

(** GET /packages/:packageId/:version *)
Definition release_handler (req : Request) : World → Reply ReleaseDetails * World :=
  reply
    (let packageId := params_packageId req in
     let version := params_version req in
     release ← fabricNetwork.getRelease packageId version;
     downloadCount ← DownloadLogModel.getDownloadCount packageId (Some version);
     fileExists ← fileStorage.fileExists packageId version;
     mret (Answer 200
       (mkReleaseDetails release downloadCount fileExists
          (if (fileExists : bool)
           then Some ("/packages/" ++ packageId ++ "/" ++ version ++ "/download-file")
           else None))))
    (λ error, Failure 500 (message error)).

(** POST /subscriptions/:packageId *)
Definition subscribe_handler (req : Request) : World → Response * World :=
  handle
    (let packageId := params_packageId req in
     pkg ← PackageModel.findById packageId;
     match pkg with
     | None => mret (json 404 (ErrorJson "Package not found"))
     | Some _ =>
         user ← user_of req;
         SubscriptionModel.subscribe (userId user) packageId;;
         mret (json 201 (MessageJson "Subscribed successfully"))
     end)
    (λ error, json 500 (ErrorJson (message error))).

(** DELETE /subscriptions/:packageId *)
Definition unsubscribe_handler (req : Request) : World → Response * World :=
  handle
    (let packageId := params_packageId req in
     user ← user_of req;
     SubscriptionModel.unsubscribe (userId user) packageId;;
     mret (json 200 (MessageJson "Unsubscribed successfully")))
    (λ error, json 500 (ErrorJson (message error))).

End MoreRoutes.

(** *** Vocabulary for the statements *)

(** A string that [path.join] takes as one component: not empty, not [.]
    or [..], and without a separator. *)
Definition plain_segment (s : string) : bool :=
  negb (String.eqb s "") && negb (String.eqb s ".") && negb (String.eqb s "..")
  && forallb (λ c, negb (Ascii.eqb c "/"%char)) (String.list_ascii_of_string s).

(** Two worlds that differ in the outbox at most. *)
Definition same_stores (w w' : World) : Prop :=
  packages w' = packages w ∧ users w' = users w ∧
  subscriptions w' = subscriptions w ∧ download_logs w' = download_logs w ∧
  storage w' = storage w ∧ ledger w' = ledger w ∧ faults w' = faults w.

(** An [Async] body that writes to the outbox only. *)
Definition mail_only {A} (m : Async A) : Prop :=
  ∀ w, same_stores w (m w).2.

(** An [Async] body that leaves one component of the world as it found it,
    however it ends. *)
Definition keeps {A B} (field : World → B) (m : Async A) : Prop :=
  ∀ w, field (m w).2 = field w.

(** Every subscription is to a package that has a row. *)
Definition subscriptions_refer_to_packages (w : World) : Prop :=
  ∀ userId packageId,
    (userId, packageId) ∈ subscriptions w → is_Some (packages w !! packageId).

(** The mails the notifier hands over for a package: one per subscriber
    that has a row in [users], in the order of the subscriptions. *)
Definition subscriber_mails (w : World) (packageId subject : string) : list Mail :=
  (λ u, mkMail (email u) subject)
    <$> omap (λ userId, users w !! userId)
          ((filter (λ s, s.2 = packageId) (subscriptions w)).*1).

End Gateway.

(** ** Sample data

    Concrete ledgers, requests and worlds on which the statements below are
    instantiated. *)

Module Samples.
Import Chaincode Gateway.

Definition acme : string := "com.acme.lib".
Definition v100 : string := "1.0.0".
Definition org1 : Context := mkContext "Org1MSP".

(** The ledger after one publish, and after its discontinuation. *)
Definition ws_published : gmap string SoftwareRelease :=
  submit (SubmitPublish org1 acme v100 "6162") ∅.
Definition ws_discontinued : gmap string SoftwareRelease :=
  submit (SubmitDiscontinue org1 acme v100) ws_published.

Definition r_active : SoftwareRelease :=
  mkSoftwareRelease acme v100 "6162" "ACTIVE" "Org1MSP".
Definition r_discontinued : SoftwareRelease :=
  mkSoftwareRelease acme v100 "6162" "DISCONTINUED" "Org1MSP".

(** A stand-in digest for the closed examples: the bytes in hexadecimal. *)
Definition hex_digit (n : N) : ascii :=
  ascii_of_N (if (n <? 10)%N then 48 + n else 87 + n).
Fixpoint hex_of_bytes (bs : Buffer) : string :=
  match bs with
  | [] => ""
  | b :: bs' =>
      let n := Byte.to_N b in
      String (hex_digit (n / 16)) (String (hex_digit (n mod 16)) (hex_of_bytes bs'))
  end.
Definition hex_sha : Sha256 := hex_of_bytes.
Definition org1_config : FabricConfig :=
  mkFabricConfig "Org1MSP" (λ e, "chaincode response 500, " ++ cc_message e).

Definition b1 : Buffer := [x61; x62]%byte.
Definition b2 : Buffer := [x61; x62; x78]%byte.

(** The ids of the users, of the form [gen_random_uuid()] gives them. *)
Definition alice_id : string := "a11ce000-0000-4000-8000-000000000001".
Definition bob_id : string := "b0b00000-0000-4000-8000-000000000002".
Definition carol_id : string := "ca201000-0000-4000-8000-000000000003".
Definition mallory_id : string := "3a110900-0000-4000-8000-000000000004".
Definition root_id : string := "20070000-0000-4000-8000-000000000005".
Definition zoe_id : string := "20e00000-0000-4000-8000-000000000006".

Definition alice : TokenPayload := mkTokenPayload alice_id "alice" "OWNER".
Definition root : TokenPayload := mkTokenPayload root_id "root" "ADMIN".

Definition upload_of (user : TokenPayload) (buffer : Buffer) : Request :=
  mkRequest (Some user) None (Some buffer) acme v100 "Acme library" None "" "".
Definition file_request (buffer : Buffer) : Request :=
  mkRequest None None (Some buffer) "" "" "" None acme v100.
Definition plain_request (user : option TokenPayload) : Request :=
  mkRequest user None None "" "" "" None acme v100.

(** The storage root of the examples, [/srv/packages-storage]. *)
Definition srv_root : StorageRoot := ["srv"; "packages-storage"].

(** The registered users (zoe's row is gone), and a registry in which
    nothing is published. *)
Definition registered : gmap string User :=
  {[ alice_id := mkUser "alice@example.com";
     bob_id := mkUser "bob@example.com";
     carol_id := mkUser "carol@example.com";
     mallory_id := mkUser "mallory@example.com";
     root_id := mkUser "root@example.com" ]}.

Definition world0 : World := mkWorld ∅ registered [] [] ∅ ∅ [] no_faults.

(** The world after alice published [b1], and after her second attempt with
    [b2] at the same key. *)
Definition world1 : World :=
  (@upload_handler hex_sha org1_config srv_root (upload_of alice b1) world0).2.
Definition world2 : World :=
  (@upload_handler hex_sha org1_config srv_root (upload_of alice b2) world1).2.

(** [world1] with bob subscribed, and with a file system that rejects. *)
Definition world1_subscribed : World :=
  mkWorld (packages world1) (users world1)
          [(bob_id, acme)] (download_logs world1) (storage world1)
          (ledger world1) (outbox world1) no_faults.
Definition fs_down : Faults := mkFaults None (Some "EACCES: permission denied") None false.

(** A world in which the package row is gone while the ledger still has the
    release: the state the DELETE route leaves behind. *)
Definition world_after_delete : World :=
  (@delete_handler srv_root (plain_request (Some root)) world1).2.

Definition mallory : TokenPayload := mkTokenPayload mallory_id "mallory" "OWNER".
Definition carol : TokenPayload := mkTokenPayload carol_id "carol" "USER".
Definition bob : TokenPayload := mkTokenPayload bob_id "bob" "USER".

End Samples.

(** ** Properties of the chaincode *)

Section ChaincodeFacts.
Import Chaincode.
Implicit Types (ctx : Context) (ws : gmap string SoftwareRelease).
#[local] Opaque String.eqb.

Lemma PublishRelease_taken ctx p v h ws r :
  ws !! createKey ctx p v = Some r →
  PublishRelease ctx p v h ws =
    Threw (mkChaincodeException
             ("Release " ++ p ++ " version " ++ v ++ " already exists")
             RELEASE_ALREADY_EXISTS).
Proof.
  intros Hr. unfold PublishRelease, ReleaseExists, getStringState.
  unfold mbind, Tx_bind, mret, Tx_ret. now rewrite Hr.
Qed.

Lemma PublishRelease_fresh ctx p v h ws :
  ws !! createKey ctx p v = None →
  let release := mkSoftwareRelease p v h "ACTIVE" (getMSPID ctx) in
  PublishRelease ctx p v h ws =
    Returned release (<[createKey ctx p v := release]> ws).
Proof.
  intros Hr. unfold PublishRelease, ReleaseExists, getStringState, putStringState.
  unfold mbind, Tx_bind, mret, Tx_ret. now rewrite Hr.
Qed.

Lemma DiscontinueRelease_absent ctx p v ws :
  ws !! createKey ctx p v = None →
  DiscontinueRelease ctx p v ws =
    Threw (mkChaincodeException
             ("Release not found for key: " ++ createKey ctx p v)
             RELEASE_NOT_FOUND).
Proof.
  intros Hr. unfold DiscontinueRelease, getRelease, getStringState.
  unfold mbind, Tx_bind, mret, Tx_ret. now rewrite Hr.
Qed.

Lemma DiscontinueRelease_present ctx p v ws r :
  ws !! createKey ctx p v = Some r →
  DiscontinueRelease ctx p v ws =
    Returned (setStatus "DISCONTINUED" r)
             (<[createKey ctx p v := setStatus "DISCONTINUED" r]> ws).
Proof.
  intros Hr. unfold DiscontinueRelease, getRelease, getStringState, putStringState.
  unfold mbind, Tx_bind, mret, Tx_ret. now rewrite Hr.
Qed.

Lemma GetRelease_present ctx p v ws r :
  ws !! createKey ctx p v = Some r → GetRelease ctx p v ws = Returned r ws.
Proof.
  intros Hr. unfold GetRelease, getRelease, getStringState.
  unfold mbind, Tx_bind, mret, Tx_ret. now rewrite Hr.
Qed.

Lemma GetRelease_absent ctx p v ws :
  ws !! createKey ctx p v = None →
  GetRelease ctx p v ws =
    Threw (mkChaincodeException
             ("Release not found for key: " ++ createKey ctx p v)
             RELEASE_NOT_FOUND).
Proof.
  intros Hr. unfold GetRelease, getRelease, getStringState.
  unfold mbind, Tx_bind, mret, Tx_ret. now rewrite Hr.
Qed.

Lemma ValidateRelease_absent ctx p v h ws :
  ws !! createKey ctx p v = None → ValidateRelease ctx p v h ws = Returned false ws.
Proof.
  intros Hr. unfold ValidateRelease, ReleaseExists, getStringState.
  unfold mbind, Tx_bind, mret, Tx_ret. now rewrite Hr.
Qed.

Lemma ValidateRelease_present ctx p v h ws r :
  ws !! createKey ctx p v = Some r →
  ValidateRelease ctx p v h ws =
    Returned (String.eqb (fileHash r) h && negb (String.eqb "DISCONTINUED" (status r))) ws.
Proof.
  intros Hr. unfold ValidateRelease, ReleaseExists, getRelease, getStringState.
  unfold mbind, Tx_bind, mret, Tx_ret. rewrite Hr. cbn. rewrite Hr. cbn.
  destruct (String.eqb (fileHash r) h); cbn; [|done].
  now destruct (String.eqb "DISCONTINUED" (status r)).
Qed.

Lemma setStatus_same r : setStatus (status r) r = r.
Proof. now destruct r. Qed.

(** A submitted transaction touches at most the key it names. *)
Lemma submit_lookup tx ws key :
  submit tx ws !! key = ws !! key ∨
  (∃ ctx p v h, tx = SubmitPublish ctx p v h ∧ key = createKey ctx p v ∧
     ws !! key = None ∧
     submit tx ws !! key = Some (mkSoftwareRelease p v h "ACTIVE" (getMSPID ctx))) ∨
  (∃ ctx p v r, tx = SubmitDiscontinue ctx p v ∧ key = createKey ctx p v ∧
     ws !! key = Some r ∧
     submit tx ws !! key = Some (setStatus "DISCONTINUED" r)).
Proof.
  destruct tx as [ctx p v h|ctx p v]; cbn.
  - destruct (ws !! createKey ctx p v) as [r|] eqn:Hk.
    + rewrite (PublishRelease_taken _ _ _ _ _ _ Hk). now left.
    + rewrite (PublishRelease_fresh _ _ _ _ _ Hk). cbn.
      destruct (decide (key = createKey ctx p v)) as [->|Hne].
      * right; left. exists ctx, p, v, h. now rewrite lookup_insert_eq.
      * left. now rewrite lookup_insert_ne.
  - destruct (ws !! createKey ctx p v) as [r|] eqn:Hk.
    + rewrite (DiscontinueRelease_present _ _ _ _ _ Hk). cbn.
      destruct (decide (key = createKey ctx p v)) as [->|Hne].
      * right; right. exists ctx, p, v, r. now rewrite lookup_insert_eq.
      * left. now rewrite lookup_insert_ne.
    + rewrite (DiscontinueRelease_absent _ _ _ _ Hk). now left.
Qed.

(** Every record of a reachable ledger is ACTIVE or DISCONTINUED. *)
Lemma reachable_status ws :
  reachable ws →
  ∀ key r, ws !! key = Some r → status r = "ACTIVE" ∨ status r = "DISCONTINUED".
Proof.
  induction 1 as [|ws tx Hreach IH]; intros key r Hr.
  - now rewrite lookup_empty in Hr.
  - destruct (submit_lookup tx ws key) as [Heq|[(ctx&p&v&h&_&_&_&Hnew)|(ctx&p&v&r0&_&_&_&Hnew)]].
    + rewrite Heq in Hr. eauto.
    + rewrite Hnew in Hr. injection Hr as <-. now left.
    + rewrite Hnew in Hr. injection Hr as <-. now right.
Qed.

(** Every record of a reachable ledger is stored under the key made of its
    own packageId and version. *)
Lemma reachable_keyed ws :
  reachable ws →
  ∀ key r, ws !! key = Some r → key = packageId r ++ ":" ++ version r.
Proof.
  induction 1 as [|ws tx Hreach IH]; intros key r Hr.
  - now rewrite lookup_empty in Hr.
  - destruct (submit_lookup tx ws key)
      as [Heq|[(ctx&p&v&h&_&Hkey&_&Hnew)|(ctx&p&v&r0&_&_&Hold&Hnew)]].
    + rewrite Heq in Hr. eauto.
    + rewrite Hnew in Hr. injection Hr as <-. exact Hkey.
    + rewrite Hnew in Hr. injection Hr as <-. exact (IH _ _ Hold).
Qed.

Lemma submit_all_snoc txs tx ws :
  submit_all (txs ++ [tx]) ws = submit tx (submit_all txs ws).
Proof. unfold submit_all. now rewrite foldl_snoc. Qed.

Lemma reachable_submit_all txs ws : reachable ws → reachable (submit_all txs ws).
Proof.
  intros Hws. induction txs as [|tx txs IH] using rev_ind; [done|].
  rewrite submit_all_snoc. now constructor.
Qed.

End ChaincodeFacts.

(** *** The claims about the contract *)

Section ChaincodeClaims.
Import Chaincode Samples.
Implicit Types (ctx : Context) (ws : gmap string SoftwareRelease).
#[local] Opaque String.eqb.

(** C2. On a ledger the contract can produce, at a key that already holds
    a Release record, whatever its status, [PublishRelease] throws
    RELEASE_ALREADY_EXISTS and the submission leaves the ledger as it was;
    no publish, at any key, changes a record that exists; and two records
    with the same packageId and version are one record under one key. *)
Theorem publish_at_existing_key_rejected ctx p v h ws r :
  reachable ws →
  ws !! createKey ctx p v = Some r →
  PublishRelease ctx p v h ws =
    Threw (mkChaincodeException
             ("Release " ++ p ++ " version " ++ v ++ " already exists")
             RELEASE_ALREADY_EXISTS)
  ∧ submit (SubmitPublish ctx p v h) ws = ws
  ∧ (∀ ctx' p' v' h' key r',
       ws !! key = Some r' → submit (SubmitPublish ctx' p' v' h') ws !! key = Some r')
  ∧ (∀ k1 k2 r1 r2,
       ws !! k1 = Some r1 → ws !! k2 = Some r2 →
       packageId r1 = packageId r2 → version r1 = version r2 →
       k1 = k2 ∧ r1 = r2).
Proof.
  intros Hreach Hr. split; [|split; [|split]].
  - now apply PublishRelease_taken with r.
  - cbn. now rewrite (PublishRelease_taken _ _ _ _ _ _ Hr).
  - intros ctx' p' v' h' key r' Hk.
    destruct (submit_lookup (SubmitPublish ctx' p' v' h') ws key)
      as [Heq|[(?&?&?&?&_&_&Hnone&_)|(?&?&?&?&Htx&_)]].
    + now rewrite Heq.
    + congruence.
    + discriminate Htx.
  - intros k1 k2 r1 r2 H1 H2 Hp Hv.
    assert (k1 = k2) as ->.
    { rewrite (reachable_keyed ws Hreach _ _ H1), (reachable_keyed ws Hreach _ _ H2).
      now rewrite Hp, Hv. }
    split; [done|congruence].
Qed.

Lemma publish_at_existing_key_rejected_witness :
  PublishRelease org1 acme v100 "616278" ws_discontinued =
    Threw (mkChaincodeException
             ("Release " ++ acme ++ " version " ++ v100 ++ " already exists")
             RELEASE_ALREADY_EXISTS)
  ∧ submit (SubmitPublish org1 acme v100 "616278") ws_discontinued = ws_discontinued
  ∧ (∀ ctx' p' v' h' key r',
       ws_discontinued !! key = Some r' →
       submit (SubmitPublish ctx' p' v' h') ws_discontinued !! key = Some r')
  ∧ (∀ k1 k2 r1 r2,
       ws_discontinued !! k1 = Some r1 → ws_discontinued !! k2 = Some r2 →
       packageId r1 = packageId r2 → version r1 = version r2 →
       k1 = k2 ∧ r1 = r2).
Proof.
  apply (publish_at_existing_key_rejected org1 acme v100 "616278"
           ws_discontinued r_discontinued).
  - apply reachable_submit, reachable_submit, reachable_genesis.
  - vm_compute. reflexivity.
Defined.

(** C4. On every ledger the contract can produce, [ValidateRelease]
    returns (it never throws), changes nothing, and its answer is [true]
    exactly when a record exists at the key, its status is ACTIVE and the
    candidate hash is the recorded one. *)
Theorem validate_true_iff ws ctx p v h :
  reachable ws →
  ∃ b, ValidateRelease ctx p v h ws = Returned b ws ∧
       (b = true ↔
        ∃ r, ws !! createKey ctx p v = Some r ∧ status r = "ACTIVE" ∧ h = fileHash r).
Proof.
  intros Hreach. destruct (ws !! createKey ctx p v) as [r|] eqn:Hk.
  - eexists. split; [exact (ValidateRelease_present _ _ _ _ _ _ Hk)|].
    rewrite andb_true_iff, String.eqb_eq, negb_true_iff, String.eqb_neq.
    split.
    + intros [Hh Hst]. exists r. split; [done|]. split; [|done].
      destruct (reachable_status ws Hreach _ _ Hk); congruence.
    + intros (r'&[= <-]&Hst&->). split; [done|]. rewrite Hst. discriminate.
  - exists false. split; [now apply ValidateRelease_absent|].
    split; [discriminate|]. now intros (r&?&_).
Qed.

Lemma validate_true_iff_witness :
  ∃ b, ValidateRelease org1 acme v100 "6162" ws_discontinued = Returned b ws_discontinued ∧
       (b = true ↔
        ∃ r, ws_discontinued !! createKey org1 acme v100 = Some r ∧
             status r = "ACTIVE" ∧ "6162" = fileHash r).
Proof.
  apply (validate_true_iff ws_discontinued org1 acme v100 "6162").
  apply reachable_submit, reachable_submit, reachable_genesis.
Defined.

(** One submitted transaction moves the status at a key along an edge of
    the state machine, or leaves it. *)
Lemma submit_transition ws tx key :
  reachable ws → transition (status_at ws key) (status_at (submit tx ws) key).
Proof.
  intros Hreach. unfold status_at.
  destruct (submit_lookup tx ws key)
    as [Heq|[(?&?&?&?&_&_&Hnone&Hnew)|(?&?&?&r&_&_&Hold&Hnew)]].
  - rewrite Heq. destruct (ws !! key) as [r|] eqn:Hk; cbn; [|constructor].
    destruct (reachable_status ws Hreach _ _ Hk) as [-> | ->]; constructor.
  - rewrite Hnone, Hnew. constructor.
  - rewrite Hold, Hnew. cbn.
    destruct (reachable_status ws Hreach _ _ Hold) as [-> | ->]; constructor.
Qed.

Lemma discontinued_forever ws txs key :
  reachable ws →
  status_at ws key = Some "DISCONTINUED" →
  status_at (submit_all txs ws) key = Some "DISCONTINUED".
Proof.
  intros Hreach Hd. induction txs as [|tx txs IH] using rev_ind; [done|].
  rewrite submit_all_snoc.
  pose proof (submit_transition (submit_all txs ws) tx key
                (reachable_submit_all txs ws Hreach)) as Ht.
  rewrite IH in Ht. now inversion Ht.
Qed.

(** C5. On a ledger the contract can produce, a submitted transaction
    changes the status at a key only from absent to ACTIVE or from ACTIVE
    to DISCONTINUED; a DISCONTINUED record stays DISCONTINUED under every
    sequence of transactions; and a sequence that takes a key from absent
    to DISCONTINUED passes through ACTIVE. *)
Theorem status_only_moves_forward ws key :
  reachable ws →
  (∀ tx, transition (status_at ws key) (status_at (submit tx ws) key))
  ∧ (∀ txs, status_at ws key = Some "DISCONTINUED" →
            status_at (submit_all txs ws) key = Some "DISCONTINUED")
  ∧ (∀ txs, status_at ws key = None →
            status_at (submit_all txs ws) key = Some "DISCONTINUED" →
            ∃ txs1 txs2, txs = (txs1 ++ txs2)%list ∧
                         status_at (submit_all txs1 ws) key = Some "ACTIVE").
Proof.
  intros Hreach. split; [|split].
  - intros tx. now apply submit_transition.
  - intros txs. now apply discontinued_forever.
  - intros txs Habs. induction txs as [|tx txs IH] using rev_ind.
    + cbn. congruence.
    + rewrite submit_all_snoc. intros Hd.
      pose proof (submit_transition (submit_all txs ws) tx key
                    (reachable_submit_all txs ws Hreach)) as Ht.
      rewrite Hd in Ht. inversion Ht as [| |Hprev| |Hprev].
      * destruct (IH (eq_sym Hprev)) as (txs1&txs2&->&Hact).
        exists txs1, (txs2 ++ [tx])%list. now rewrite app_assoc.
      * exists txs, [tx]. split; [done|]. now symmetry.
Qed.

Lemma status_only_moves_forward_witness :
  (∀ tx, transition (status_at ws_discontinued (createKey org1 acme v100))
           (status_at (submit tx ws_discontinued) (createKey org1 acme v100)))
  ∧ (∀ txs, status_at ws_discontinued (createKey org1 acme v100) = Some "DISCONTINUED" →
            status_at (submit_all txs ws_discontinued) (createKey org1 acme v100)
            = Some "DISCONTINUED")
  ∧ (∀ txs, status_at ws_discontinued (createKey org1 acme v100) = None →
            status_at (submit_all txs ws_discontinued) (createKey org1 acme v100)
            = Some "DISCONTINUED" →
            ∃ txs1 txs2, txs = (txs1 ++ txs2)%list ∧
                         status_at (submit_all txs1 ws_discontinued)
                           (createKey org1 acme v100) = Some "ACTIVE").
Proof.
  apply (status_only_moves_forward ws_discontinued (createKey org1 acme v100)).
  apply reachable_submit, reachable_submit, reachable_genesis.
Defined.

(** C8. [DiscontinueRelease] throws RELEASE_NOT_FOUND at a key without a
    record.  At a key with a record it returns that record with status
    DISCONTINUED and stores it; a second call then returns the same record
    and leaves the same ledger, without an error. *)
Theorem discontinue_result ctx p v ws :
  match ws !! createKey ctx p v with
  | None =>
      DiscontinueRelease ctx p v ws =
        Threw (mkChaincodeException
                 ("Release not found for key: " ++ createKey ctx p v)
                 RELEASE_NOT_FOUND)
  | Some r =>
      let key := createKey ctx p v in
      let r' := setStatus "DISCONTINUED" r in
      let ws' := <[key := r']> ws in
      DiscontinueRelease ctx p v ws = Returned r' ws'
      ∧ status r' = "DISCONTINUED"
      ∧ ws' !! key = Some r'
      ∧ DiscontinueRelease ctx p v ws' = Returned r' ws'
      ∧ (if decide (status r = "DISCONTINUED") then r' = r ∧ ws' = ws else True)
  end.
Proof.
  destruct (ws !! createKey ctx p v) as [r|] eqn:Hk.
  - intros key. cbn zeta. split; [now apply DiscontinueRelease_present|].
    split; [done|]. split; [now rewrite lookup_insert_eq|]. split.
    + rewrite (DiscontinueRelease_present ctx p v _ (setStatus "DISCONTINUED" r)).
      * fold key. now rewrite insert_insert_eq.
      * fold key. now rewrite lookup_insert_eq.
    + case_decide as Hst; [|done].
      assert (setStatus "DISCONTINUED" r = r) as ->
        by (rewrite <- Hst; apply setStatus_same).
      split; [done|]. now apply insert_id.
  - now apply DiscontinueRelease_absent.
Qed.

(** C9. At a key with a record, [DiscontinueRelease] returns and stores a
    record that differs from the old one in the status at most, and leaves
    every other key alone; and under every sequence of submitted
    transactions the record at the key keeps its packageId, version,
    fileHash and publisher. *)
Theorem discontinue_changes_status_only ctx p v ws r :
  ws !! createKey ctx p v = Some r →
  (∃ r', DiscontinueRelease ctx p v ws = Returned r' (<[createKey ctx p v := r']> ws)
         ∧ packageId r' = packageId r ∧ version r' = version r
         ∧ fileHash r' = fileHash r ∧ publisher r' = publisher r)
  ∧ ∀ txs, ∃ r'', submit_all txs ws !! createKey ctx p v = Some r''
         ∧ packageId r'' = packageId r ∧ version r'' = version r
         ∧ fileHash r'' = fileHash r ∧ publisher r'' = publisher r.
Proof.
  intros Hr. split.
  - exists (setStatus "DISCONTINUED" r). split; [|done].
    now apply DiscontinueRelease_present.
  - intros txs. induction txs as [|tx txs IH] using rev_ind.
    + exists r. done.
    + destruct IH as (r1&Hr1&Hp&Hv&Hh&Hpub). rewrite submit_all_snoc.
      destruct (submit_lookup tx (submit_all txs ws) (createKey ctx p v))
        as [Heq|[(?&?&?&?&_&_&Hnone&_)|(?&?&?&r0&_&_&Hold&Hnew)]].
      * exists r1. now rewrite Heq.
      * congruence.
      * rewrite Hnew. assert (r0 = r1) as -> by congruence.
        exists (setStatus "DISCONTINUED" r1). done.
Qed.

Lemma discontinue_changes_status_only_witness :
  (∃ r', DiscontinueRelease org1 acme v100 ws_published =
           Returned r' (<[createKey org1 acme v100 := r']> ws_published)
         ∧ packageId r' = packageId r_active ∧ version r' = version r_active
         ∧ fileHash r' = fileHash r_active ∧ publisher r' = publisher r_active)
  ∧ ∀ txs, ∃ r'', submit_all txs ws_published !! createKey org1 acme v100 = Some r''
         ∧ packageId r'' = packageId r_active ∧ version r'' = version r_active
         ∧ fileHash r'' = fileHash r_active ∧ publisher r'' = publisher r_active.
Proof.
  apply (discontinue_changes_status_only org1 acme v100 ws_published r_active).
  vm_compute. reflexivity.
Defined.

End ChaincodeClaims.

(** ** Properties of the gateway *)

Section PathFacts.
Import Gateway.
Context `{StorageRoot}.
Implicit Types (dir path : Path) (s p v : string).

Lemma split_path_no_separator s :
  forallb (λ c, negb (Ascii.eqb c "/"%char)) (String.list_ascii_of_string s) = true →
  split_path s = [s].
Proof.
  induction s as [|c s IH]; [done|]. cbn [String.list_ascii_of_string forallb split_path].
  intros [Hc Hs]%andb_prop. apply negb_true_iff in Hc. rewrite Hc.
  by rewrite (IH Hs).
Qed.

Lemma plain_segment_spec s :
  plain_segment s = true →
  s ≠ "" ∧ s ≠ "." ∧ s ≠ ".." ∧ split_path s = [s].
Proof.
  unfold plain_segment. intros [[[H1 H2]%andb_prop H3]%andb_prop H4]%andb_prop.
  apply negb_true_iff, String.eqb_neq in H1, H2, H3.
  repeat split; [done..|]. by apply split_path_no_separator.
Qed.

Lemma push_segment_plain dir s :
  plain_segment s = true → push_segment dir s = (dir ++ [s])%list.
Proof.
  intros (H1&H2&H3&_)%plain_segment_spec. unfold push_segment.
  rewrite decide_False by (by intros [?|?]). by rewrite decide_False.
Qed.

Lemma path_join_app dir (xs ys : list string) :
  path_join dir (xs ++ ys) = path_join (path_join dir xs) ys.
Proof. unfold path_join. by rewrite fmap_app, concat_app, foldl_app. Qed.

Lemma path_join_plain dir s :
  plain_segment s = true → path_join dir [s] = (dir ++ [s])%list.
Proof.
  intros Hs. unfold path_join. cbn [fmap list_fmap concat].
  rewrite (proj2 (proj2 (proj2 (plain_segment_spec s Hs)))). cbn [app foldl].
  by apply push_segment_plain.
Qed.

Lemma getFilePath_in_version_dir p v :
  fileStorage.getFilePath p v
  = (fileStorage.getVersionDir p v ++ ["package.tar.gz"])%list.
Proof.
  unfold fileStorage.getFilePath, fileStorage.getVersionDir.
  rewrite (path_join_app storageDir [p; v] ["package.tar.gz"]).
  by apply path_join_plain.
Qed.

Lemma getVersionDir_in_package_dir p v :
  plain_segment v = true →
  fileStorage.getVersionDir p v = (path_join storageDir [p] ++ [v])%list.
Proof.
  intros Hv. unfold fileStorage.getVersionDir.
  rewrite (path_join_app storageDir [p] [v]). by apply path_join_plain.
Qed.

Lemma getFilePath_plain p v :
  plain_segment p = true → plain_segment v = true →
  fileStorage.getFilePath p v = (storageDir ++ [p; v; "package.tar.gz"])%list.
Proof.
  intros Hp Hv. rewrite getFilePath_in_version_dir, getVersionDir_in_package_dir by done.
  rewrite path_join_plain by done. by rewrite <- !app_assoc.
Qed.

Lemma is_under_app dir (rest : Path) : is_under dir (dir ++ rest) = true.
Proof.
  induction dir as [|d dir IH]; [done|]. cbn. by rewrite decide_True.
Qed.

Lemma is_under_version_file p v :
  is_under (fileStorage.getVersionDir p v) (fileStorage.getFilePath p v) = true.
Proof. rewrite getFilePath_in_version_dir. apply is_under_app. Qed.

Lemma is_under_package_file p v :
  plain_segment v = true →
  is_under (path_join storageDir [p]) (fileStorage.getFilePath p v) = true.
Proof.
  intros Hv. rewrite getFilePath_in_version_dir, getVersionDir_in_package_dir by done.
  rewrite <- app_assoc. apply is_under_app.
Qed.

(** What the validators of the routes admit is a plain segment, the
    package ids [.] and [..] apart. *)
Lemma digits_then_no_separator k seen (cs : list ascii) :
  digits_then k seen cs = true →
  forallb (λ c, negb (Ascii.eqb c "/"%char)) cs = true.
Proof.
  revert k seen. induction cs as [|c cs IH]; [done|]. intros k seen. cbn [digits_then forallb].
  destruct (is_digit c) eqn:Hd.
  - intros Hrest. apply andb_true_intro. split; [|by eapply IH].
    destruct (Ascii.eqb_spec c "/"%char) as [->|]; [by vm_compute in Hd|done].
  - destruct (Ascii.eqb_spec c "."%char) as [->|]; [|done].
    destruct k as [|k]; [done|]. intros [_ Hrest]%andb_prop.
    apply andb_true_intro. split; [done|by eapply IH].
Qed.

Lemma matches_version_plain v : matches_version v = true → plain_segment v = true.
Proof.
  unfold matches_version, plain_segment. intros Hv.
  rewrite (digits_then_no_separator _ _ _ Hv), andb_true_r.
  destruct v as [|c v]; [done|]. cbn in Hv.
  destruct (is_digit c) eqn:Hd.
  - assert (c ≠ "."%char) as Hc by (intros ->; by vm_compute in Hd).
    rewrite !andb_true_iff, !negb_true_iff, !String.eqb_neq.
    repeat split; congruence.
  - by destruct (Ascii.eqb c "."%char).
Qed.

Lemma matches_packageId_plain p :
  matches_packageId p = true → p ≠ "." → p ≠ ".." → plain_segment p = true.
Proof.
  unfold matches_packageId, plain_segment. intros Hp H1 H2.
  rewrite !andb_true_iff, !negb_true_iff, !String.eqb_neq.
  repeat split; [|done..|].
  - intros ->. by cbn in Hp.
  - assert (forallb is_packageId_char (String.list_ascii_of_string p) = true) as Hall
      by (by destruct (String.list_ascii_of_string p)).
    clear Hp. induction (String.list_ascii_of_string p) as [|c cs IH]; [done|].
    cbn [forallb] in *. apply andb_prop in Hall as [Hc Hcs].
    apply andb_true_intro. split; [|by apply IH].
    destruct (Ascii.eqb_spec c "/"%char) as [->|]; [by vm_compute in Hc|done].
Qed.

End PathFacts.

Section GatewayFacts.
Import Chaincode Gateway.
Context `{Sha256} `{FabricConfig} `{StorageRoot}.
Implicit Types (w : World) (req : Request).
#[local] Opaque String.eqb String.append.

Lemma bind_run {A B} (m : Async A) (f : A → Async B) w :
  (m ≫= f) w =
    match m w with
    | (Resolved a, w') => f a w'
    | (Rejected e, w') => (Rejected e, w')
    end.
Proof. reflexivity. Qed.

Lemma guarded_ok {A} fault code (op : World → Result A * World) w :
  fault (faults w) = None → guarded fault code op w = op w.
Proof. intros Hf. unfold guarded. now rewrite Hf. Qed.

Lemma guarded_fail {A} fault code (op : World → Result A * World) w msg :
  fault (faults w) = Some msg →
  guarded fault code op w = (Rejected (mkError msg code), w).
Proof. intros Hf. unfold guarded. now rewrite Hf. Qed.

Lemma varchar_fits n (value : string) :
  (String.length value ≤ n)%nat → varchar n value = true.
Proof. intros Hn. by apply Nat.leb_le. Qed.

Lemma same_stores_refl w : same_stores w w.
Proof. by repeat split. Qed.

Lemma same_stores_trans w1 w2 w3 :
  same_stores w1 w2 → same_stores w2 w3 → same_stores w1 w3.
Proof.
  intros (?&?&?&?&?&?&?) (?&?&?&?&?&?&?). repeat split; congruence.
Qed.

Lemma mail_only_ret {A} (a : A) : mail_only (mret a).
Proof. intros w. apply same_stores_refl. Qed.

Lemma mail_only_bind {A B} (m : Async A) (f : A → Async B) :
  mail_only m → (∀ a, mail_only (f a)) → mail_only (m ≫= f).
Proof.
  intros Hm Hf w. rewrite bind_run. specialize (Hm w).
  destruct (m w) as [[a|e] w']; cbn in *; [|done].
  eapply same_stores_trans; [exact Hm|apply Hf].
Qed.

Lemma mail_only_for_of {A} (xs : list A) (body : A → Async unit) :
  (∀ x, mail_only (body x)) → mail_only (for_of xs body).
Proof.
  intros Hb. induction xs as [|x xs IH]; cbn [for_of].
  - apply mail_only_ret.
  - apply mail_only_bind; [apply Hb|done].
Qed.

Lemma mail_only_read {A} (f : World → A) :
  mail_only (db_query (λ w, (Resolved (f w), w))).
Proof.
  intros w. unfold db_query, guarded.
  destruct (db_fault (faults w)); apply same_stores_refl.
Qed.

Lemma mail_only_sendEmail to subject : mail_only (emailService.sendEmail to subject).
Proof.
  intros w. unfold emailService.sendEmail.
  destruct (mail_fault (faults w)); cbn; by repeat split.
Qed.

Lemma mail_only_notifyVersionUpdate p v :
  mail_only (NotificationService.notifyVersionUpdate p v).
Proof.
  unfold NotificationService.notifyVersionUpdate, NotificationService.notifySubscribers.
  apply mail_only_bind; [apply mail_only_read|]. intros ids.
  case_decide; [apply mail_only_ret|].
  apply mail_only_bind; [apply mail_only_read|]. intros pkg.
  apply mail_only_for_of. intros u.
  apply mail_only_bind; [apply mail_only_read|]. intros [usr|]; [|apply mail_only_ret].
  apply mail_only_bind; [apply mail_only_sendEmail|]. intros _. apply mail_only_ret.
Qed.

Lemma mail_only_notifyPackageDiscontinued p :
  mail_only (NotificationService.notifyPackageDiscontinued p).
Proof.
  unfold NotificationService.notifyPackageDiscontinued.
  apply mail_only_bind; [apply mail_only_read|]. intros ids.
  apply mail_only_for_of. intros u.
  apply mail_only_bind; [apply mail_only_read|]. intros [usr|]; [|apply mail_only_ret].
  apply mail_only_bind; [apply mail_only_sendEmail|]. intros _. apply mail_only_ret.
Qed.

(** *** What the services do, by the state of their collaborator *)

Lemma saveFile_ok p v buf w :
  fs_fault (faults w) = None →
  fileStorage.saveFile p v buf w =
    (Resolved (mkSavedFile (fileStorage.getFilePath p v) (sha256_hex buf) (length buf)),
     set_storage (insert (fileStorage.getFilePath p v) buf) w).
Proof.
  intros Hf. unfold fileStorage.saveFile, try_catch, fs.mkdir, fs.writeFile, fs.fs_call.
  rewrite bind_run, guarded_ok by done. cbn beta iota.
  rewrite bind_run, guarded_ok by done. reflexivity.
Qed.

Lemma saveFile_fail p v buf w msg :
  fs_fault (faults w) = Some msg →
  fileStorage.saveFile p v buf w =
    (Rejected (mkError ("Failed to save file: " ++ msg) None), w).
Proof.
  intros Hf. unfold fileStorage.saveFile, try_catch, fs.mkdir, fs.fs_call.
  rewrite bind_run, (guarded_fail _ _ _ _ msg) by done. reflexivity.
Qed.

Lemma deletePackage_ok p w :
  fs_fault (faults w) = None →
  fileStorage.deletePackage p w =
    (Resolved (),
     set_storage (filter (λ kv : Path * Buffer,
                    is_under (path_join storageDir [p]) kv.1 = false)) w).
Proof.
  intros Hf. unfold fileStorage.deletePackage, try_catch, fs.rm, fs.fs_call.
  now rewrite guarded_ok.
Qed.

Lemma deletePackage_fail p w msg :
  fs_fault (faults w) = Some msg →
  fileStorage.deletePackage p w =
    (Rejected (mkError ("Failed to delete package: " ++ msg) None), w).
Proof.
  intros Hf. unfold fileStorage.deletePackage, try_catch, fs.rm, fs.fs_call.
  now rewrite (guarded_fail _ _ _ _ msg).
Qed.

Lemma publishRelease_run p v h w :
  ledger_fault (faults w) = None →
  fabricNetwork.publishRelease p v h w =
    match ledger w !! createKey fabricNetwork.ctx p v with
    | Some _ =>
        (Rejected (mkError (error_text (already_exists p v)) None), w)
    | None =>
        (Resolved (),
         set_ledger (λ _, <[createKey fabricNetwork.ctx p v :=
                             mkSoftwareRelease p v h "ACTIVE" mspId]> (ledger w)) w)
    end.
Proof.
  intros Hf. unfold fabricNetwork.publishRelease, fabricNetwork.submitTransaction.
  rewrite bind_run, guarded_ok by done.
  destruct (ledger w !! createKey fabricNetwork.ctx p v) as [r|] eqn:Hk.
  - now rewrite (PublishRelease_taken _ _ _ _ _ _ Hk).
  - now rewrite (PublishRelease_fresh _ _ _ _ _ Hk).
Qed.

Lemma publishRelease_down p v h w msg :
  ledger_fault (faults w) = Some msg →
  fabricNetwork.publishRelease p v h w = (Rejected (mkError msg None), w).
Proof.
  intros Hf. unfold fabricNetwork.publishRelease, fabricNetwork.submitTransaction.
  now rewrite bind_run, (guarded_fail _ _ _ _ msg).
Qed.

Lemma getRelease_run p v w :
  ledger_fault (faults w) = None →
  fabricNetwork.getRelease p v w =
    match ledger w !! createKey fabricNetwork.ctx p v with
    | Some r => (Resolved r, w)
    | None =>
        (Rejected (mkError (error_text (not_found (createKey fabricNetwork.ctx p v))) None), w)
    end.
Proof.
  intros Hf. unfold fabricNetwork.getRelease, fabricNetwork.evaluateTransaction.
  rewrite bind_run, guarded_ok by done.
  destruct (ledger w !! createKey fabricNetwork.ctx p v) as [r|] eqn:Hk.
  - now rewrite (GetRelease_present _ _ _ _ _ Hk).
  - now rewrite (GetRelease_absent _ _ _ _ Hk).
Qed.

Lemma validateRelease_run p v h w :
  ledger_fault (faults w) = None →
  fabricNetwork.validateRelease p v h w =
    (Resolved
       match ledger w !! createKey fabricNetwork.ctx p v with
       | Some r => String.eqb (fileHash r) h && negb (String.eqb "DISCONTINUED" (status r))
       | None => false
       end, w).
Proof.
  intros Hf. unfold fabricNetwork.validateRelease, fabricNetwork.evaluateTransaction.
  rewrite bind_run, guarded_ok by done.
  destruct (ledger w !! createKey fabricNetwork.ctx p v) as [r|] eqn:Hk.
  - rewrite (ValidateRelease_present _ _ _ _ _ _ Hk).
    now destruct (_ && _).
  - now rewrite (ValidateRelease_absent _ _ _ _ _ Hk).
Qed.

Lemma discontinueRelease_run p v w :
  ledger_fault (faults w) = None →
  fabricNetwork.discontinueRelease p v w =
    match ledger w !! createKey fabricNetwork.ctx p v with
    | Some r =>
        (Resolved (),
         set_ledger (λ _, <[createKey fabricNetwork.ctx p v :=
                             setStatus "DISCONTINUED" r]> (ledger w)) w)
    | None =>
        (Rejected (mkError (error_text (not_found (createKey fabricNetwork.ctx p v))) None), w)
    end.
Proof.
  intros Hf. unfold fabricNetwork.discontinueRelease, fabricNetwork.submitTransaction.
  rewrite bind_run, guarded_ok by done.
  destruct (ledger w !! createKey fabricNetwork.ctx p v) as [r|] eqn:Hk.
  - now rewrite (DiscontinueRelease_present _ _ _ _ _ Hk).
  - now rewrite (DiscontinueRelease_absent _ _ _ _ Hk).
Qed.

Lemma discontinueRelease_down p v w msg :
  ledger_fault (faults w) = Some msg →
  fabricNetwork.discontinueRelease p v w = (Rejected (mkError msg None), w).
Proof.
  intros Hf. unfold fabricNetwork.discontinueRelease, fabricNetwork.submitTransaction.
  now rewrite bind_run, (guarded_fail _ _ _ _ msg).
Qed.

(** *** The upload handler, step by step *)

Lemma upload_publish_run req buf pkg w :
  upload_publish req buf pkg w =
    let p := body_packageId req in
    let v := body_version req in
    match fs_fault (faults w) with
    | Some msg => (Rejected (mkError ("Failed to save file: " ++ msg) None), w)
    | None =>
        let w1 := set_storage (insert (fileStorage.getFilePath p v) buf) w in
        match ledger_fault (faults w) with
        | Some msg => (Rejected (mkError msg None), w1)
        | None =>
            match ledger w !! createKey fabricNetwork.ctx p v with
            | Some _ =>
                (Rejected (mkError (error_text (already_exists p v)) None), w1)
            | None =>
                let w2 :=
                  set_ledger (λ _, <[createKey fabricNetwork.ctx p v :=
                      mkSoftwareRelease p v (sha256_hex buf) "ACTIVE" mspId]> (ledger w)) w1 in
                match NotificationService.notifyVersionUpdate p v w2 with
                | (Resolved _, w3) =>
                    (Resolved (json 201
                       (PublishedJson "Package published successfully" p v (name pkg)
                          (sha256_hex buf) (length buf)
                          ("/packages/" ++ p ++ "/" ++ v ++ "/download-file"))), w3)
                | (Rejected e, w3) => (Rejected e, w3)
                end
            end
        end
    end.
Proof.
  unfold upload_publish. rewrite bind_run. cbn zeta.
  destruct (fs_fault (faults w)) as [msg|] eqn:Hfs.
  - now rewrite (saveFile_fail _ _ _ _ msg).
  - rewrite saveFile_ok by done. rewrite bind_run. cbn [saved_hash saved_size].
    destruct (ledger_fault (faults w)) as [msg|] eqn:Hl.
    + now rewrite (publishRelease_down _ _ _ _ msg).
    + rewrite publishRelease_run by done. cbn [ledger set_storage].
      destruct (ledger w !! _) as [r|]; [done|].
      rewrite bind_run. now destruct (NotificationService.notifyVersionUpdate _ _ _) as [[[]|e] w3].
Qed.

Lemma upload_handler_run req w :
  upload_handler req w =
    let p := body_packageId req in
    let on_error := λ error, json 500 (ErrorJson (message error)) in
    match req_file req with
    | None => (json 400 (ErrorJson "No file uploaded"), w)
    | Some buf =>
        match db_fault (faults w) with
        | Some msg => (json 500 (ErrorJson msg), w)
        | None =>
            match req_user req with
            | None => (json 500 (ErrorJson "Cannot read properties of undefined"), w)
            | Some user =>
                match packages w !! p with
                | None =>
                    if negb (varchar 255 p && varchar 255 (body_name req)) then
                      (json 500 (ErrorJson (message value_too_long)), w)
                    else
                      match users w !! userId user with
                      | None => (json 500 (ErrorJson (message foreign_key_violation)), w)
                      | Some _ =>
                          let row := mkPackage p (userId user) (body_name req)
                                       (body_description req) in
                          handle (upload_publish req buf row) on_error
                            (set_packages (insert p row) w)
                      end
                | Some pkg =>
                    if decide (owner_id pkg ≠ userId user ∧ role user ≠ "ADMIN") then
                      (json 403 (ErrorJson "Only package owner can publish new versions"), w)
                    else handle (upload_publish req buf pkg) on_error w
                end
            end
        end
    end.
Proof.
  unfold upload_handler, handle. cbn zeta.
  destruct (req_file req) as [buf|]; [|done].
  rewrite bind_run. unfold PackageModel.findById, db_query at 1.
  destruct (db_fault (faults w)) as [msg|] eqn:Hdb.
  - now rewrite (guarded_fail _ _ _ _ msg).
  - rewrite guarded_ok by done.
    unfold user_of. destruct (req_user req) as [user|].
    + destruct (packages w !! body_packageId req) as [pkg|] eqn:Hp.
      * rewrite bind_run. cbn [mret Async_ret]. now case_decide.
      * rewrite bind_run. cbn [mret Async_ret]. rewrite bind_run.
        unfold PackageModel.create, db_query. rewrite guarded_ok by done.
        destruct (negb _); [done|]. rewrite Hp.
        now destruct (users w !! userId user).
    + now destruct (packages w !! body_packageId req).
Qed.

(** What a 201 answer of the upload handler tells about the world it
    leaves. *)
Lemma upload_success_inv req w r w1 :
  upload_handler req w = (r, w1) → status_code r = 201 →
  let p := body_packageId req in
  let v := body_version req in
  ∃ buf user pkg,
    req_file req = Some buf ∧ req_user req = Some user ∧
    faults w1 = faults w ∧ db_fault (faults w) = None ∧
    fs_fault (faults w) = None ∧ ledger_fault (faults w) = None ∧
    packages w1 !! p = Some pkg ∧
    (owner_id pkg = userId user ∨ role user = "ADMIN") ∧
    storage w1 = <[fileStorage.getFilePath p v := buf]> (storage w) ∧
    ledger w !! createKey fabricNetwork.ctx p v = None ∧
    ledger w1 = <[createKey fabricNetwork.ctx p v :=
                   mkSoftwareRelease p v (sha256_hex buf) "ACTIVE" mspId]> (ledger w).
Proof.
  rewrite upload_handler_run. cbn zeta. intros Hrun Hcode.
  destruct (req_file req) as [buf|]; [|by simplify_eq].
  destruct (db_fault (faults w)) as [?|] eqn:Hdb; [by simplify_eq|].
  destruct (req_user req) as [user|]; [|by simplify_eq].
  assert (∀ pkg w0,
    handle (upload_publish req buf pkg) (λ error, json 500 (ErrorJson (message error))) w0
      = (r, w1) →
    faults w1 = faults w0 ∧ fs_fault (faults w0) = None ∧ ledger_fault (faults w0) = None ∧
    packages w1 = packages w0 ∧
    storage w1 = <[fileStorage.getFilePath (body_packageId req) (body_version req) := buf]>
                   (storage w0) ∧
    ledger w0 !! createKey fabricNetwork.ctx (body_packageId req) (body_version req) = None ∧
    ledger w1 = <[createKey fabricNetwork.ctx (body_packageId req) (body_version req) :=
                   mkSoftwareRelease (body_packageId req) (body_version req)
                     (sha256_hex buf) "ACTIVE" mspId]> (ledger w0)) as Hpub.
  { intros pkg w0. unfold handle. rewrite upload_publish_run. cbn zeta.
    destruct (fs_fault (faults w0)); [intros; by simplify_eq|].
    destruct (ledger_fault (faults w0)); [intros; by simplify_eq|].
    destruct (ledger w0 !! _); [intros; by simplify_eq|].
    match goal with |- context [NotificationService.notifyVersionUpdate ?p ?v ?w2] =>
      pose proof (mail_only_notifyVersionUpdate p v w2) as Hsame;
      destruct (NotificationService.notifyVersionUpdate p v w2) as [[[]|e] w3]
    end; [|intros; by simplify_eq].
    intros [= <- <-]. destruct Hsame as (Hp&_&_&_&Hs&Hl&Hf). cbn in *.
    by rewrite Hp, Hs, Hl, Hf. }
  destruct (packages w !! body_packageId req) as [pkg|] eqn:Hp.
  - case_decide as Hown; [by simplify_eq|].
    destruct (Hpub _ _ Hrun) as (Hf&Hfs&Hl&Hpk&Hst&Hnone&Hled).
    exists buf, user, pkg. rewrite Hpk, Hp. repeat split; try done.
    destruct (decide (owner_id pkg = userId user)); [by left|].
    destruct (decide (role user = "ADMIN")); [by right|]. by destruct Hown.
  - destruct (negb _); [by simplify_eq|].
    destruct (users w !! userId user); [|by simplify_eq].
    destruct (Hpub _ _ Hrun) as (Hf&Hfs&Hl&Hpk&Hst&Hnone&Hled). cbn in *.
    eexists buf, user, _. rewrite Hpk, lookup_insert_eq. repeat split; try done.
    by left.
Qed.

End GatewayFacts.

(** *** The claims about the gateway *)

Import Chaincode Gateway Samples.
#[local] Opaque String.eqb String.append.

(** C1, as the handler has it.  After an upload answered 201, a second
    upload at the same packageId and version by the same user is answered
    500 with the ledger's already-exists message, and the ledger is left as
    the first upload wrote it (the recorded hash is that of the first
    bytes); the handler does not undo its artifact write, so the store then
    holds the bytes of the second upload under the key. *)
Theorem second_upload_rejected_artifact_overwritten `{Sha256} `{FabricConfig} `{StorageRoot}
    (req1 req2 : Request) (w w1 : World) (r1 : Response) (buf2 : Buffer) :
  upload_handler req1 w = (r1, w1) → status_code r1 = 201 →
  body_packageId req2 = body_packageId req1 →
  body_version req2 = body_version req1 →
  req_user req2 = req_user req1 →
  req_file req2 = Some buf2 →
  ∃ buf1,
    req_file req1 = Some buf1
    ∧ storage w1 !! fileStorage.getFilePath (body_packageId req1) (body_version req1)
      = Some buf1
    ∧ ledger w1 !! createKey fabricNetwork.ctx (body_packageId req1) (body_version req1)
      = Some (mkSoftwareRelease (body_packageId req1) (body_version req1)
                (sha256_hex buf1) "ACTIVE" mspId)
    ∧ (upload_handler req2 w1).1
      = json 500 (ErrorJson (error_text
                               (already_exists (body_packageId req1) (body_version req1))))
    ∧ ledger (upload_handler req2 w1).2 = ledger w1
    ∧ packages (upload_handler req2 w1).2 = packages w1
    ∧ storage (upload_handler req2 w1).2
      = <[fileStorage.getFilePath (body_packageId req1) (body_version req1) := buf2]>
          (storage w1).
Proof.
  intros Hrun Hcode Hp Hv Hu Hfile.
  destruct (upload_success_inv _ _ _ _ Hrun Hcode)
    as (buf1&user&pkg&Hf1&Hu1&Hfl&Hdb&Hfs&Hl&Hpkg&Hown&Hst&_&Hled).
  cbn zeta in *. exists buf1. split; [done|].
  split; [by rewrite Hst, lookup_insert_eq|].
  split; [by rewrite Hled, lookup_insert_eq|].
  rewrite upload_handler_run. cbn zeta.
  rewrite Hfile, Hfl, Hdb, Hu, Hu1, Hp, Hpkg.
  case_decide as Hdeny; [destruct Hdeny, Hown; done|].
  unfold handle. rewrite upload_publish_run. cbn zeta.
  rewrite Hfl, Hfs, Hl, Hp, Hv, Hled, lookup_insert_eq. by cbn.
Qed.

Lemma second_upload_rejected_artifact_overwritten_witness :
  ∃ buf1,
    req_file (upload_of alice b1) = Some buf1
    ∧ storage world1 !! @fileStorage.getFilePath srv_root acme v100 = Some buf1
    ∧ ledger world1 !! createKey (@fabricNetwork.ctx org1_config) acme v100
      = Some (mkSoftwareRelease acme v100 (hex_of_bytes buf1) "ACTIVE" "Org1MSP")
    ∧ (@upload_handler hex_sha org1_config srv_root (upload_of alice b2) world1).1
      = json 500 (ErrorJson (@error_text org1_config (already_exists acme v100)))
    ∧ ledger (@upload_handler hex_sha org1_config srv_root (upload_of alice b2) world1).2
      = ledger world1
    ∧ packages (@upload_handler hex_sha org1_config srv_root (upload_of alice b2) world1).2
      = packages world1
    ∧ storage (@upload_handler hex_sha org1_config srv_root (upload_of alice b2) world1).2
      = <[@fileStorage.getFilePath srv_root acme v100 := b2]> (storage world1).
Proof.
  apply (@second_upload_rejected_artifact_overwritten hex_sha org1_config srv_root
           (upload_of alice b1) (upload_of alice b2) world0 world1
           (@upload_handler hex_sha org1_config srv_root (upload_of alice b1) world0).1 b2).
  - vm_compute. reflexivity.
  - vm_compute. reflexivity.
  - reflexivity.
  - reflexivity.
  - reflexivity.
  - reflexivity.
Defined.

(** C1 as stated fails: after alice's upload of [b1] is answered 201 and her
    upload of [b2] at the same key is answered 500, the artifact store holds
    [b2], not [b1], and the stored bytes no longer hash to the ledger's
    record. *)
Lemma second_upload_keeps_first_bytes_counterexample :
  let path := @fileStorage.getFilePath srv_root acme v100 in
  let key := createKey (@fabricNetwork.ctx org1_config) acme v100 in
  status_code (@upload_handler hex_sha org1_config srv_root (upload_of alice b1) world0).1 = 201
  ∧ (@upload_route hex_sha org1_config srv_root (upload_of alice b2) world1).1
    = json 500 (ErrorJson
        "chaincode response 500, Release com.acme.lib version 1.0.0 already exists")
  ∧ (@upload_route hex_sha org1_config srv_root (upload_of alice b2) world1).2 = world2
  ∧ fileHash <$> ledger world2 !! key = Some (hex_of_bytes b1)
  ∧ storage world2 !! path = Some b2
  ∧ ¬ (storage world2 !! path = Some b1)
  ∧ ¬ (hex_of_bytes <$> storage world2 !! path = fileHash <$> ledger world2 !! key).
Proof.
  vm_compute. repeat split; try reflexivity; intros [=].
Qed.

Lemma no_subscribers_after_cascade (p : string) (subs : list (string * string)) :
  filter (λ s : string * string, s.2 = p) (filter (λ s : string * string, s.2 ≠ p) subs) = [].
Proof.
  induction subs as [|s subs IH]; [done|].
  rewrite (filter_cons (λ s : string * string, s.2 ≠ p)).
  case_decide as Hs; [|done].
  rewrite (filter_cons (λ s : string * string, s.2 = p)).
  case_decide; [done|exact IH].
Qed.

Lemma delete_handler_run `{StorageRoot} (req : Request) (w : World) :
  delete_handler req w =
    let p := params_packageId req in
    match db_fault (faults w) with
    | Some msg => (json 500 (ErrorJson msg), w)
    | None =>
        let w1 :=
          set_download_logs (filter (λ l, log_package_id l ≠ p))
            (set_subscriptions (filter (λ s, s.2 ≠ p))
               (set_packages (delete p) w)) in
        match fs_fault (faults w) with
        | Some msg => (json 500 (ErrorJson ("Failed to delete package: " ++ msg)), w1)
        | None =>
            (json 200 (MessageJson "Package discontinued successfully"),
             set_storage (filter (λ kv : Path * Buffer,
                            is_under (path_join storageDir [p]) kv.1 = false)) w1)
        end
    end.
Proof.
  unfold delete_handler, handle. cbn zeta. rewrite bind_run.
  unfold PackageModel.delete, db_query at 1.
  destruct (db_fault (faults w)) as [msg|] eqn:Hdb.
  { by rewrite (guarded_fail _ _ _ _ msg). }
  rewrite guarded_ok by done. rewrite bind_run.
  destruct (fs_fault (faults w)) as [msg|] eqn:Hfs.
  { by rewrite (deletePackage_fail _ _ msg). }
  rewrite deletePackage_ok by done. rewrite bind_run.
  unfold NotificationService.notifyPackageDiscontinued. rewrite bind_run.
  unfold SubscriptionModel.getSubscribersByPackage, db_query.
  rewrite guarded_ok by done. cbn [subscriptions set_storage set_download_logs
    set_subscriptions set_packages].
  by rewrite no_subscribers_after_cascade.
Qed.

(** C3, as the handler has it.  The DELETE handler removes the Package row,
    then removes the directory [path.join(storageDir, packageId)] with every
    file in it or below it, then runs the notification step and answers
    200; if removing the files fails it answers 500 with the row already
    removed.  The files outside that directory stay as they are, and the
    artifact of every version that is a plain segment lies in it, as every
    version does that the upload validator admits.  The handler submits
    nothing to the ledger: in every case the ledger is
    the one it started with, so each Release record keeps the status it
    had. *)
Theorem delete_package_leaves_ledger `{StorageRoot} (req : Request) (w : World) :
  ledger (delete_handler req w).2 = ledger w
  ∧ match db_fault (faults w) with
    | Some msg => delete_handler req w = (json 500 (ErrorJson msg), w)
    | None =>
        packages (delete_handler req w).2 = delete (params_packageId req) (packages w)
        ∧ match fs_fault (faults w) with
          | Some msg =>
              (delete_handler req w).1
              = json 500 (ErrorJson ("Failed to delete package: " ++ msg))
              ∧ storage (delete_handler req w).2 = storage w
          | None =>
              (delete_handler req w).1
              = json 200 (MessageJson "Package discontinued successfully")
              ∧ (∀ path,
                   storage (delete_handler req w).2 !! path
                   = if is_under (path_join storageDir [params_packageId req]) path
                     then None else storage w !! path)
              ∧ (∀ v, plain_segment v = true →
                      storage (delete_handler req w).2
                        !! fileStorage.getFilePath (params_packageId req) v = None)
          end
    end.
Proof.
  rewrite delete_handler_run. cbn zeta.
  destruct (db_fault (faults w)) as [msg|]; [done|].
  destruct (fs_fault (faults w)) as [msg|]; [done|].
  cbn -[path_join]. repeat split; [done..| |].
  - intros path.
    destruct (is_under (path_join storageDir [params_packageId req]) path) eqn:Hin.
    + apply map_lookup_filter_None. right. intros buf _. cbn -[path_join]. by rewrite Hin.
    + destruct (storage w !! path) as [buf|] eqn:Hlk.
      * by apply map_lookup_filter_Some.
      * apply map_lookup_filter_None. by left.
  - intros v Hv. apply map_lookup_filter_None. right. intros buf _. cbn -[path_join].
    by rewrite (is_under_package_file _ _ Hv).
Qed.

(** The package directory is whatever [path.join] makes of the id: for the
    id [.], which the validator of the DELETE route lets through, it is the
    storage root, and the handler removes the artifacts of every package. *)
Example delete_of_dot_empties_the_storage :
  (@delete_route srv_root (mkRequest (Some root) None None "" "" "" None "." "") world1).1
  = json 200 (MessageJson "Package discontinued successfully")
  ∧ storage world1 !! @fileStorage.getFilePath srv_root acme v100 = Some b1
  ∧ storage
      (@delete_route srv_root (mkRequest (Some root) None None "" "" "" None "." "") world1).2
    = ∅.
Proof. vm_compute. repeat split. Qed.

(** C3 as stated fails: an administrator deletes the package of [world1],
    whose release 1.0.0 is ACTIVE on the ledger; the route answers 200, row
    and artifact are gone, and the ledger record is still ACTIVE. *)
Lemma delete_package_flips_status_counterexample :
  let key := createKey (@fabricNetwork.ctx org1_config) acme v100 in
  status_at (ledger world1) key = Some "ACTIVE"
  ∧ @delete_route srv_root (plain_request (Some root)) world1
    = (json 200 (MessageJson "Package discontinued successfully"), world_after_delete)
  ∧ packages world_after_delete !! acme = None
  ∧ storage world_after_delete !! @fileStorage.getFilePath srv_root acme v100 = None
  ∧ status_at (ledger world_after_delete) key = Some "ACTIVE"
  ∧ ¬ (status_at (ledger world_after_delete) key = Some "DISCONTINUED").
Proof.
  vm_compute. repeat split; try reflexivity; intros [=].
Qed.

Lemma validate_file_handler_run `{Sha256} `{FabricConfig}
    (req : Request) (w : World) (buf : Buffer) (r : SoftwareRelease) :
  req_file req = Some buf →
  ledger_fault (faults w) = None →
  ledger w !! createKey fabricNetwork.ctx (params_packageId req) (params_version req)
    = Some r →
  validate_file_handler req w =
    let valid := String.eqb (fileHash r) (sha256_hex buf)
                 && negb (String.eqb "DISCONTINUED" (status r)) in
    (json 200 (ValidationJson valid (fileHash r) (sha256_hex buf)
                 (if valid then "File integrity verified ✓"
                  else "File has been tampered with ✗")), w).
Proof.
  intros Hfile Hl Hr. unfold validate_file_handler, handle. cbn zeta.
  rewrite Hfile, bind_run, getRelease_run, Hr by done.
  rewrite bind_run, validateRelease_run, Hr by done. reflexivity.
Qed.

(** C6. After an upload of bytes [buf] answered 201, the validate-file
    handler at the same packageId and version answers 200 with a result
    record in both cases: for the same bytes [valid] is true and both hashes
    are the digest of [buf]; for bytes with another digest [valid] is false,
    [expectedHash] is the digest of [buf] and [actualHash] the differing
    digest of the candidate. *)
Theorem validate_after_publish `{Sha256} `{FabricConfig} `{StorageRoot}
    (req : Request) (w w1 : World) (r : Response) (buf : Buffer) :
  upload_handler req w = (r, w1) → status_code r = 201 →
  req_file req = Some buf →
  (∀ vreq,
     params_packageId vreq = body_packageId req →
     params_version vreq = body_version req →
     req_file vreq = Some buf →
     validate_file_handler vreq w1 =
       (json 200 (ValidationJson true (sha256_hex buf) (sha256_hex buf)
                    "File integrity verified ✓"), w1))
  ∧ (∀ vreq buf',
       params_packageId vreq = body_packageId req →
       params_version vreq = body_version req →
       req_file vreq = Some buf' → sha256_hex buf' ≠ sha256_hex buf →
       validate_file_handler vreq w1 =
         (json 200 (ValidationJson false (sha256_hex buf) (sha256_hex buf')
                      "File has been tampered with ✗"), w1)
       ∧ sha256_hex buf ≠ sha256_hex buf').
Proof.
  intros Hrun Hcode Hfile.
  destruct (upload_success_inv _ _ _ _ Hrun Hcode)
    as (buf1&user&pkg&Hf1&_&Hfl&_&_&Hl&_&_&_&_&Hled).
  cbn zeta in *. assert (buf1 = buf) as -> by congruence.
  assert (∀ vreq, params_packageId vreq = body_packageId req →
            params_version vreq = body_version req →
            ledger w1 !! createKey fabricNetwork.ctx (params_packageId vreq)
              (params_version vreq)
            = Some (mkSoftwareRelease (body_packageId req) (body_version req)
                      (sha256_hex buf) "ACTIVE" mspId)) as Hrec.
  { intros vreq Hp Hv. by rewrite Hp, Hv, Hled, lookup_insert_eq. }
  split.
  - intros vreq Hp Hv Hvf.
    rewrite (validate_file_handler_run vreq w1 buf _ Hvf) by (rewrite ?Hfl; auto).
    cbn [fileHash status]. by rewrite String.eqb_refl.
  - intros vreq buf' Hp Hv Hvf Hne. split; [|done].
    rewrite (validate_file_handler_run vreq w1 buf' _ Hvf) by (rewrite ?Hfl; auto).
    cbn [fileHash status].
    by rewrite (proj2 (String.eqb_neq _ _)) by done.
Qed.

Lemma validate_after_publish_witness :
  (∀ vreq,
     params_packageId vreq = acme → params_version vreq = v100 →
     req_file vreq = Some b1 →
     @validate_file_handler hex_sha org1_config vreq world1 =
       (json 200 (ValidationJson true (hex_of_bytes b1) (hex_of_bytes b1)
                    "File integrity verified ✓"), world1))
  ∧ (∀ vreq buf',
       params_packageId vreq = acme → params_version vreq = v100 →
       req_file vreq = Some buf' → hex_of_bytes buf' ≠ hex_of_bytes b1 →
       @validate_file_handler hex_sha org1_config vreq world1 =
         (json 200 (ValidationJson false (hex_of_bytes b1) (hex_of_bytes buf')
                      "File has been tampered with ✗"), world1)
       ∧ hex_of_bytes b1 ≠ hex_of_bytes buf').
Proof.
  apply (@validate_after_publish hex_sha org1_config srv_root (upload_of alice b1)
           world0 world1
           (@upload_handler hex_sha org1_config srv_root (upload_of alice b1) world0).1 b1).
  - vm_compute. reflexivity.
  - vm_compute. reflexivity.
  - reflexivity.
Defined.

(** The two cases of C6 on the sample world: the published bytes, and the
    published bytes with one byte appended. *)
Example validate_after_publish_sample :
  @validate_file_handler hex_sha org1_config (file_request b1) world1
  = (json 200 (ValidationJson true "6162" "6162" "File integrity verified ✓"), world1)
  ∧ @validate_file_handler hex_sha org1_config (file_request b2) world1
    = (json 200 (ValidationJson false "6162" "616278" "File has been tampered with ✗"),
       world1).
Proof. vm_compute. split; reflexivity. Qed.

(** C7. When the ledger answers and the record at the key has a status
    other than ACTIVE, the download handler answers 403 with the message
    "Version <version> is <status>": no file is read or sent and no download
    is logged, whatever the artifact store holds.  In particular this is the
    answer in any world that a successful [discontinueRelease] at the key
    leaves. *)
Theorem download_refused_unless_active `{FabricConfig} `{StorageRoot} (req : Request) :
  (∀ w r,
     ledger_fault (faults w) = None →
     ledger w !! createKey fabricNetwork.ctx (params_packageId req) (params_version req)
       = Some r →
     status r ≠ "ACTIVE" →
     download_handler req w =
       (json 403 (ErrorJson ("Version " ++ params_version req ++ " is " ++ status r)), w))
  ∧ (∀ w0 w1,
       fabricNetwork.discontinueRelease (params_packageId req) (params_version req) w0
         = (Resolved (), w1) →
       download_handler req w1 =
         (json 403 (ErrorJson ("Version " ++ params_version req ++ " is DISCONTINUED")), w1)).
Proof.
  assert (∀ w r,
     ledger_fault (faults w) = None →
     ledger w !! createKey fabricNetwork.ctx (params_packageId req) (params_version req)
       = Some r →
     status r ≠ "ACTIVE" →
     download_handler req w =
       (json 403 (ErrorJson ("Version " ++ params_version req ++ " is " ++ status r)), w))
    as Hgate.
  { intros w r Hl Hr Hst. unfold download_handler, handle. cbn zeta.
    rewrite bind_run, getRelease_run, Hr by done. by rewrite decide_True. }
  split; [exact Hgate|].
  intros w0 w1 Hdisc.
  destruct (ledger_fault (faults w0)) as [msg|] eqn:Hl.
  { by rewrite (discontinueRelease_down _ _ _ msg) in Hdisc. }
  rewrite discontinueRelease_run in Hdisc by done.
  destruct (ledger w0 !! _) as [r|] eqn:Hr; [|done].
  injection Hdisc as <-.
  rewrite (Hgate _ (setStatus "DISCONTINUED" r)); [done|done| |done].
  cbn. by rewrite lookup_insert_eq.
Qed.

Lemma download_refused_unless_active_witness :
  @download_handler org1_config srv_root (file_request b1)
    (set_ledger (λ _, ws_discontinued) world1)
  = (json 403 (ErrorJson ("Version " ++ v100 ++ " is " ++ status r_discontinued)),
     set_ledger (λ _, ws_discontinued) world1)
  ∧ storage (set_ledger (λ _, ws_discontinued) world1) !! @fileStorage.getFilePath srv_root acme v100
    = Some b1
  ∧ @download_handler org1_config srv_root (file_request b1)
      (@fabricNetwork.discontinueRelease org1_config acme v100 world1).2
    = (json 403 (ErrorJson ("Version " ++ v100 ++ " is DISCONTINUED")),
       (@fabricNetwork.discontinueRelease org1_config acme v100 world1).2).
Proof.
  split; [|split].
  - apply (proj1 (@download_refused_unless_active org1_config srv_root (file_request b1))
             (set_ledger (λ _, ws_discontinued) world1) r_discontinued).
    + reflexivity.
    + vm_compute. reflexivity.
    + vm_compute. intros [=].
  - vm_compute. reflexivity.
  - apply (proj2 (@download_refused_unless_active org1_config srv_root (file_request b1)) world1).
    vm_compute. reflexivity.
Defined.

(** C10. When the upload handler finds no Package row it creates one, which
    the database accepts when the package id and the name fit their columns
    (255 characters) and the uploader has a row in [users]; if then the
    artifact write fails, or the ledger is unreachable, or the ledger rejects
    the publish because the key is taken, the handler answers 500 with the
    error's message and the row it created is still in the packages
    table. *)
Theorem upload_failure_keeps_new_package_row `{Sha256} `{FabricConfig} `{StorageRoot}
    (req : Request) (w : World) (buf : Buffer) (user : TokenPayload) :
  req_file req = Some buf →
  req_user req = Some user →
  db_fault (faults w) = None →
  packages w !! body_packageId req = None →
  (String.length (body_packageId req) ≤ 255)%nat →
  (String.length (body_name req) ≤ 255)%nat →
  is_Some (users w !! userId user) →
  is_Some (fs_fault (faults w)) ∨ is_Some (ledger_fault (faults w))
  ∨ is_Some (ledger w !! createKey fabricNetwork.ctx (body_packageId req) (body_version req)) →
  (∃ msg, (upload_handler req w).1 = json 500 (ErrorJson msg))
  ∧ packages (upload_handler req w).2 !! body_packageId req
    = Some (mkPackage (body_packageId req) (userId user) (body_name req)
              (body_description req))
  ∧ ledger (upload_handler req w).2 = ledger w.
Proof.
  intros Hfile Huser Hdb Hpkg Hid Hname [row Hrow] Hfail.
  rewrite upload_handler_run. cbn zeta. rewrite Hfile, Hdb, Huser, Hpkg.
  rewrite !varchar_fits, Hrow by done. cbn [negb andb].
  unfold handle. rewrite upload_publish_run. cbn zeta.
  cbn [faults ledger set_packages].
  destruct (fs_fault (faults w)) as [m|] eqn:Hfs.
  { cbn. rewrite lookup_insert_eq. eauto. }
  destruct (ledger_fault (faults w)) as [m|] eqn:Hl.
  { cbn. rewrite lookup_insert_eq. eauto. }
  destruct (ledger w !! _) as [r|] eqn:Hr.
  { cbn. rewrite lookup_insert_eq. eauto. }
  destruct Hfail as [[? [=]]|[[? [=]]|[? [=]]]].
Qed.

Lemma upload_failure_keeps_new_package_row_witness :
  (∃ msg, (@upload_handler hex_sha org1_config srv_root (upload_of alice b2) world_after_delete).1
          = json 500 (ErrorJson msg))
  ∧ packages (@upload_handler hex_sha org1_config srv_root (upload_of alice b2) world_after_delete).2
      !! acme
    = Some (mkPackage acme alice_id "Acme library" None)
  ∧ ledger (@upload_handler hex_sha org1_config srv_root (upload_of alice b2) world_after_delete).2
    = ledger world_after_delete.
Proof.
  apply (@upload_failure_keeps_new_package_row hex_sha org1_config srv_root
           (upload_of alice b2) world_after_delete b2 alice).
  - reflexivity.
  - reflexivity.
  - reflexivity.
  - vm_compute. reflexivity.
  - vm_compute. lia.
  - vm_compute. lia.
  - vm_compute. eexists. reflexivity.
  - right; right. vm_compute. eexists. reflexivity.
Defined.

(** When the database refuses the new row there is nothing to keep: a
    package id of 256 characters passes the validator of the route, and the
    upload is answered 500 with no row, no artifact and no release. *)
Example upload_of_long_id_creates_no_row :
  let long_id := String.concat "" (replicate 256 "a") in
  let out := @upload_route hex_sha org1_config srv_root
               (mkRequest (Some alice) None (Some b1) long_id v100 "Acme library" None "" "")
               world0 in
  matches_packageId long_id = true
  ∧ out = (json 500 (ErrorJson "value too long for type character varying"), world0).
Proof. vm_compute. split; reflexivity. Qed.

(** Likewise for an uploader whose row in [users] is gone while the token
    is still valid: the new row would have no owner to refer to. *)
Example upload_by_unknown_user_creates_no_row :
  let zoe := mkTokenPayload zoe_id "zoe" "OWNER" in
  @upload_route hex_sha org1_config srv_root (upload_of zoe b1) world0
  = (json 500 (ErrorJson "insert or update violates foreign key constraint"), world0).
Proof. vm_compute. reflexivity. Qed.

(** The same on a file system that rejects: the row of a package that has
    no artifact and no release stays behind. *)
Example upload_failure_on_write_sample :
  let out := @upload_handler hex_sha org1_config srv_root (upload_of alice b1)
               (set_faults fs_down world0) in
  out.1 = json 500 (ErrorJson "Failed to save file: EACCES: permission denied")
  ∧ packages out.2 !! acme = Some (mkPackage acme alice_id "Acme library" None)
  ∧ storage out.2 = ∅ ∧ ledger out.2 = ∅.
Proof. vm_compute. repeat split; reflexivity. Qed.

(** C3's failure case on the sample world: with a file system that rejects,
    the DELETE handler answers 500; the Package row is gone, the artifact is
    still stored and the ledger record is still ACTIVE. *)
Example delete_package_on_failing_store_sample :
  let out := @delete_handler srv_root (plain_request (Some root))
               (set_faults fs_down world1_subscribed) in
  out.1 = json 500 (ErrorJson "Failed to delete package: EACCES: permission denied")
  ∧ packages out.2 !! acme = None
  ∧ storage out.2 !! @fileStorage.getFilePath srv_root acme v100 = Some b1
  ∧ status_at (ledger out.2) (createKey org1 acme v100) = Some "ACTIVE".
Proof. vm_compute. repeat split; reflexivity. Qed.


(** ** Further properties of the contract *)

Section ChaincodeExtras.
Implicit Types (ctx : Context) (ws : gmap string SoftwareRelease).

(** X1. Publishing at a free key returns the record (packageId, version,
    fileHash, ACTIVE, submitter's MSP) and stores it: afterwards [GetRelease]
    returns that record to every caller, and [ValidateRelease] answers
    whether the candidate is the published hash. *)
Theorem publish_then_read ctx p v h ws :
  ws !! createKey ctx p v = None →
  ∃ ws',
    PublishRelease ctx p v h ws
      = Returned (mkSoftwareRelease p v h "ACTIVE" (getMSPID ctx)) ws'
    ∧ (∀ ctx', GetRelease ctx' p v ws'
               = Returned (mkSoftwareRelease p v h "ACTIVE" (getMSPID ctx)) ws')
    ∧ (∀ ctx' h', ValidateRelease ctx' p v h' ws' = Returned (String.eqb h h') ws').
Proof.
  intros Hfree. eexists. split; [exact (PublishRelease_fresh _ _ _ _ _ Hfree)|].
  split.
  - intros ctx'. apply GetRelease_present.
    change (createKey ctx' p v) with (createKey ctx p v). apply lookup_insert_eq.
  - intros ctx' h'.
    rewrite (ValidateRelease_present ctx' p v h' _
               (mkSoftwareRelease p v h "ACTIVE" (getMSPID ctx))).
    + cbn [fileHash status].
      replace (String.eqb "DISCONTINUED" "ACTIVE") with false by (by vm_compute).
      by rewrite andb_true_r.
    + change (createKey ctx' p v) with (createKey ctx p v). apply lookup_insert_eq.
Qed.

Lemma publish_then_read_witness :
  ∃ ws',
    PublishRelease org1 acme v100 "6162" ∅
      = Returned (mkSoftwareRelease acme v100 "6162" "ACTIVE" (getMSPID org1)) ws'
    ∧ (∀ ctx', GetRelease ctx' acme v100 ws'
               = Returned (mkSoftwareRelease acme v100 "6162" "ACTIVE" (getMSPID org1)) ws')
    ∧ (∀ ctx' h', ValidateRelease ctx' acme v100 h' ws'
                  = Returned (String.eqb "6162" h') ws').
Proof.
  apply (publish_then_read org1 acme v100 "6162" ∅). reflexivity.
Defined.

(** X2. Once a release of a reachable ledger has been discontinued, no
    later sequence of transactions makes [ValidateRelease] answer true for
    it, whatever hash is offered; the call still returns without throwing. *)
Theorem discontinued_never_validates ctx p v ws r :
  reachable ws →
  ws !! createKey ctx p v = Some r →
  ∀ txs ctx' h',
    let ws' := submit_all txs (submit (SubmitDiscontinue ctx p v) ws) in
    ValidateRelease ctx' p v h' ws' = Returned false ws'.
Proof.
  intros Hreach Hr txs ctx' h' ws'.
  assert (status_at ws' (createKey ctx p v) = Some "DISCONTINUED") as Hd.
  { apply discontinued_forever; [by constructor|].
    unfold status_at. cbn. rewrite (DiscontinueRelease_present _ _ _ _ _ Hr). cbn.
    by rewrite lookup_insert_eq. }
  unfold status_at in Hd.
  destruct (ws' !! createKey ctx p v) as [r'|] eqn:Hr'; [|done].
  injection Hd as Hd.
  rewrite (ValidateRelease_present ctx' p v h' ws' r' Hr'), Hd.
  replace (String.eqb "DISCONTINUED" "DISCONTINUED") with true by (by vm_compute).
  by rewrite andb_false_r.
Qed.

Lemma discontinued_never_validates_witness :
  let ws' := submit_all [SubmitPublish org1 acme v100 "00"]
               (submit (SubmitDiscontinue org1 acme v100) ws_published) in
  ValidateRelease org1 acme v100 "6162" ws' = Returned false ws'.
Proof.
  apply (discontinued_never_validates org1 acme v100 ws_published r_active).
  - apply reachable_submit, reachable_genesis.
  - vm_compute. reflexivity.
Defined.

Lemma string_app_cons (a : ascii) (s t : string) :
  String a s ++ t = String a (s ++ t).
Proof. reflexivity. Qed.

Lemma string_app_assoc (s t u : string) : (s ++ t) ++ u = s ++ (t ++ u).
Proof.
  induction s as [|a s IH]; [reflexivity|].
  by rewrite !string_app_cons, IH.
Qed.

(** X3. A submitted transaction, accepted or refused, leaves every key
    other than the one it addresses as it was, and it never removes a key
    from the ledger. *)
Theorem submit_touches_own_key_only tx ws key :
  key ≠ tx_key tx →
  submit tx ws !! key = ws !! key ∧ dom ws ⊆ dom (submit tx ws).
Proof.
  intros Hkey. split.
  - destruct (submit_lookup tx ws key)
      as [Heq|[(?&?&?&?&->&->&_&_)|(?&?&?&?&->&->&_&_)]]; [done|by destruct Hkey..].
  - intros k Hk. apply elem_of_dom in Hk. apply elem_of_dom.
    destruct (submit_lookup tx ws k)
      as [Heq|[(?&?&?&?&_&_&_&Hnew)|(?&?&?&?&_&_&_&Hnew)]].
    + by rewrite Heq.
    + by rewrite Hnew.
    + by rewrite Hnew.
Qed.

Lemma submit_touches_own_key_only_witness :
  submit (SubmitDiscontinue org1 acme "2.0.0") ws_published !! createKey org1 acme v100
  = ws_published !! createKey org1 acme v100
  ∧ dom ws_published ⊆ dom (submit (SubmitDiscontinue org1 acme "2.0.0") ws_published).
Proof.
  apply (submit_touches_own_key_only (SubmitDiscontinue org1 acme "2.0.0")
           ws_published (createKey org1 acme v100)).
  vm_compute. intros [=].
Defined.

(** X4. The key is the plain concatenation packageId:version, so a
    packageId or version that contains a colon can meet another pair's key:
    once (p:a, b) is published, publishing (p, a:b) is refused as already
    existing although no release of package p was ever published, and
    reading (p, a:b) returns the record of package p:a. *)
Theorem colon_in_ids_shares_key ctx p a b h h' ws :
  ws !! createKey ctx (p ++ ":" ++ a) b = None →
  ∃ ws',
    PublishRelease ctx (p ++ ":" ++ a) b h ws
      = Returned (mkSoftwareRelease (p ++ ":" ++ a) b h "ACTIVE" (getMSPID ctx)) ws'
    ∧ PublishRelease ctx p (a ++ ":" ++ b) h' ws'
      = Threw (mkChaincodeException
                 ("Release " ++ p ++ " version " ++ (a ++ ":" ++ b) ++ " already exists")
                 RELEASE_ALREADY_EXISTS)
    ∧ GetRelease ctx p (a ++ ":" ++ b) ws'
      = Returned (mkSoftwareRelease (p ++ ":" ++ a) b h "ACTIVE" (getMSPID ctx)) ws'.
Proof.
  intros Hfree.
  assert (createKey ctx p (a ++ ":" ++ b) = createKey ctx (p ++ ":" ++ a) b) as Hkey.
  { unfold createKey. by rewrite !string_app_assoc. }
  eexists. split; [exact (PublishRelease_fresh _ _ _ _ _ Hfree)|]. split.
  - eapply PublishRelease_taken. rewrite Hkey. apply lookup_insert_eq.
  - apply GetRelease_present. rewrite Hkey. apply lookup_insert_eq.
Qed.

Lemma colon_in_ids_shares_key_witness :
  ∃ ws',
    PublishRelease org1 ("com" ++ ":" ++ "acme") "1.0.0" "6162" ∅
      = Returned (mkSoftwareRelease ("com" ++ ":" ++ "acme") "1.0.0" "6162" "ACTIVE"
                    (getMSPID org1)) ws'
    ∧ PublishRelease org1 "com" ("acme" ++ ":" ++ "1.0.0") "00" ws'
      = Threw (mkChaincodeException
                 ("Release " ++ "com" ++ " version " ++ ("acme" ++ ":" ++ "1.0.0")
                  ++ " already exists")
                 RELEASE_ALREADY_EXISTS)
    ∧ GetRelease org1 "com" ("acme" ++ ":" ++ "1.0.0") ws'
      = Returned (mkSoftwareRelease ("com" ++ ":" ++ "acme") "1.0.0" "6162" "ACTIVE"
                    (getMSPID org1)) ws'.
Proof.
  apply (colon_in_ids_shares_key org1 "com" "acme" "1.0.0" "6162" "00" ∅).
  reflexivity.
Defined.

End ChaincodeExtras.

(** ** The route validators *)

Section ValidatorExtras.

Lemma digits_then_0 (seen : bool) (cs : list ascii) :
  digits_then 0 seen cs = true ↔
  forallb is_digit cs = true ∧ (seen = true ∨ cs ≠ []).
Proof.
  revert seen. induction cs as [|c cs IH]; intros seen; cbn [digits_then forallb].
  - rewrite andb_true_r. split; [intros ->; by split; [|left]|].
    by intros [_ [?|?]].
  - destruct (is_digit c) eqn:Hc; cbn [andb].
    + rewrite IH. split; (intros [? _]; split; [done|]); [by right|by left].
    + destruct (Ascii.eqb c "."); (split; [done|by intros [[=] _]]).
Qed.

Lemma digits_then_S (k : nat) (seen : bool) (cs : list ascii) :
  digits_then (S k) seen cs = true ↔
  ∃ d rest, cs = (d ++ "."%char :: rest)%list ∧ forallb is_digit d = true
            ∧ (seen = true ∨ d ≠ []) ∧ digits_then k false rest = true.
Proof.
  revert seen. induction cs as [|c cs IH]; intros seen; cbn [digits_then].
  - rewrite andb_false_r. split; [done|]. intros ([|??]&?&?&_); done.
  - destruct (is_digit c) eqn:Hc.
    + rewrite IH. split.
      * intros (d&rest&->&Hd&_&Hrest). exists (c :: d), rest.
        cbn [forallb]. rewrite Hc, Hd.
        split; [done|]. split; [done|]. split; [by right|done].
      * intros ([|c' d]&rest&Heq&Hd&Hseen&Hrest).
        { injection Heq as -> _. by vm_compute in Hc. }
        injection Heq as -> ->. cbn [forallb] in Hd.
        apply andb_true_iff in Hd as [_ Hd]. exists d, rest.
        split; [done|]. split; [done|]. split; [by left|done].
    + destruct (Ascii.eqb c ".") eqn:Hdot.
      * apply Ascii.eqb_eq in Hdot as ->. rewrite andb_true_iff. split.
        -- intros [-> Hrest]. exists [], cs.
           split; [done|]. split; [done|]. split; [by left|done].
        -- intros ([|c' d]&rest&Heq&Hd&Hseen&Hrest).
           { injection Heq as ->. by destruct Hseen as [->|?]. }
           injection Heq as <- _. cbn [forallb] in Hd. by rewrite Hc in Hd.
      * split; [done|]. intros ([|c' d]&rest&Heq&Hd&_).
        { injection Heq as -> _. by rewrite Ascii.eqb_refl in Hdot. }
        injection Heq as <- _. cbn [forallb] in Hd. by rewrite Hc in Hd.
Qed.

(** X5. The version validator accepts exactly the strings made of three
    non-empty groups of decimal digits separated by two dots. *)
Theorem matches_version_spec (s : string) :
  matches_version s = true ↔
  ∃ a b c : list ascii,
    String.list_ascii_of_string s = (a ++ "."%char :: b ++ "."%char :: c)%list
    ∧ a ≠ [] ∧ b ≠ [] ∧ c ≠ []
    ∧ forallb is_digit a = true ∧ forallb is_digit b = true
    ∧ forallb is_digit c = true.
Proof.
  unfold matches_version. rewrite digits_then_S. split.
  - intros (a&rest&Hs&Ha&Hane&Hrest).
    apply digits_then_S in Hrest as (b&c&->&Hb&Hbne&Hc).
    apply digits_then_0 in Hc as [Hc Hcne].
    exists a, b, c. destruct Hane as [[=]|Hane], Hbne as [[=]|Hbne], Hcne as [[=]|Hcne].
    done.
  - intros (a&b&c&Hs&Hane&Hbne&Hcne&Ha&Hb&Hc).
    exists a, (b ++ "."%char :: c)%list. repeat split; [done..|by right|].
    apply digits_then_S. exists b, c. repeat split; [done|by right|].
    apply digits_then_0. by split; [|right].
Qed.

Lemma no_colon_app_inj (p1 p2 v1 v2 : string) :
  forallb is_packageId_char (String.list_ascii_of_string p1) = true →
  forallb is_packageId_char (String.list_ascii_of_string p2) = true →
  p1 ++ ":" ++ v1 = p2 ++ ":" ++ v2 → p1 = p2 ∧ v1 = v2.
Proof.
  revert p2. induction p1 as [|a p1 IH]; intros [|c p2] H1 H2 Heq.
  - change ("" ++ ":" ++ v1) with (String ":" v1) in Heq.
    change ("" ++ ":" ++ v2) with (String ":" v2) in Heq. by injection Heq as ->.
  - change ("" ++ ":" ++ v1) with (String ":" v1) in Heq.
    rewrite string_app_cons in Heq. injection Heq as <- _.
    cbn [String.list_ascii_of_string forallb] in H2. by vm_compute in H2.
  - change ("" ++ ":" ++ v2) with (String ":" v2) in Heq.
    rewrite string_app_cons in Heq. injection Heq as -> _.
    cbn [String.list_ascii_of_string forallb] in H1. by vm_compute in H1.
  - rewrite !string_app_cons in Heq. injection Heq as -> Heq.
    cbn [String.list_ascii_of_string forallb] in H1, H2.
    apply andb_true_iff in H1 as [_ H1]. apply andb_true_iff in H2 as [_ H2].
    destruct (IH _ H1 H2 Heq) as [-> ->]. done.
Qed.

Lemma matches_packageId_chars (p : string) :
  matches_packageId p = true →
  forallb is_packageId_char (String.list_ascii_of_string p) = true.
Proof.
  unfold matches_packageId. by destruct (String.list_ascii_of_string p).
Qed.

(** X6. For packageIds that pass the upload route's validator the ledger
    key determines the pair: two (packageId, version) pairs with the same
    key are the same pair. *)
Theorem createKey_injective_on_valid_ids ctx1 ctx2 (p1 p2 v1 v2 : string) :
  matches_packageId p1 = true → matches_packageId p2 = true →
  createKey ctx1 p1 v1 = createKey ctx2 p2 v2 →
  p1 = p2 ∧ v1 = v2.
Proof.
  intros H1 H2. unfold createKey.
  apply no_colon_app_inj; by apply matches_packageId_chars.
Qed.

Lemma createKey_injective_on_valid_ids_witness :
  acme = acme ∧ v100 = v100.
Proof.
  apply (createKey_injective_on_valid_ids org1 org1 acme acme v100 v100).
  - vm_compute. reflexivity.
  - vm_compute. reflexivity.
  - reflexivity.
Defined.

End ValidatorExtras.


(** ** Further properties of the gateway *)

Section NotifierExtras.

Lemma notify_loop (subject : string) (ids : list string) (w : World) :
  db_fault (faults w) = None →
  ∃ w',
    for_of ids (λ userId,
      user ← UserModel.findById userId;
      match user with
      | Some u => emailService.sendEmail (email u) subject;; mret ()
      | None => mret ()
      end) w = (Resolved (), w')
    ∧ same_stores w w'
    ∧ outbox w' =
        (outbox w ++
         if mail_fault (faults w) then []
         else (λ u, mkMail (email u) subject) <$> omap (λ userId, users w !! userId) ids)%list.
Proof.
  revert w. induction ids as [|uid ids IH]; intros w Hdb.
  - exists w. split; [done|]. split; [apply same_stores_refl|].
    destruct (mail_fault _); cbn; by rewrite app_nil_r.
  - cbn [for_of]. rewrite bind_run, bind_run.
    assert (UserModel.findById uid w = (Resolved (users w !! uid), w)) as ->.
    { unfold UserModel.findById, db_query. by rewrite guarded_ok. }
    cbn [omap list_omap].
    destruct (users w !! uid) as [u|] eqn:Hu.
    + rewrite bind_run. unfold emailService.sendEmail at 1.
      destruct (mail_fault (faults w)) eqn:Hmail; cbn [mret Async_ret].
      * destruct (IH w Hdb) as (w'&Hrun&Hsame&Hout). rewrite Hmail in Hout.
        exists w'. by rewrite Hrun.
      * destruct (IH (set_outbox (λ ms, (ms ++ [mkMail (email u) subject])%list) w) Hdb)
          as (w'&Hrun&Hsame&Hout).
        cbn [faults users outbox set_outbox] in Hout. rewrite Hmail in Hout.
        exists w'. split; [by rewrite Hrun|]. split.
        -- destruct Hsame as (?&?&?&?&?&?&?). by repeat split.
        -- rewrite Hout, fmap_cons. by rewrite <- app_assoc.
    + cbn [mret Async_ret].
      destruct (IH w Hdb) as (w'&Hrun&Hsame&Hout). exists w'. by rewrite Hrun.
Qed.

(** X7. When the database answers, [notifyVersionUpdate] always resolves:
    it hands the mail provider one "New Version" mail per subscriber of the
    package that has a user row (in the order the query lists them) and touches nothing
    but the outbox; when the provider refuses, no mail goes out and the call
    still resolves. *)
Theorem notifyVersionUpdate_mails (p v : string) (w : World) :
  db_fault (faults w) = None →
  ∃ w',
    NotificationService.notifyVersionUpdate p v w = (Resolved (), w')
    ∧ same_stores w w'
    ∧ outbox w' =
        (outbox w ++
         if mail_fault (faults w) then []
         else subscriber_mails w p
                ("New Version: "
                 ++ match packages w !! p with
                    | Some row => if decide (name row = "") then p else name row
                    | None => p
                    end
                 ++ " " ++ v))%list.
Proof.
  intros Hdb.
  unfold NotificationService.notifyVersionUpdate, NotificationService.notifySubscribers.
  rewrite bind_run. unfold SubscriptionModel.getSubscribersByPackage, db_query at 1.
  rewrite guarded_ok by done. unfold subscriber_mails.
  case_decide as Hlen.
  - exists w. split; [done|]. split; [apply same_stores_refl|].
    apply nil_length_inv in Hlen. rewrite Hlen.
    destruct (mail_fault _); cbn; by rewrite app_nil_r.
  - rewrite bind_run. unfold PackageModel.findById, db_query at 1.
    rewrite guarded_ok by done. by apply notify_loop.
Qed.

Lemma notifyVersionUpdate_mails_witness :
  ∃ w',
    NotificationService.notifyVersionUpdate acme "1.0.1" world1_subscribed = (Resolved (), w')
    ∧ same_stores world1_subscribed w'
    ∧ outbox w' =
        (outbox world1_subscribed ++
         if mail_fault (faults world1_subscribed) then []
         else subscriber_mails world1_subscribed acme
                ("New Version: "
                 ++ match packages world1_subscribed !! acme with
                    | Some row => if decide (name row = "") then acme else name row
                    | None => acme
                    end
                 ++ " " ++ "1.0.1"))%list.
Proof.
  apply (notifyVersionUpdate_mails acme "1.0.1" world1_subscribed). reflexivity.
Defined.

(** The mail of X7 on the sample world. *)
Example notifyVersionUpdate_sample :
  outbox (NotificationService.notifyVersionUpdate acme "1.0.1" world1_subscribed).2
  = [mkMail "bob@example.com" "New Version: Acme library 1.0.1"].
Proof. vm_compute. reflexivity. Qed.

(** X8. When the database answers, [notifyPackageDiscontinued] resolves
    and hands over one "Package Discontinued" mail per subscriber of the
    package that has a user row; nothing but the outbox changes. *)
Theorem notifyPackageDiscontinued_mails (p : string) (w : World) :
  db_fault (faults w) = None →
  ∃ w',
    NotificationService.notifyPackageDiscontinued p w = (Resolved (), w')
    ∧ same_stores w w'
    ∧ outbox w' =
        (outbox w ++
         if mail_fault (faults w) then []
         else subscriber_mails w p ("Package Discontinued: " ++ p))%list.
Proof.
  intros Hdb. unfold NotificationService.notifyPackageDiscontinued.
  rewrite bind_run. unfold SubscriptionModel.getSubscribersByPackage, db_query at 1.
  rewrite guarded_ok by done. by apply notify_loop.
Qed.

Lemma notifyPackageDiscontinued_mails_witness :
  ∃ w',
    NotificationService.notifyPackageDiscontinued acme world1_subscribed = (Resolved (), w')
    ∧ same_stores world1_subscribed w'
    ∧ outbox w' =
        (outbox world1_subscribed ++
         if mail_fault (faults world1_subscribed) then []
         else subscriber_mails world1_subscribed acme ("Package Discontinued: " ++ acme))%list.
Proof.
  apply (notifyPackageDiscontinued_mails acme world1_subscribed). reflexivity.
Defined.

(** X9. The DELETE handler never hands a mail to the provider: it removes
    the Package row first, the subscriptions of the package go with the row,
    and the notification that follows finds no subscriber.  After it (with
    the database answering) no subscription and no download log of the
    package is left. *)
Theorem delete_handler_sends_no_mail `{StorageRoot} (req : Request) (w : World) :
  outbox (delete_handler req w).2 = outbox w
  ∧ match db_fault (faults w) with
    | Some _ => True
    | None =>
        filter (λ s : string * string, s.2 = params_packageId req)
          (subscriptions (delete_handler req w).2) = []
        ∧ filter (λ l, log_package_id l = params_packageId req)
            (download_logs (delete_handler req w).2) = []
    end.
Proof.
  rewrite delete_handler_run. cbn zeta.
  destruct (db_fault (faults w)); [done|].
  assert (∀ logs : list DownloadLog,
    filter (λ l, log_package_id l = params_packageId req)
      (filter (λ l, log_package_id l ≠ params_packageId req) logs) = []) as Hlogs.
  { induction logs as [|l logs IH]; [done|].
    rewrite (filter_cons (λ l, log_package_id l ≠ params_packageId req)).
    case_decide; [|done].
    rewrite (filter_cons (λ l, log_package_id l = params_packageId req)).
    by case_decide. }
  destruct (fs_fault (faults w)); cbn;
    by rewrite no_subscribers_after_cascade, Hlogs.
Qed.

(** X9 on the sample world: bob is subscribed, the package is deleted, and
    the outbox stays empty. *)
Example delete_handler_no_mail_sample :
  subscriptions world1_subscribed = [(bob_id, acme)]
  ∧ (@delete_handler srv_root (plain_request (Some root)) world1_subscribed).1
    = json 200 (MessageJson "Package discontinued successfully")
  ∧ outbox (@delete_handler srv_root (plain_request (Some root)) world1_subscribed).2 = [].
Proof. vm_compute. repeat split; reflexivity. Qed.

End NotifierExtras.

Section UploadExtras.
Context `{Sha256} `{FabricConfig} `{StorageRoot}.

Lemma notifyVersionUpdate_resolves (p v : string) (w : World) :
  db_fault (faults w) = None →
  ∃ w', NotificationService.notifyVersionUpdate p v w = (Resolved (), w')
        ∧ same_stores w w'.
Proof.
  intros Hdb.
  unfold NotificationService.notifyVersionUpdate, NotificationService.notifySubscribers.
  rewrite bind_run. unfold SubscriptionModel.getSubscribersByPackage, db_query at 1.
  rewrite guarded_ok by done.
  case_decide as Hlen.
  - exists w. split; [done|apply same_stores_refl].
  - rewrite bind_run. unfold PackageModel.findById, db_query at 1.
    rewrite guarded_ok by done.
    match goal with |- context [for_of ?ids (λ userId, _ ≫= (λ user, match user with
          | Some u => emailService.sendEmail (email u) ?subject ≫= _
          | None => _ end))] =>
      destruct (notify_loop subject ids w Hdb) as (w'&Hrun&Hsame&_)
    end.
    exists w'. by split.
Qed.

(** What the upload handler can do to the packages table and to the
    subscriptions: it adds at most the row of a package that had none. *)
Lemma upload_packages_effect (req : Request) (w : World) :
  subscriptions (upload_handler req w).2 = subscriptions w
  ∧ (packages (upload_handler req w).2 = packages w
     ∨ ∃ row, packages w !! body_packageId req = None
              ∧ packages (upload_handler req w).2 = <[body_packageId req := row]> (packages w)).
Proof.
  assert (∀ buf row w0,
    packages (handle (upload_publish req buf row)
                (λ error, json 500 (ErrorJson (message error))) w0).2 = packages w0
    ∧ subscriptions (handle (upload_publish req buf row)
                (λ error, json 500 (ErrorJson (message error))) w0).2 = subscriptions w0)
    as Hpub.
  { intros buf row w0. unfold handle. rewrite upload_publish_run. cbn zeta.
    destruct (fs_fault (faults w0)); [done|].
    destruct (ledger_fault (faults w0)); [done|].
    destruct (ledger w0 !! _); [done|].
    match goal with |- context [NotificationService.notifyVersionUpdate ?p ?v ?w2] =>
      pose proof (mail_only_notifyVersionUpdate p v w2) as Hsame;
      destruct (NotificationService.notifyVersionUpdate p v w2) as [[[]|e] w3]
    end; destruct Hsame as (Hpk&_&Hsub&_); by cbn in *. }
  rewrite upload_handler_run. cbn zeta.
  destruct (req_file req) as [buf|]; [|by split; [|left]].
  destruct (db_fault (faults w)); [by split; [|left]|].
  destruct (req_user req) as [user|]; [|by split; [|left]].
  destruct (packages w !! body_packageId req) as [old|] eqn:Hold.
  - case_decide; [by split; [|left]|].
    destruct (Hpub buf old w) as [-> ->]. by split; [|left].
  - destruct (negb _); [by split; [|left]|].
    destruct (users w !! userId user); [|by split; [|left]].
    match goal with |- context [handle (upload_publish req buf ?row) _ ?w0] =>
      destruct (Hpub buf row w0) as [-> ->]
    end. split; [done|]. right. eauto.
Qed.

(** X10. An upload succeeds whenever nothing stands in its way: with a
    file, a token, the three collaborators answering, the key free on the
    ledger and the package owned by the caller (or the caller an
    administrator), or new with an id and a name of at most 255 characters
    and a caller who has a row in [users], the handler answers 201 with the
    digest and size of the bytes; afterwards the artifact store holds the
    bytes, the ledger holds the ACTIVE record with that digest under the
    gateway's MSP identity, and the Package row is the old one, or a new one
    owned by the caller.  Whether the mail provider works does not matter. *)
Theorem upload_succeeds (req : Request) (w : World) (buf : Buffer) (user : TokenPayload) :
  req_file req = Some buf →
  req_user req = Some user →
  db_fault (faults w) = None → fs_fault (faults w) = None →
  ledger_fault (faults w) = None →
  match packages w !! body_packageId req with
  | Some pkg => owner_id pkg = userId user ∨ role user = "ADMIN"
  | None =>
      (String.length (body_packageId req) ≤ 255)%nat
      ∧ (String.length (body_name req) ≤ 255)%nat
      ∧ is_Some (users w !! userId user)
  end →
  ledger w !! createKey fabricNetwork.ctx (body_packageId req) (body_version req) = None →
  let p := body_packageId req in
  let v := body_version req in
  let row := default (mkPackage p (userId user) (body_name req) (body_description req))
               (packages w !! p) in
  (upload_handler req w).1
  = json 201 (PublishedJson "Package published successfully" p v (name row)
                (sha256_hex buf) (length buf)
                ("/packages/" ++ p ++ "/" ++ v ++ "/download-file"))
  ∧ storage (upload_handler req w).2 = <[fileStorage.getFilePath p v := buf]> (storage w)
  ∧ ledger (upload_handler req w).2
    = <[createKey fabricNetwork.ctx p v :=
          mkSoftwareRelease p v (sha256_hex buf) "ACTIVE" mspId]> (ledger w)
  ∧ packages (upload_handler req w).2 = <[p := row]> (packages w).
Proof.
  intros Hfile Huser Hdb Hfs Hl Hown Hfree p v row. subst p v row.
  assert (∀ pkg w0,
    faults w0 = faults w → ledger w0 = ledger w →
    ∃ w3,
      handle (upload_publish req buf pkg) (λ error, json 500 (ErrorJson (message error))) w0
      = (json 201 (PublishedJson "Package published successfully"
                     (body_packageId req) (body_version req) (name pkg)
                     (sha256_hex buf) (length buf)
                     ("/packages/" ++ body_packageId req ++ "/" ++ body_version req
                      ++ "/download-file")), w3)
      ∧ storage w3
        = <[fileStorage.getFilePath (body_packageId req) (body_version req) := buf]>
            (storage w0)
      ∧ ledger w3
        = <[createKey fabricNetwork.ctx (body_packageId req) (body_version req) :=
              mkSoftwareRelease (body_packageId req) (body_version req)
                (sha256_hex buf) "ACTIVE" mspId]> (ledger w)
      ∧ packages w3 = packages w0) as Hpub.
  { intros pkg w0 Hf0 Hl0. unfold handle. rewrite upload_publish_run. cbn zeta.
    rewrite Hf0, Hfs, Hl, Hl0, Hfree.
    match goal with |- context [NotificationService.notifyVersionUpdate ?p ?v ?w2] =>
      destruct (notifyVersionUpdate_resolves p v w2) as (w3&Hrun&Hsame);
        [cbn; by rewrite Hf0|]; rewrite Hrun
    end.
    exists w3. destruct Hsame as (Hp&_&_&_&Hs&Hled&_). cbn in *.
    by rewrite Hp, Hs, Hled. }
  rewrite upload_handler_run. cbn zeta. rewrite Hfile, Hdb, Huser.
  destruct (packages w !! body_packageId req) as [pkg|] eqn:Hp; cbn [default].
  - rewrite decide_False by (intros [? ?]; by destruct Hown).
    destruct (Hpub pkg w eq_refl eq_refl) as (w3&->&Hs&Hled&Hpk). cbn.
    rewrite Hs, Hled, Hpk. repeat split. by rewrite insert_id.
  - destruct Hown as (Hid&Hname&[urow Hurow]).
    rewrite !varchar_fits, Hurow by done. cbn [negb andb].
    match goal with |- context [handle _ _ ?w0] =>
      destruct (Hpub (mkPackage (body_packageId req) (userId user) (body_name req)
                        (body_description req))
                  w0 eq_refl eq_refl) as (w3&->&Hs&Hled&Hpk)
    end. cbn. by rewrite Hs, Hled, Hpk.
Qed.

(** X11. An upload to a package that belongs to someone else is answered
    403 when the caller is not an administrator, and nothing is written:
    no file, no ledger record, no row. *)
Theorem upload_forbidden_for_non_owner (req : Request) (w : World)
    (buf : Buffer) (user : TokenPayload) (pkg : Package) :
  req_file req = Some buf →
  req_user req = Some user →
  db_fault (faults w) = None →
  packages w !! body_packageId req = Some pkg →
  owner_id pkg ≠ userId user → role user ≠ "ADMIN" →
  upload_handler req w
  = (json 403 (ErrorJson "Only package owner can publish new versions"), w).
Proof.
  intros Hfile Huser Hdb Hpkg Hown Hrole.
  rewrite upload_handler_run. cbn zeta. rewrite Hfile, Hdb, Huser, Hpkg.
  by rewrite decide_True.
Qed.

(** X12. Ownership is fixed at creation: whatever the request and however
    the upload ends, every Package row that existed before the upload
    handler ran is still there, unchanged. *)
Theorem upload_preserves_package_rows (req : Request) (w : World)
    (p : string) (pkg : Package) :
  packages w !! p = Some pkg →
  packages (upload_handler req w).2 !! p = Some pkg.
Proof.
  intros Hp. destruct (upload_packages_effect req w) as [_ [->|(row&Hnone&->)]]; [done|].
  rewrite lookup_insert_ne; [done|]. congruence.
Qed.

End UploadExtras.

Lemma upload_succeeds_witness :
  (@upload_handler hex_sha org1_config srv_root (upload_of alice b1) world0).1
  = json 201 (PublishedJson "Package published successfully" acme v100 "Acme library"
                (hex_of_bytes b1) 2 ("/packages/" ++ acme ++ "/" ++ v100 ++ "/download-file"))
  ∧ storage (@upload_handler hex_sha org1_config srv_root (upload_of alice b1) world0).2
    = <[@fileStorage.getFilePath srv_root acme v100 := b1]> (storage world0)
  ∧ ledger (@upload_handler hex_sha org1_config srv_root (upload_of alice b1) world0).2
    = <[createKey (@fabricNetwork.ctx org1_config) acme v100 :=
          mkSoftwareRelease acme v100 (hex_of_bytes b1) "ACTIVE" "Org1MSP"]> (ledger world0)
  ∧ packages (@upload_handler hex_sha org1_config srv_root (upload_of alice b1) world0).2
    = <[acme := mkPackage acme alice_id "Acme library" None]> (packages world0).
Proof.
  apply (@upload_succeeds hex_sha org1_config srv_root (upload_of alice b1) world0 b1 alice).
  - reflexivity.
  - reflexivity.
  - reflexivity.
  - reflexivity.
  - reflexivity.
  - vm_compute. repeat split; [lia|lia|]. eexists. reflexivity.
  - reflexivity.
Defined.

Lemma upload_forbidden_for_non_owner_witness :
  @upload_handler hex_sha org1_config srv_root (upload_of mallory b2) world1
  = (json 403 (ErrorJson "Only package owner can publish new versions"), world1).
Proof.
  apply (@upload_forbidden_for_non_owner hex_sha org1_config srv_root (upload_of mallory b2) world1
           b2 mallory (mkPackage acme alice_id "Acme library" None)).
  - reflexivity.
  - reflexivity.
  - reflexivity.
  - vm_compute. reflexivity.
  - vm_compute. intros [=].
  - vm_compute. intros [=].
Defined.

Lemma upload_preserves_package_rows_witness :
  packages (@upload_handler hex_sha org1_config srv_root (upload_of root b2) world1).2 !! acme
  = Some (mkPackage acme alice_id "Acme library" None).
Proof.
  apply (@upload_preserves_package_rows hex_sha org1_config srv_root (upload_of root b2) world1).
  vm_compute. reflexivity.
Defined.

Section StorageExtras.
Context `{Sha256} `{StorageRoot}.

Lemma getFile_run (p v : string) (w : World) :
  fs_fault (faults w) = None →
  fileStorage.getFile p v w =
    match storage w !! fileStorage.getFilePath p v with
    | Some buf => (Resolved buf, w)
    | None => (Rejected (mkError ("Package file not found: " ++ p ++ "@" ++ v) None), w)
    end.
Proof.
  intros Hfs. unfold fileStorage.getFile, try_catch, fs.readFile, fs.fs_call.
  rewrite bind_run, guarded_ok by done.
  by destruct (storage w !! _).
Qed.

Lemma fileExists_run (p v : string) (w : World) :
  fileStorage.fileExists p v w =
    (Resolved match fs_fault (faults w), storage w !! fileStorage.getFilePath p v with
              | None, Some _ => true
              | _, _ => false
              end, w).
Proof.
  unfold fileStorage.fileExists, try_catch, fs.access, fs.fs_call, guarded.
  rewrite bind_run. destruct (fs_fault (faults w)); [done|].
  by destruct (storage w !! _).
Qed.

Lemma deleteFile_ok (p v : string) (w : World) :
  fs_fault (faults w) = None →
  fileStorage.deleteFile p v w =
    (Resolved (),
     set_storage (filter (λ kv : Path * Buffer,
                    is_under (fileStorage.getVersionDir p v) kv.1 = false)) w).
Proof.
  intros Hfs. unfold fileStorage.deleteFile, try_catch, fs.rm, fs.fs_call.
  by rewrite guarded_ok.
Qed.

Lemma is_under_app_inv (dir a b : Path) :
  is_under (dir ++ a) (dir ++ b) = is_under a b.
Proof.
  induction dir as [|d dir IH]; [done|]. cbn. by rewrite decide_True.
Qed.

(** X13. What [saveFile] stores is what [getFile] reads: on a working file
    system [saveFile] resolves with the digest and length of the buffer,
    afterwards [fileExists] answers true and [getFile] returns the buffer,
    replacing whatever was stored at the path; every other path of the file
    system keeps what it had.  The path is [path.join] of the storage root,
    the package id and the version, so that the files of other packages and
    versions are among the paths that are kept when ids and versions are
    plain segments (not empty, not a dot segment, without a separator). *)
Theorem saveFile_then_getFile (p v : string) (buf : Buffer) (w : World) :
  fs_fault (faults w) = None →
  ∃ w1,
    fileStorage.saveFile p v buf w
      = (Resolved (mkSavedFile (fileStorage.getFilePath p v) (sha256_hex buf) (length buf)),
         w1)
    ∧ fileStorage.getFile p v w1 = (Resolved buf, w1)
    ∧ fileStorage.fileExists p v w1 = (Resolved true, w1)
    ∧ (∀ path, path ≠ fileStorage.getFilePath p v →
         storage w1 !! path = storage w !! path)
    ∧ (plain_segment p = true → plain_segment v = true →
       ∀ p' v', plain_segment p' = true → plain_segment v' = true →
         (p', v') ≠ (p, v) →
         storage w1 !! fileStorage.getFilePath p' v'
         = storage w !! fileStorage.getFilePath p' v').
Proof.
  intros Hfs. eexists. split; [by apply saveFile_ok|].
  split; [|split; [|split]].
  - rewrite getFile_run by done. cbn [storage set_storage].
    by rewrite lookup_insert_eq.
  - rewrite fileExists_run. cbn [faults storage set_storage].
    by rewrite Hfs, lookup_insert_eq.
  - intros path Hne. cbn [storage set_storage]. by rewrite lookup_insert_ne.
  - intros Hp Hv p' v' Hp' Hv' Hne. cbn [storage set_storage].
    rewrite lookup_insert_ne; [done|].
    rewrite !getFilePath_plain by done. intros Heq%app_inv_head. congruence.
Qed.

(** X14. [deleteFile] removes the version directory
    [path.join(storageDir, packageId, version)] with everything in it and
    nothing else: on a working file system it resolves whether or not the
    version is stored, afterwards [fileExists] answers false and [getFile]
    rejects with "Package file not found: <packageId>@<version>", and the
    paths outside the directory keep what they had.  When ids and versions
    are plain segments the directory holds the files of this one version,
    and the files of every other package or version are as before. *)
Theorem deleteFile_removes_one_version (p v : string) (w : World) :
  fs_fault (faults w) = None →
  ∃ w1,
    fileStorage.deleteFile p v w = (Resolved (), w1)
    ∧ fileStorage.fileExists p v w1 = (Resolved false, w1)
    ∧ fileStorage.getFile p v w1
      = (Rejected (mkError ("Package file not found: " ++ p ++ "@" ++ v) None), w1)
    ∧ (∀ path,
         storage w1 !! path
         = if is_under (fileStorage.getVersionDir p v) path then None
           else storage w !! path)
    ∧ (plain_segment p = true → plain_segment v = true →
       ∀ p' v', plain_segment p' = true → plain_segment v' = true →
         (p', v') ≠ (p, v) →
         storage w1 !! fileStorage.getFilePath p' v'
         = storage w !! fileStorage.getFilePath p' v').
Proof.
  intros Hfs. eexists. split; [by apply deleteFile_ok|].
  assert (∀ path,
    filter (λ kv : Path * Buffer, is_under (fileStorage.getVersionDir p v) kv.1 = false)
      (storage w) !! path
    = if is_under (fileStorage.getVersionDir p v) path then None else storage w !! path)
    as Hrm.
  { intros path. destruct (is_under (fileStorage.getVersionDir p v) path) eqn:Hin.
    - apply map_lookup_filter_None. right. intros buf _. cbn [fst]. by rewrite Hin.
    - destruct (storage w !! path) as [buf|] eqn:Hlk.
      + by apply map_lookup_filter_Some.
      + apply map_lookup_filter_None. by left. }
  split; [|split; [|split]].
  - rewrite fileExists_run. cbn [faults storage set_storage].
    by rewrite Hfs, Hrm, is_under_version_file.
  - rewrite getFile_run by done. cbn [storage set_storage].
    by rewrite Hrm, is_under_version_file.
  - intros path. cbn [storage set_storage]. apply Hrm.
  - intros Hp Hv p' v' Hp' Hv' Hne. cbn [storage set_storage]. rewrite Hrm.
    rewrite (getFilePath_plain p' v') by done.
    rewrite (getVersionDir_in_package_dir p v), (path_join_plain _ p) by done.
    rewrite <- app_assoc, is_under_app_inv. cbn.
    case_decide as H1; [|done]. case_decide as H2; [|done]. by subst.
Qed.

End StorageExtras.

Lemma saveFile_then_getFile_witness :
  ∃ w1,
    @fileStorage.saveFile hex_sha srv_root acme v100 b2 world1
      = (Resolved (mkSavedFile (@fileStorage.getFilePath srv_root acme v100) (hex_of_bytes b2)
                     (length b2)), w1)
    ∧ @fileStorage.getFile srv_root acme v100 w1 = (Resolved b2, w1)
    ∧ @fileStorage.fileExists srv_root acme v100 w1 = (Resolved true, w1)
    ∧ (∀ path, path ≠ @fileStorage.getFilePath srv_root acme v100 →
         storage w1 !! path = storage world1 !! path)
    ∧ (plain_segment acme = true → plain_segment v100 = true →
       ∀ p' v', plain_segment p' = true → plain_segment v' = true →
         (p', v') ≠ (acme, v100) →
         storage w1 !! @fileStorage.getFilePath srv_root p' v'
         = storage world1 !! @fileStorage.getFilePath srv_root p' v').
Proof.
  apply (@saveFile_then_getFile hex_sha srv_root acme v100 b2 world1). reflexivity.
Defined.

Lemma deleteFile_removes_one_version_witness :
  ∃ w1,
    @fileStorage.deleteFile srv_root acme v100 world1 = (Resolved (), w1)
    ∧ @fileStorage.fileExists srv_root acme v100 w1 = (Resolved false, w1)
    ∧ @fileStorage.getFile srv_root acme v100 w1
      = (Rejected (mkError ("Package file not found: " ++ acme ++ "@" ++ v100) None), w1)
    ∧ (∀ path,
         storage w1 !! path
         = if is_under (@fileStorage.getVersionDir srv_root acme v100) path then None
           else storage world1 !! path)
    ∧ (plain_segment acme = true → plain_segment v100 = true →
       ∀ p' v', plain_segment p' = true → plain_segment v' = true →
         (p', v') ≠ (acme, v100) →
         storage w1 !! @fileStorage.getFilePath srv_root p' v'
         = storage world1 !! @fileStorage.getFilePath srv_root p' v').
Proof.
  apply (@deleteFile_removes_one_version srv_root acme v100 world1). reflexivity.
Defined.

(** Ids and versions that are not plain segments: [path.join] gives the
    pairs [("a", "b/c")] and [("a/b", "c")] one file, and takes the version
    directory of [(".", "1.0.0")] for the directory of the package
    [1.0.0], so that deleting that one version removes every version of that
    package. *)
Example getFilePath_of_separator_sample :
  @fileStorage.getFilePath srv_root "a" "b/c" = @fileStorage.getFilePath srv_root "a/b" "c"
  ∧ @fileStorage.getFilePath srv_root "a" "b/c"
    = ["srv"; "packages-storage"; "a"; "b"; "c"; "package.tar.gz"]
  ∧ @fileStorage.getFilePath srv_root "/a//./b/" "c"
    = ["srv"; "packages-storage"; "a"; "b"; "c"; "package.tar.gz"]
  ∧ @fileStorage.getFilePath srv_root "../.." "etc"
    = ["etc"; "package.tar.gz"]
  ∧ @fileStorage.getFilePath srv_root "../../.." "etc"
    = ["etc"; "package.tar.gz"].
Proof. vm_compute. repeat split. Qed.

Example deleteFile_of_dot_sample :
  let upload := mkRequest (Some alice) None (Some b1) "1.0.0" "2.0.0" "Numbers" None "" "" in
  let w := (@upload_route hex_sha org1_config srv_root upload world0).2 in
  storage w !! @fileStorage.getFilePath srv_root "1.0.0" "2.0.0" = Some b1
  ∧ storage (@fileStorage.deleteFile srv_root "." "1.0.0" w).2 = ∅.
Proof. vm_compute. split; reflexivity. Qed.

Section DownloadExtras.
Context `{FabricConfig} `{StorageRoot}.

Lemma includes_not_found (p v : string) :
  includes ("Package file not found: " ++ p ++ "@" ++ v) "not found" = true.
Proof. by vm_compute. Qed.



Ltac not_served :=
  intros [= <- <-] Hcode; exfalso; revert Hcode;
  try destruct (includes _ _); cbn; done.

(** What a 200 answer of the download handler tells: the file was read and
    the one row was logged. *)
Lemma download_served_inv (req : Request) (w w' : World) (r : Response) :
  download_handler req w = (r, w') → status_code r = 200 →
  ∃ buf,
    r = json 200 (FileSent buf)
    ∧ db_fault (faults w) = None
    ∧ storage w !! fileStorage.getFilePath (params_packageId req) (params_version req)
      = Some buf
    ∧ w' = set_download_logs
             (λ ls, (ls ++ [mkDownloadLog (params_packageId req) (params_version req)
                              (or_null (userId <$> req_user req))
                              (or_null (req_ip req))])%list) w.
Proof.
  unfold download_handler, handle. cbn zeta. rewrite bind_run.
  destruct (ledger_fault (faults w)) as [msg|] eqn:Hl.
  { unfold fabricNetwork.getRelease, fabricNetwork.evaluateTransaction.
    rewrite bind_run, (guarded_fail _ _ _ _ msg) by done.
    not_served. }
  rewrite getRelease_run by done.
  destruct (ledger w !! _) as [rel|].
  2:{ not_served. }
  case_decide as Hst; [by intros [= <- <-]|].
  rewrite bind_run.
  destruct (fs_fault (faults w)) as [msg|] eqn:Hfs.
  { unfold fileStorage.getFile, try_catch, fs.readFile, fs.fs_call.
    rewrite bind_run, (guarded_fail _ _ _ _ msg) by done. cbn [code].
    rewrite decide_False by done.
    not_served. }
  rewrite getFile_run by done.
  destruct (storage w !! _) as [buf|].
  2:{ not_served. }
  rewrite bind_run. unfold DownloadLogModel.create, db_query, guarded.
  destruct (db_fault (faults w)) as [msg|].
  { not_served. }
  destruct (negb _).
  { not_served. }
  destruct (packages w !! params_packageId req).
  2:{ not_served. }
  destruct (DownloadLogModel.references_user _ _).
  2:{ not_served. }
  intros [= <- <-] _. by exists buf.
Qed.


(** X16. A release that is ACTIVE on the ledger but whose file is not in the
    store is answered 404 "Package file not found", and the request leaves
    no trace: nothing is logged.  This is the answer for every ACTIVE
    release of a package once the DELETE handler has run, since that handler
    removes the package directory and leaves the ledger alone; the file of
    the release lies in that directory when the version is a plain segment,
    as every version is that the validator of the route admits. *)
Theorem download_of_missing_file (req : Request) (w : World) (r : SoftwareRelease) :
  ledger_fault (faults w) = None → fs_fault (faults w) = None →
  ledger w !! createKey fabricNetwork.ctx (params_packageId req) (params_version req)
    = Some r →
  status r = "ACTIVE" →
  (storage w !! fileStorage.getFilePath (params_packageId req) (params_version req) = None →
   download_handler req w = (json 404 (ErrorJson "Package file not found"), w))
  ∧ (db_fault (faults w) = None →
     plain_segment (params_version req) = true →
     download_handler req (delete_handler req w).2
     = (json 404 (ErrorJson "Package file not found"), (delete_handler req w).2)).
Proof.
  assert (∀ w0,
    ledger_fault (faults w0) = None → fs_fault (faults w0) = None →
    ledger w0 !! createKey fabricNetwork.ctx (params_packageId req) (params_version req)
      = Some r →
    status r = "ACTIVE" →
    storage w0 !! fileStorage.getFilePath (params_packageId req) (params_version req)
      = None →
    download_handler req w0 = (json 404 (ErrorJson "Package file not found"), w0)) as Hmiss.
  { intros w0 Hl Hfs Hr Hst Hnone. unfold download_handler, handle. cbn zeta.
    rewrite bind_run, getRelease_run, Hr by done.
    rewrite decide_False by (by intros []).
    rewrite bind_run, getFile_run, Hnone by done. cbn [message].
    by rewrite includes_not_found. }
  intros Hl Hfs Hr Hst. split; [by apply Hmiss|]. intros Hdb Hv.
  rewrite delete_handler_run. cbn zeta. rewrite Hdb, Hfs.
  apply Hmiss; cbn -[path_join]; try done.
  apply map_lookup_filter_None. right. intros buf _. cbn -[path_join].
  by rewrite (is_under_package_file _ _ Hv).
Qed.

End DownloadExtras.


(** A version of 51 characters passes the validators of both routes: its
    upload is answered 201, and every download of it is answered 500 and
    logs nothing, the version being too long for [download_logs]. *)
Example download_of_long_version_sample :
  let long_version := "1.0." ++ String.concat "" (replicate 47 "0") in
  let upload := mkRequest (Some alice) None (Some b1) acme long_version "Acme library"
                  None "" "" in
  let download := mkRequest None None None "" "" "" None acme long_version in
  let w1 := (@upload_route hex_sha org1_config srv_root upload world0).2 in
  String.length long_version = 51
  ∧ status_code (@upload_route hex_sha org1_config srv_root upload world0).1 = 201
  ∧ @download_route org1_config srv_root download w1
    = (json 500 (ErrorJson "value too long for type character varying"), w1).
Proof. vm_compute. repeat split. Qed.

(** And a download with the token of a user whose row is gone is answered
    500: the log row would refer to no user. *)
Example download_by_unknown_user_sample :
  let zoe := mkTokenPayload zoe_id "zoe" "USER" in
  @download_route org1_config srv_root (plain_request (Some zoe)) world1
  = (json 500 (ErrorJson "insert or update violates foreign key constraint"), world1).
Proof. vm_compute. reflexivity. Qed.

Lemma download_of_missing_file_witness :
  (storage world1 !! @fileStorage.getFilePath srv_root acme v100 = None →
   @download_handler org1_config srv_root (plain_request None) world1
   = (json 404 (ErrorJson "Package file not found"), world1))
  ∧ (db_fault (faults world1) = None →
     plain_segment v100 = true →
     @download_handler org1_config srv_root (plain_request None)
       (@delete_handler srv_root (plain_request None) world1).2
     = (json 404 (ErrorJson "Package file not found"),
        (@delete_handler srv_root (plain_request None) world1).2)).
Proof.
  apply (@download_of_missing_file org1_config srv_root (plain_request None) world1 r_active).
  - reflexivity.
  - reflexivity.
  - vm_compute. reflexivity.
  - reflexivity.
Defined.

(** For a version that is no plain segment the second half of X16 fails: the
    artifact of the version [..] lies beside the package directory, the
    DELETE handler leaves it there, and its download is then answered 500,
    the log row having no package to refer to. *)
Example download_after_delete_of_dot_version_sample :
  let req := mkRequest None None None "" "" "" None acme ".." in
  let w := (@fabricNetwork.publishRelease org1_config acme ".." (hex_of_bytes b1)
              (@fileStorage.saveFile hex_sha srv_root acme ".." b1 world1).2).2 in
  let w' := (@delete_handler srv_root req w).2 in
  (@download_handler org1_config srv_root req w).1 = json 200 (FileSent b1)
  ∧ @download_handler org1_config srv_root req w'
    = (json 500 (ErrorJson "insert or update violates foreign key constraint"), w').
Proof. vm_compute. split; reflexivity. Qed.

(** X16 on the sample world: the release is still ACTIVE after the package
    was deleted, and its download is answered 404. *)
Example download_after_delete_sample :
  status_at (ledger world_after_delete) (createKey org1 acme v100) = Some "ACTIVE"
  ∧ @download_handler org1_config srv_root (plain_request None) world_after_delete
    = (json 404 (ErrorJson "Package file not found"), world_after_delete).
Proof. vm_compute. split; reflexivity. Qed.

Section DetailsExtras.
Context `{FabricConfig} `{StorageRoot}.

Lemma getDownloadCount_run (p v : string) (w : World) :
  db_fault (faults w) = None → v ≠ "" →
  DownloadLogModel.getDownloadCount p (Some v) w =
    (Resolved (length (filter (λ l, log_package_id l = p ∧ log_version l = v)
                         (download_logs w))), w).
Proof.
  intros Hdb Hv. unfold DownloadLogModel.getDownloadCount.
  rewrite decide_False by done. unfold db_query. by rewrite guarded_ok.
Qed.

(** X17. Every served download counts once: when the download handler
    answers 200, the download count of the packageId and version it served
    has gone up by one and the count of every other pair is what it was. *)
Theorem served_download_counts_once (req : Request) (w w' : World) (r : Response)
    (p' v' : string) :
  download_handler req w = (r, w') → status_code r = 200 →
  v' ≠ "" →
  ∃ n,
    DownloadLogModel.getDownloadCount p' (Some v') w = (Resolved n, w)
    ∧ DownloadLogModel.getDownloadCount p' (Some v') w'
      = (Resolved (n + if decide (p' = params_packageId req ∧ v' = params_version req)
                       then 1 else 0), w').
Proof.
  intros Hrun Hcode Hv.
  destruct (download_served_inv _ _ _ _ Hrun Hcode) as (buf&_&Hdb&_&->).
  eexists. split; [by apply getDownloadCount_run|].
  rewrite getDownloadCount_run by done. cbn [download_logs set_download_logs].
  rewrite filter_app, length_app. do 3 f_equal.
  rewrite filter_cons, filter_nil. cbn [log_package_id log_version].
  case_decide as H1; case_decide as H2; try done.
  - destruct H2. by destruct H1.
  - destruct H1. by destruct H2.
Qed.

(** X18. The release-details handler only reads.  When the ledger and the
    database answer and the key holds a record, it answers 200 with the
    ledger's record and the number of logged downloads of that version;
    [fileAvailable] is true exactly when the file system answers and the
    file is stored (a failing file system reads as "not available", not as
    an error), and a download URL is given exactly when [fileAvailable]. *)
Theorem release_details_read_only (req : Request) (w : World) (r : SoftwareRelease) :
  ledger_fault (faults w) = None → db_fault (faults w) = None →
  params_version req ≠ "" →
  ledger w !! createKey fabricNetwork.ctx (params_packageId req) (params_version req)
    = Some r →
  ∃ d,
    release_handler req w = (Answer 200 d, w)
    ∧ details_release d = r
    ∧ downloadCount d
      = length (filter (λ l, log_package_id l = params_packageId req
                             ∧ log_version l = params_version req) (download_logs w))
    ∧ (fileAvailable d = true ↔
       fs_fault (faults w) = None
       ∧ is_Some (storage w !! fileStorage.getFilePath (params_packageId req)
                                (params_version req)))
    ∧ downloadUrl d
      = if fileAvailable d
        then Some ("/packages/" ++ params_packageId req ++ "/" ++ params_version req
                   ++ "/download-file")
        else None.
Proof.
  intros Hl Hdb Hv Hr. unfold release_handler, reply. cbn zeta.
  rewrite bind_run, getRelease_run, Hr by done.
  rewrite bind_run, getDownloadCount_run by done.
  rewrite bind_run, fileExists_run. cbn [mret Async_ret].
  eexists. split; [done|]. cbn. split; [done|]. split; [done|]. split; [|done].
  destruct (fs_fault (faults w)); [by split; [|intros [[=] _]]|].
  destruct (storage w !! _); [by split|].
  split; [done|]. by intros [_ [? [=]]].
Qed.

End DetailsExtras.

Lemma served_download_counts_once_witness :
  ∃ n,
    DownloadLogModel.getDownloadCount acme (Some v100) world1 = (Resolved n, world1)
    ∧ DownloadLogModel.getDownloadCount acme (Some v100)
        (@download_handler org1_config srv_root (plain_request None) world1).2
      = (Resolved (n + if decide (acme = params_packageId (plain_request None)
                                  ∧ v100 = params_version (plain_request None))
                       then 1 else 0),
         (@download_handler org1_config srv_root (plain_request None) world1).2).
Proof.
  apply (@served_download_counts_once org1_config srv_root (plain_request None) world1
           (@download_handler org1_config srv_root (plain_request None) world1).2
           (@download_handler org1_config srv_root (plain_request None) world1).1
           acme v100).
  - vm_compute. reflexivity.
  - vm_compute. reflexivity.
  - intros [=].
Defined.

Lemma release_details_read_only_witness :
  ∃ d,
    @release_handler org1_config srv_root (plain_request None) world_after_delete
    = (Answer 200 d, world_after_delete)
    ∧ details_release d = r_active
    ∧ downloadCount d
      = length (filter (λ l, log_package_id l = params_packageId (plain_request None)
                             ∧ log_version l = params_version (plain_request None))
                  (download_logs world_after_delete))
    ∧ (fileAvailable d = true ↔
       fs_fault (faults world_after_delete) = None
       ∧ is_Some (storage world_after_delete
                    !! @fileStorage.getFilePath srv_root
                         (params_packageId (plain_request None))
                         (params_version (plain_request None))))
    ∧ downloadUrl d
      = if fileAvailable d
        then Some ("/packages/" ++ params_packageId (plain_request None) ++ "/"
                   ++ params_version (plain_request None) ++ "/download-file")
        else None.
Proof.
  apply (@release_details_read_only org1_config srv_root (plain_request None) world_after_delete
           r_active).
  - reflexivity.
  - reflexivity.
  - intros [=].
  - vm_compute. reflexivity.
Defined.

(** X18 on the sample world after the package was deleted: the release is
    reported ACTIVE, with no file and no download URL. *)
Example release_details_after_delete_sample :
  (@release_handler org1_config srv_root (plain_request None) world_after_delete).1
  = Answer 200 (mkReleaseDetails r_active 0 false None).
Proof. vm_compute. reflexivity. Qed.


Section FrameExtras.
Context `{Sha256} `{FabricConfig} `{StorageRoot}.
Context {B : Type} (field : World → B).

Lemma keeps_ret {A} (a : A) : keeps field (mret a).
Proof. by intros w. Qed.

Lemma keeps_reject {A} (e : Error) : keeps field (reject (A:=A) e).
Proof. by intros w. Qed.

Lemma keeps_bind {A C} (m : Async A) (f : A → Async C) :
  keeps field m → (∀ a, keeps field (f a)) → keeps field (m ≫= f).
Proof.
  intros Hm Hf w. rewrite bind_run. specialize (Hm w).
  destruct (m w) as [[a|e] w']; cbn in *; [|done]. by rewrite Hf.
Qed.

Lemma keeps_try_catch {A} (m : Async A) (h : Error → Async A) :
  keeps field m → (∀ e, keeps field (h e)) → keeps field (try_catch m h).
Proof.
  intros Hm Hh w. unfold try_catch. specialize (Hm w).
  destruct (m w) as [[a|e] w']; cbn in *; [done|]. by rewrite Hh.
Qed.

Lemma keeps_guarded {A} fault code (op : World → Result A * World) :
  (∀ w, field (op w).2 = field w) → keeps field (guarded fault code op).
Proof. intros Hop w. unfold guarded. by destruct (fault (faults w)). Qed.

Lemma keeps_handle (m : Async Response) (h : Error → Response) (w : World) :
  keeps field m → field (handle m h w).2 = field w.
Proof.
  intros Hm. unfold handle. specialize (Hm w). by destruct (m w) as [[r|e] w'].
Qed.

Lemma keeps_reply {A} (m : Async (Reply A)) (h : Error → Reply A) (w : World) :
  keeps field m → field (reply m h w).2 = field w.
Proof.
  intros Hm. unfold reply. specialize (Hm w). by destruct (m w) as [[r|e] w'].
Qed.

Lemma keeps_evaluateTransaction {A} (method : Tx A) :
  keeps field (fabricNetwork.evaluateTransaction method).
Proof.
  apply keeps_guarded. intros w. by destruct (method (ledger w)).
Qed.

Lemma keeps_getFile p v : keeps field (fileStorage.getFile p v).
Proof.
  apply keeps_try_catch.
  - apply keeps_bind; [|intros; apply keeps_ret].
    apply keeps_guarded. intros w. by destruct (storage w !! _).
  - intros e. case_decide; apply keeps_reject.
Qed.

Lemma keeps_fileExists p v : keeps field (fileStorage.fileExists p v).
Proof.
  apply keeps_try_catch; [|intros; apply keeps_ret].
  apply keeps_bind; [|intros; apply keeps_ret].
  apply keeps_guarded. intros w. by destruct (storage w !! _).
Qed.

Lemma keeps_findById p : keeps field (PackageModel.findById p).
Proof. by apply keeps_guarded. Qed.

Lemma keeps_getRelease p v : keeps field (fabricNetwork.getRelease p v).
Proof.
  apply keeps_bind; [apply keeps_evaluateTransaction|intros; apply keeps_ret].
Qed.

Lemma keeps_validateRelease p v h : keeps field (fabricNetwork.validateRelease p v h).
Proof.
  apply keeps_bind; [apply keeps_evaluateTransaction|intros; apply keeps_ret].
Qed.

Lemma keeps_getDownloadCount p v : keeps field (DownloadLogModel.getDownloadCount p v).
Proof.
  unfold DownloadLogModel.getDownloadCount.
  destruct v as [v|]; [case_decide|]; by apply keeps_guarded.
Qed.

Lemma keeps_user_of req : keeps field (user_of req).
Proof. unfold user_of. destruct (req_user req); [apply keeps_ret|apply keeps_reject]. Qed.

(** The handlers that only read. *)
Lemma keeps_validate_file_handler req w :
  field (validate_file_handler req w).2 = field w.
Proof.
  apply keeps_handle. cbn zeta. destruct (req_file req); [|apply keeps_ret].
  apply keeps_bind; [apply keeps_getRelease|]. intros r.
  apply keeps_bind; [apply keeps_validateRelease|]. intros b. apply keeps_ret.
Qed.

Lemma keeps_release_handler req w : field (release_handler req w).2 = field w.
Proof.
  apply keeps_reply. cbn zeta.
  apply keeps_bind; [apply keeps_getRelease|]. intros r.
  apply keeps_bind; [apply keeps_getDownloadCount|]. intros n.
  apply keeps_bind; [apply keeps_fileExists|]. intros b. apply keeps_ret.
Qed.

Lemma keeps_package_handler req w : field (package_handler req w).2 = field w.
Proof.
  apply keeps_reply. cbn zeta.
  apply keeps_bind; [apply keeps_findById|]. intros [pkg|]; apply keeps_ret.
Qed.

End FrameExtras.

(** X19. Validating a file, reading a release's details and reading a
    package's row change nothing: whatever the request, the state of the
    stores and however the handler ends, the world after is the world
    before. *)
Theorem reading_handlers_change_nothing `{Sha256} `{FabricConfig} `{StorageRoot}
    (req : Request) (w : World) :
  (validate_file_handler req w).2 = w
  ∧ (release_handler req w).2 = w
  ∧ (package_handler req w).2 = w.
Proof.
  split; [|split].
  - apply (keeps_validate_file_handler (λ w, w)).
  - apply (keeps_release_handler (λ w, w)).
  - apply (keeps_package_handler (λ w, w)).
Qed.

Section SubscriptionExtras.
Context `{FabricConfig} `{StorageRoot}.

Lemma subscribe_handler_run (req : Request) (w : World) :
  db_fault (faults w) = None →
  subscribe_handler req w =
    let p := params_packageId req in
    match packages w !! p with
    | None => (json 404 (ErrorJson "Package not found"), w)
    | Some _ =>
        match req_user req with
        | None => (json 500 (ErrorJson "Cannot read properties of undefined"), w)
        | Some user =>
            if decide ((userId user, p) ∈ subscriptions w) then
              (json 201 (MessageJson "Subscribed successfully"), w)
            else
              match users w !! userId user with
              | Some _ =>
                  (json 201 (MessageJson "Subscribed successfully"),
                   set_subscriptions (λ subs, (subs ++ [(userId user, p)])%list) w)
              | None =>
                  (json 500 (ErrorJson "insert or update violates foreign key constraint"), w)
              end
        end
    end.
Proof.
  intros Hdb. unfold subscribe_handler, handle. cbn zeta.
  rewrite bind_run. unfold PackageModel.findById, db_query at 1.
  rewrite guarded_ok by done.
  destruct (packages w !! params_packageId req) as [pkg|] eqn:Hp; [|done].
  rewrite bind_run. unfold user_of. destruct (req_user req) as [user|]; [|done].
  cbn [mret Async_ret]. rewrite bind_run.
  unfold SubscriptionModel.subscribe, db_query. rewrite guarded_ok by done.
  case_decide; [done|]. rewrite Hp. by destruct (users w !! userId user).
Qed.

Lemma isSubscribed_run (u p : string) (w : World) :
  db_fault (faults w) = None →
  SubscriptionModel.isSubscribed u p w = (Resolved (bool_decide ((u, p) ∈ subscriptions w)), w).
Proof.
  intros Hdb. unfold SubscriptionModel.isSubscribed, db_query.
  rewrite guarded_ok by done. do 2 f_equal. apply bool_decide_ext.
  split.
  - intros Hne.
    destruct (filter (λ s : string * string, s.1 = u ∧ s.2 = p) (subscriptions w))
      as [|[u' p'] rest] eqn:Hf; [done|].
    assert ((u', p') ∈ filter (λ s : string * string, s.1 = u ∧ s.2 = p) (subscriptions w))
      as [[Hu Hp] Hin]%list_elem_of_filter by (rewrite Hf; left).
    cbn in Hu, Hp. by subst.
  - intros Hin Hnil.
    by apply (filter_nil_not_elem_of (λ s : string * string, s.1 = u ∧ s.2 = p)
                _ (u, p) Hnil).
Qed.

(** X20. Subscribing works once and only once: for an existing package and
    a caller with a user row the handler answers 201; afterwards
    [isSubscribed] answers true and the caller is among the subscribers the
    notifier reads; a repeated request is answered 201 again and changes
    nothing, so the caller is never listed twice. *)
Theorem subscribe_is_idempotent (req : Request) (w : World)
    (user : TokenPayload) (pkg : Package) (row : User) :
  db_fault (faults w) = None →
  req_user req = Some user →
  packages w !! params_packageId req = Some pkg →
  users w !! userId user = Some row →
  ∃ w1,
    subscribe_handler req w = (json 201 (MessageJson "Subscribed successfully"), w1)
    ∧ SubscriptionModel.isSubscribed (userId user) (params_packageId req) w1
      = (Resolved true, w1)
    ∧ (∃ ids, SubscriptionModel.getSubscribersByPackage (params_packageId req) w1
              = (Resolved ids, w1) ∧ userId user ∈ ids)
    ∧ subscribe_handler req w1 = (json 201 (MessageJson "Subscribed successfully"), w1).
Proof.
  intros Hdb Huser Hpkg Hrow.
  assert (∀ w1, db_fault (faults w1) = None → packages w1 = packages w →
            (userId user, params_packageId req) ∈ subscriptions w1 →
            SubscriptionModel.isSubscribed (userId user) (params_packageId req) w1
              = (Resolved true, w1)
            ∧ (∃ ids, SubscriptionModel.getSubscribersByPackage (params_packageId req) w1
                      = (Resolved ids, w1) ∧ userId user ∈ ids)
            ∧ subscribe_handler req w1
              = (json 201 (MessageJson "Subscribed successfully"), w1)) as Hafter.
  { intros w1 Hdb1 Hpk1 Hin. split; [|split].
    - rewrite isSubscribed_run by done. by rewrite bool_decide_eq_true_2.
    - unfold SubscriptionModel.getSubscribersByPackage, db_query.
      rewrite guarded_ok by done. eexists. split; [done|].
      apply list_elem_of_fmap. exists (userId user, params_packageId req).
      split; [done|]. by apply list_elem_of_filter.
    - rewrite subscribe_handler_run by done. cbn zeta.
      by rewrite Hpk1, Hpkg, Huser, decide_True. }
  rewrite subscribe_handler_run by done. cbn zeta. rewrite Hpkg, Huser.
  case_decide as Hin.
  - exists w. split; [done|]. by apply Hafter.
  - rewrite Hrow. eexists. split; [done|]. apply Hafter; [done..|].
    cbn. apply elem_of_app. right. by apply list_elem_of_singleton.
Qed.

(** X21. Unsubscribing removes the caller's subscription to the package
    and no other: the handler answers 200 whether or not the caller was
    subscribed, afterwards [isSubscribed] answers false, and every other
    subscription is listed exactly as before. *)
Theorem unsubscribe_removes_one (req : Request) (w : World) (user : TokenPayload) :
  db_fault (faults w) = None →
  req_user req = Some user →
  ∃ w1,
    unsubscribe_handler req w = (json 200 (MessageJson "Unsubscribed successfully"), w1)
    ∧ SubscriptionModel.isSubscribed (userId user) (params_packageId req) w1
      = (Resolved false, w1)
    ∧ ∀ u p, (u, p) ≠ (userId user, params_packageId req) →
        ((u, p) ∈ subscriptions w1 ↔ (u, p) ∈ subscriptions w).
Proof.
  intros Hdb Huser. unfold unsubscribe_handler, handle. cbn zeta.
  rewrite bind_run. unfold user_of. rewrite Huser. cbn [mret Async_ret].
  rewrite bind_run. unfold SubscriptionModel.unsubscribe, db_query.
  rewrite guarded_ok by done. cbn [mret Async_ret].
  eexists. split; [done|]. split.
  - rewrite isSubscribed_run by done. rewrite bool_decide_eq_false_2; [done|].
    cbn. intros [Hnot _]%list_elem_of_filter. by destruct Hnot.
  - intros u p Hne. cbn. rewrite list_elem_of_filter. cbn. split; [by intros [_ ?]|].
    intros Hin. split; [|done]. intros [-> ->]. done.
Qed.

End SubscriptionExtras.

Lemma subscribe_is_idempotent_witness :
  ∃ w1,
    subscribe_handler (plain_request (Some bob))
      (set_subscriptions (λ _, []) world1_subscribed)
    = (json 201 (MessageJson "Subscribed successfully"), w1)
    ∧ SubscriptionModel.isSubscribed (userId bob) (params_packageId (plain_request (Some bob))) w1
      = (Resolved true, w1)
    ∧ (∃ ids, SubscriptionModel.getSubscribersByPackage
                (params_packageId (plain_request (Some bob))) w1
              = (Resolved ids, w1) ∧ userId bob ∈ ids)
    ∧ subscribe_handler (plain_request (Some bob)) w1
      = (json 201 (MessageJson "Subscribed successfully"), w1).
Proof.
  apply (subscribe_is_idempotent (plain_request (Some bob))
           (set_subscriptions (λ _, []) world1_subscribed) bob
           (mkPackage acme alice_id "Acme library" None) (mkUser "bob@example.com")).
  - reflexivity.
  - reflexivity.
  - vm_compute. reflexivity.
  - vm_compute. reflexivity.
Defined.

Lemma unsubscribe_removes_one_witness :
  ∃ w1,
    unsubscribe_handler (plain_request (Some bob)) world1_subscribed
    = (json 200 (MessageJson "Unsubscribed successfully"), w1)
    ∧ SubscriptionModel.isSubscribed (userId bob) (params_packageId (plain_request (Some bob))) w1
      = (Resolved false, w1)
    ∧ ∀ u p, (u, p) ≠ (userId bob, params_packageId (plain_request (Some bob))) →
        ((u, p) ∈ subscriptions w1 ↔ (u, p) ∈ subscriptions world1_subscribed).
Proof.
  apply (unsubscribe_removes_one (plain_request (Some bob)) world1_subscribed bob).
  - reflexivity.
  - reflexivity.
Defined.

Section LedgerFrameExtras.
Context `{Sha256} `{FabricConfig} `{StorageRoot}.

(** What the upload handler can do to the ledger: nothing, or one new
    ACTIVE record at a key that was free. *)
Lemma upload_ledger_effect (req : Request) (w : World) :
  ledger (upload_handler req w).2 = ledger w
  ∨ ∃ buf,
      req_file req = Some buf
      ∧ is_Some (req_user req)
      ∧ ledger w !! createKey fabricNetwork.ctx (body_packageId req) (body_version req) = None
      ∧ ledger (upload_handler req w).2
        = <[createKey fabricNetwork.ctx (body_packageId req) (body_version req) :=
              mkSoftwareRelease (body_packageId req) (body_version req)
                (sha256_hex buf) "ACTIVE" mspId]> (ledger w).
Proof.
  assert (∀ buf row w0, ledger w0 = ledger w →
    ledger (handle (upload_publish req buf row)
              (λ error, json 500 (ErrorJson (message error))) w0).2 = ledger w
    ∨ (ledger w !! createKey fabricNetwork.ctx (body_packageId req) (body_version req) = None
       ∧ ledger (handle (upload_publish req buf row)
                   (λ error, json 500 (ErrorJson (message error))) w0).2
         = <[createKey fabricNetwork.ctx (body_packageId req) (body_version req) :=
               mkSoftwareRelease (body_packageId req) (body_version req)
                 (sha256_hex buf) "ACTIVE" mspId]> (ledger w))) as Hpub.
  { intros buf row w0 Hl0. unfold handle. rewrite upload_publish_run. cbn zeta.
    destruct (fs_fault (faults w0)); [by left|].
    destruct (ledger_fault (faults w0)); [by left|].
    rewrite Hl0. destruct (ledger w !! _) eqn:Hfree; [by left|].
    match goal with |- context [NotificationService.notifyVersionUpdate ?p ?v ?w2] =>
      pose proof (mail_only_notifyVersionUpdate p v w2) as Hsame;
      destruct (NotificationService.notifyVersionUpdate p v w2) as [[[]|e] w3]
    end; destruct Hsame as (_&_&_&_&_&Hled&_); cbn in *; right; by rewrite Hled. }
  rewrite upload_handler_run. cbn zeta.
  destruct (req_file req) as [buf|]; [|by left].
  destruct (db_fault (faults w)); [by left|].
  destruct (req_user req) as [user|]; [|by left].
  destruct (packages w !! body_packageId req) as [pkg|].
  - case_decide; [by left|].
    destruct (Hpub buf pkg w eq_refl) as [?|[? ?]]; [by left|right; eauto].
  - destruct (negb _); [by left|].
    destruct (users w !! userId user); [|by left].
    match goal with |- context [handle (upload_publish req buf ?row) _ ?w0] =>
      destruct (Hpub buf row w0 eq_refl) as [?|[? ?]]
    end; [by left|right; eauto].
Qed.

Lemma keeps_ledger_download_handler (req : Request) (w : World) :
  ledger (download_handler req w).2 = ledger w.
Proof.
  apply (keeps_handle ledger). cbn zeta.
  apply keeps_bind; [apply keeps_getRelease|]. intros r.
  case_decide; [apply keeps_ret|].
  apply keeps_bind; [apply keeps_getFile|]. intros buf.
  apply keeps_bind; [|intros; apply keeps_ret].
  apply keeps_guarded. intros w0. destruct (negb _); [done|].
  destruct (packages w0 !! _); [|done].
  by destruct (DownloadLogModel.references_user _ _).
Qed.

Lemma keeps_ledger_subscribe_handler (req : Request) (w : World) :
  ledger (subscribe_handler req w).2 = ledger w.
Proof.
  apply (keeps_handle ledger). cbn zeta.
  apply keeps_bind; [apply keeps_findById|]. intros [pkg|]; [|apply keeps_ret].
  apply keeps_bind; [apply keeps_user_of|]. intros user.
  apply keeps_bind; [|intros; apply keeps_ret].
  apply keeps_guarded. intros w0. case_decide; [done|].
  by destruct (users w0 !! userId user), (packages w0 !! params_packageId req).
Qed.

Lemma keeps_ledger_unsubscribe_handler (req : Request) (w : World) :
  ledger (unsubscribe_handler req w).2 = ledger w.
Proof.
  apply (keeps_handle ledger). cbn zeta.
  apply keeps_bind; [apply keeps_user_of|]. intros user.
  apply keeps_bind; [|intros; apply keeps_ret]. by apply keeps_guarded.
Qed.

(** X22. No handler of the gateway rewrites or removes a ledger record: a
    record that is on the ledger before a request is the same after it,
    for the upload, download, validate-file, delete, details, package,
    subscribe and unsubscribe handlers alike.  In particular none of them
    can change a release's status. *)
Theorem handlers_keep_ledger_records (req : Request) (w : World)
    (key : string) (r : SoftwareRelease) :
  ledger w !! key = Some r →
  ledger (upload_handler req w).2 !! key = Some r
  ∧ ledger (download_handler req w).2 !! key = Some r
  ∧ ledger (validate_file_handler req w).2 !! key = Some r
  ∧ ledger (delete_handler req w).2 !! key = Some r
  ∧ ledger (release_handler req w).2 !! key = Some r
  ∧ ledger (package_handler req w).2 !! key = Some r
  ∧ ledger (subscribe_handler req w).2 !! key = Some r
  ∧ ledger (unsubscribe_handler req w).2 !! key = Some r.
Proof.
  intros Hr. repeat split.
  - destruct (upload_ledger_effect req w) as [->|(buf&_&_&Hfree&->)]; [done|].
    rewrite lookup_insert_ne; [done|]. congruence.
  - by rewrite keeps_ledger_download_handler.
  - by rewrite (keeps_validate_file_handler ledger).
  - rewrite delete_handler_run. cbn zeta.
    destruct (db_fault (faults w)); [done|]. by destruct (fs_fault (faults w)).
  - by rewrite (keeps_release_handler ledger).
  - by rewrite (keeps_package_handler ledger).
  - by rewrite keeps_ledger_subscribe_handler.
  - by rewrite keeps_ledger_unsubscribe_handler.
Qed.

(** X23. The upload route writes to the ledger only for a caller with role
    OWNER or ADMIN and only under a validated key: if the ledger after the
    request differs from the ledger before, then the packageId and version
    passed the validators, and the difference is one new ACTIVE record at
    the key packageId:version, which was free. *)
Theorem upload_route_writes_validated_keys (req : Request) (w : World) :
  ledger (upload_route req w).2 = ledger w
  ∨ (matches_packageId (body_packageId req) = true
     ∧ matches_version (body_version req) = true
     ∧ (∃ user, req_user req = Some user ∧ (role user = "OWNER" ∨ role user = "ADMIN"))
     ∧ ∃ buf,
         req_file req = Some buf
         ∧ ledger w !! createKey fabricNetwork.ctx (body_packageId req) (body_version req)
           = None
         ∧ ledger (upload_route req w).2
           = <[createKey fabricNetwork.ctx (body_packageId req) (body_version req) :=
                 mkSoftwareRelease (body_packageId req) (body_version req)
                   (sha256_hex buf) "ACTIVE" mspId]> (ledger w)).
Proof.
  unfold upload_route, requireOwnerOrAdmin, requireRole.
  destruct (req_user req) as [user|] eqn:Huser; [|by left].
  case_decide as Hrole; [|by left].
  destruct (matches_packageId (body_packageId req)) eqn:Hp; [|by left].
  destruct (matches_version (body_version req)) eqn:Hv; [|by left].
  cbn [andb]. destruct (_ && _); [|by left].
  destruct (upload_ledger_effect req w) as [?|(buf&Hfile&_&Hfree&Hled)]; [by left|].
  right. split; [done|]. split; [done|]. split; [|by eauto].
  exists user. split; [done|].
  apply elem_of_cons in Hrole as [?|Hrole]; [by left|].
  apply list_elem_of_singleton in Hrole. by right.
Qed.

End LedgerFrameExtras.

Lemma handlers_keep_ledger_records_witness :
  ledger (@upload_handler hex_sha org1_config srv_root (upload_of alice b2) world1).2
    !! createKey org1 acme v100 = Some r_active
  ∧ ledger (@download_handler org1_config srv_root (upload_of alice b2) world1).2
      !! createKey org1 acme v100 = Some r_active
  ∧ ledger (@validate_file_handler hex_sha org1_config (upload_of alice b2) world1).2
      !! createKey org1 acme v100 = Some r_active
  ∧ ledger (@delete_handler srv_root (upload_of alice b2) world1).2
      !! createKey org1 acme v100 = Some r_active
  ∧ ledger (@release_handler org1_config srv_root (upload_of alice b2) world1).2
      !! createKey org1 acme v100 = Some r_active
  ∧ ledger (package_handler (upload_of alice b2) world1).2
      !! createKey org1 acme v100 = Some r_active
  ∧ ledger (subscribe_handler (upload_of alice b2) world1).2
      !! createKey org1 acme v100 = Some r_active
  ∧ ledger (unsubscribe_handler (upload_of alice b2) world1).2
      !! createKey org1 acme v100 = Some r_active.
Proof.
  apply (@handlers_keep_ledger_records hex_sha org1_config srv_root (upload_of alice b2) world1
           (createKey org1 acme v100) r_active).
  vm_compute. reflexivity.
Defined.

Section IntegrityExtras.
Context `{Sha256} `{FabricConfig} `{StorageRoot}.

Lemma download_keeps_tables (req : Request) (w : World) :
  packages (download_handler req w).2 = packages w
  ∧ subscriptions (download_handler req w).2 = subscriptions w.
Proof.
  split.
  - apply (keeps_handle packages). cbn zeta.
    apply keeps_bind; [apply keeps_getRelease|]. intros r.
    case_decide; [apply keeps_ret|].
    apply keeps_bind; [apply keeps_getFile|]. intros buf.
    apply keeps_bind; [|intros; apply keeps_ret].
    apply keeps_guarded. intros w0. destruct (negb _); [done|].
    destruct (packages w0 !! _); [|done].
    by destruct (DownloadLogModel.references_user _ _).
  - apply (keeps_handle subscriptions). cbn zeta.
    apply keeps_bind; [apply keeps_getRelease|]. intros r.
    case_decide; [apply keeps_ret|].
    apply keeps_bind; [apply keeps_getFile|]. intros buf.
    apply keeps_bind; [|intros; apply keeps_ret].
    apply keeps_guarded. intros w0. destruct (negb _); [done|].
    destruct (packages w0 !! _); [|done].
    by destruct (DownloadLogModel.references_user _ _).
Qed.

Lemma subscribe_handler_down (req : Request) (w : World) (msg : string) :
  db_fault (faults w) = Some msg →
  subscribe_handler req w = (json 500 (ErrorJson msg), w).
Proof.
  intros Hdb. unfold subscribe_handler, handle. cbn zeta. rewrite bind_run.
  unfold PackageModel.findById, db_query. by rewrite (guarded_fail _ _ _ _ msg).
Qed.

Lemma unsubscribe_handler_run (req : Request) (w : World) :
  unsubscribe_handler req w =
    match req_user req with
    | None => (json 500 (ErrorJson "Cannot read properties of undefined"), w)
    | Some user =>
        match db_fault (faults w) with
        | Some msg => (json 500 (ErrorJson msg), w)
        | None =>
            (json 200 (MessageJson "Unsubscribed successfully"),
             set_subscriptions
               (filter (λ s, ¬ (s.1 = userId user ∧ s.2 = params_packageId req))) w)
        end
    end.
Proof.
  unfold unsubscribe_handler, handle. cbn zeta. rewrite bind_run.
  unfold user_of. destruct (req_user req) as [user|]; [|done].
  cbn [mret Async_ret]. rewrite bind_run.
  unfold SubscriptionModel.unsubscribe, db_query, guarded.
  by destruct (db_fault (faults w)).
Qed.

(** X24. Subscriptions never dangle: if every subscription is to a package
    that has a row, this is still so after any upload, download, delete,
    subscribe or unsubscribe request, whatever the request and however it
    ends.  (The subscribe handler refuses unknown packages, and deleting a
    package takes its subscriptions along.) *)
Theorem subscriptions_never_dangle (req : Request) (w : World) :
  subscriptions_refer_to_packages w →
  subscriptions_refer_to_packages (upload_handler req w).2
  ∧ subscriptions_refer_to_packages (download_handler req w).2
  ∧ subscriptions_refer_to_packages (delete_handler req w).2
  ∧ subscriptions_refer_to_packages (subscribe_handler req w).2
  ∧ subscriptions_refer_to_packages (unsubscribe_handler req w).2.
Proof.
  intros Hinv. unfold subscriptions_refer_to_packages in *. repeat split.
  - intros u p. destruct (upload_packages_effect req w) as [-> [->|(row&Hnone&->)]];
      intros Hin; [by eauto|].
    destruct (decide (p = body_packageId req)) as [->|Hne].
    + by rewrite lookup_insert_eq.
    + rewrite lookup_insert_ne by done. by eauto.
  - intros u p. destruct (download_keeps_tables req w) as [-> ->]. by eauto.
  - intros u p. rewrite delete_handler_run. cbn zeta.
    destruct (db_fault (faults w)); [by eauto|].
    destruct (fs_fault (faults w)); cbn;
      intros [Hne Hin]%list_elem_of_filter; cbn in Hne;
      rewrite lookup_delete_ne by done; by eauto.
  - intros u p. destruct (db_fault (faults w)) as [msg|] eqn:Hdb.
    { rewrite (subscribe_handler_down req w msg) by done. by eauto. }
    rewrite subscribe_handler_run by done. cbn zeta.
    destruct (packages w !! params_packageId req) as [pkg|] eqn:Hpkg; [|by eauto].
    destruct (req_user req) as [user|]; [|by eauto].
    case_decide; [by eauto|].
    destruct (users w !! userId user); [|by eauto]. cbn.
    intros [Hin|Hin%list_elem_of_singleton]%elem_of_app; [by eauto|].
    injection Hin as -> ->. by rewrite Hpkg.
  - intros u p. rewrite unsubscribe_handler_run.
    destruct (req_user req) as [user|]; [|by eauto].
    destruct (db_fault (faults w)); [by eauto|]. cbn.
    intros [_ Hin]%list_elem_of_filter. by eauto.
Qed.

(** X25. The local check and the ledger's check agree: for a release that
    is ACTIVE on the ledger, [validateRelease] with the digest of a
    buffer answers what [HashUtil.validateHash] answers for that buffer
    against the recorded hash, and that is true exactly when the digest is
    the recorded hash. *)
Theorem validateHash_agrees_with_ledger (p v : string) (buf : Buffer)
    (w : World) (r : SoftwareRelease) :
  ledger_fault (faults w) = None →
  ledger w !! createKey fabricNetwork.ctx p v = Some r →
  status r = "ACTIVE" →
  fabricNetwork.validateRelease p v (fileStorage.calculateFileHash buf) w
  = (Resolved (HashUtil.validateHash buf (fileHash r)), w)
  ∧ (HashUtil.validateHash buf (fileHash r) = true ↔ sha256_hex buf = fileHash r).
Proof.
  intros Hl Hr Hst. split.
  - rewrite validateRelease_run, Hr, Hst by done.
    unfold HashUtil.validateHash, HashUtil.generateSHA256, fileStorage.calculateFileHash.
    replace (String.eqb "DISCONTINUED" "ACTIVE") with false by (by vm_compute).
    by rewrite andb_true_r, String.eqb_sym.
  - unfold HashUtil.validateHash, HashUtil.generateSHA256. apply String.eqb_eq.
Qed.

End IntegrityExtras.

Lemma subscriptions_never_dangle_witness :
  subscriptions_refer_to_packages
    (@upload_handler hex_sha org1_config srv_root (plain_request (Some root)) world1_subscribed).2
  ∧ subscriptions_refer_to_packages
      (@download_handler org1_config srv_root (plain_request (Some root)) world1_subscribed).2
  ∧ subscriptions_refer_to_packages
      (@delete_handler srv_root (plain_request (Some root)) world1_subscribed).2
  ∧ subscriptions_refer_to_packages
      (subscribe_handler (plain_request (Some root)) world1_subscribed).2
  ∧ subscriptions_refer_to_packages
      (unsubscribe_handler (plain_request (Some root)) world1_subscribed).2.
Proof.
  apply (@subscriptions_never_dangle hex_sha org1_config srv_root
           (plain_request (Some root)) world1_subscribed).
  intros u p Hin. vm_compute in Hin.
  apply list_elem_of_singleton in Hin. injection Hin as -> ->.
  vm_compute. eauto.
Defined.

Lemma validateHash_agrees_with_ledger_witness :
  @fabricNetwork.validateRelease org1_config acme v100
    (@fileStorage.calculateFileHash hex_sha b2) world1
  = (Resolved (@HashUtil.validateHash hex_sha b2 (fileHash r_active)), world1)
  ∧ (@HashUtil.validateHash hex_sha b2 (fileHash r_active) = true
     ↔ hex_of_bytes b2 = fileHash r_active).
Proof.
  apply (@validateHash_agrees_with_ledger hex_sha org1_config acme v100 b2 world1 r_active).
  - reflexivity.
  - vm_compute. reflexivity.
  - reflexivity.
Defined.


Section OwnershipExtras.

(** X26. [requirePackageOwner] lets an administrator through without
    asking the database, lets any other caller through exactly when the
    package has a row owned by the caller, and never changes the world; a
    package without a row is refused like a foreign one. *)
Theorem requirePackageOwner_lets_owner_through (req : Request) (w : World)
    (user : TokenPayload) :
  req_user req = Some user →
  (requirePackageOwner req w).2 = w
  ∧ (role user = "ADMIN" → (requirePackageOwner req w).1 = None)
  ∧ (role user ≠ "ADMIN" → db_fault (faults w) = None → params_packageId req ≠ "" →
     ((requirePackageOwner req w).1 = None ↔
      ∃ pkg, packages w !! params_packageId req = Some pkg ∧ owner_id pkg = userId user)
     ∧ ((requirePackageOwner req w).1 ≠ None →
        (requirePackageOwner req w).1
        = Some (json 403 (ErrorJson "Only package owner can perform this action")))).
Proof.
  intros Huser. split; [|split].
  - unfold requirePackageOwner, try_catch. rewrite Huser.
    case_decide; [done|]. case_decide; [done|]. rewrite bind_run.
    unfold PackageModel.isOwner, db_query, guarded.
    destruct (db_fault (faults w)); [done|].
    by destruct (match packages w !! _ with Some _ => _ | None => _ end).
  - intros Hadmin. unfold requirePackageOwner, try_catch. rewrite Huser.
    by rewrite decide_True.
  - intros Hadmin Hdb Hparam. unfold requirePackageOwner, try_catch. rewrite Huser.
    rewrite decide_False by done. rewrite (decide_False (P:=params_packageId req = "")) by done.
    rewrite decide_False by done. rewrite bind_run.
    unfold PackageModel.isOwner, db_query. rewrite guarded_ok by done.
    destruct (packages w !! params_packageId req) as [pkg|].
    + case_bool_decide as Hown; cbn.
      * split; [|done]. split; [by eauto|done].
      * split; [|done]. split; [done|]. intros (pkg'&[= <-]&?). done.
    + cbn. split; [|done]. split; [done|]. by intros (?&[=]&_).
Qed.


(** X28. Only an administrator can make the DELETE route do anything: when
    the route changes the world, the request carried a token with role
    ADMIN and a non-empty packageId; every other request is answered 401,
    403 or 400 with the world as it was. *)
Theorem delete_route_admin_only `{StorageRoot} (req : Request) (w : World) :
  (∃ user, req_user req = Some user ∧ role user = "ADMIN"
           ∧ params_packageId req ≠ ""
           ∧ delete_route req w = delete_handler req w)
  ∨ ((delete_route req w).2 = w
     ∧ status_code (delete_route req w).1 ∈ [400; 401; 403]).
Proof.
  unfold delete_route, requireAdmin, requireRole.
  destruct (req_user req) as [user|].
  - case_decide as Hrole.
    + apply list_elem_of_singleton in Hrole.
      destruct (String.eqb (params_packageId req) "") eqn:Hp.
      * right. split; [done|]. cbn. set_solver.
      * left. exists user. repeat split; [done|]. by apply String.eqb_neq.
    + right. split; [done|]. cbn. set_solver.
  - right. split; [done|]. cbn. set_solver.
Qed.

End OwnershipExtras.

Lemma requirePackageOwner_lets_owner_through_witness :
  (requirePackageOwner (plain_request (Some mallory)) world1).2 = world1
  ∧ (role mallory = "ADMIN" →
     (requirePackageOwner (plain_request (Some mallory)) world1).1 = None)
  ∧ (role mallory ≠ "ADMIN" → db_fault (faults world1) = None →
     params_packageId (plain_request (Some mallory)) ≠ "" →
     ((requirePackageOwner (plain_request (Some mallory)) world1).1 = None ↔
      ∃ pkg, packages world1 !! params_packageId (plain_request (Some mallory)) = Some pkg
             ∧ owner_id pkg = userId mallory)
     ∧ ((requirePackageOwner (plain_request (Some mallory)) world1).1 ≠ None →
        (requirePackageOwner (plain_request (Some mallory)) world1).1
        = Some (json 403 (ErrorJson "Only package owner can perform this action")))).
Proof.
  apply (requirePackageOwner_lets_owner_through (plain_request (Some mallory)) world1 mallory).
  reflexivity.
Defined.


(** X27 on the sample world: a name of 256 characters is refused and the
    row keeps the name it had. *)
Example update_with_long_name_sample :
  let long_name := String.concat "" (replicate 256 "n") in
  PackageModel.update acme long_name "A library" world1
  = (Rejected value_too_long, world1)
  ∧ name <$> packages world1 !! acme = Some "Acme library".
Proof. vm_compute. split; reflexivity. Qed.
